(** * Priority arbitration and workload-aware assignment

    A shallow embedding of [devops_service.py] and [config.py]: the priority
    arbiter, the workload prober, the assignment router, the analysis
    generator with its fallback template, and the ticket pipeline.

    Python dictionaries are records whose optional keys are [option] fields,
    a value that may be something else than the text the code expects is a
    [Json], exceptions are values of [Exn] carried by an error-and-state
    monad, and
    the collaborators reached over HTTP (Redmine, Ollama, the clock) are the
    methods of the class [External]. *)

From Stdlib Require Import ZArith Ascii String List Bool Lia DecimalString.
From stdpp Require Import base option strings list gmap.

Local Open Scope string_scope.
Local Open Scope list_scope.
Local Open Scope Z_scope.

(** ** Text

    Strings are 7-bit text; [lower], [upper] and [strip] act on that range
    as [str.lower], [str.upper] and [str.strip] do. *)
Module Text.

Definition in_range (lo hi : N) (c : ascii) : bool :=
  let n := N_of_ascii c in (lo <=? n)%N && (n <=? hi)%N.

Definition lower_char (c : ascii) : ascii :=
  if in_range 65 90 c then ascii_of_N (N_of_ascii c + 32) else c.

Definition upper_char (c : ascii) : ascii :=
  if in_range 97 122 c then ascii_of_N (N_of_ascii c - 32) else c.

(** [str.isspace] below 128: tab to carriage return, the four separators
    0x1c to 0x1f, and the space. *)
Definition isspace (c : ascii) : bool :=
  in_range 9 13 c || in_range 28 32 c.

Fixpoint map_chars (f : ascii -> ascii) (s : string) : string :=
  match s with
  | EmptyString => EmptyString
  | String c s' => String (f c) (map_chars f s')
  end.

Definition lower : string -> string := map_chars lower_char.
Definition upper : string -> string := map_chars upper_char.

Fixpoint lstrip (s : string) : string :=
  match s with
  | EmptyString => EmptyString
  | String c s' => if isspace c then lstrip s' else s
  end.

Fixpoint rstrip (s : string) : string :=
  match s with
  | EmptyString => EmptyString
  | String c s' =>
      match rstrip s' with
      | EmptyString => if isspace c then EmptyString else String c EmptyString
      | r => String c r
      end
  end.

Definition strip (s : string) : string := rstrip (lstrip s).

(** [sub in s] on strings: [sub] occurs in [s] as a contiguous run. *)
Fixpoint contains (sub s : string) : bool :=
  String.prefix sub s ||
  match s with
  | EmptyString => false
  | String _ s' => contains sub s'
  end.

(** [any(w in s for w in words)] *)
Definition any_in (words : list string) (s : string) : bool :=
  existsb (fun w => contains w s) words.

(** A string is truthy when it is not empty. *)
Definition truthy (s : string) : bool :=
  match s with EmptyString => false | String _ _ => true end.

(** [str(n)] for an integer. *)
Definition str_int (n : Z) : string := NilZero.string_of_int (Z.to_int n).

(** [chr(10).join(lines)] *)
Fixpoint join_lines (lines : list string) : string :=
  match lines with
  | [] => ""
  | [l] => l
  | l :: rest => l +:+ String (ascii_of_N 10) (join_lines rest)
  end.

End Text.

(** ** Data model *)

Record Priority := { priority_id : Z; priority_name : string }.

(** A value that the tracker sends where the code expects a text: JSON
    [null], a string, or a value of another kind (a number, the list of a
    field with several values), kept by its kind and by its [str()]. *)
Inductive JsonKind := JInt | JFloat | JBool | JList | JDict.

Inductive Json :=
| JNull
| JStr (s : string)
| JOther (kind : JsonKind) (text : string).

(** A custom field: [cf['name']] is required, [cf.get('value', '')] is not. *)
Record CustomField := { cf_name : string; cf_value : option Json }.

Record Status := { status_id : option Z; status_name : option string }.

(** An issue of the tracker.  Keys read with [ticket[...]] are plain
    fields, keys read with [.get] are optional.  The subject, which the
    tracker requires of every issue, is a text or [null] ([None] here); the
    description is missing ([None] here) or holds any value. *)
Record Ticket := {
  t_id : Z;
  t_subject : option string;
  t_description : option Json;
  t_priority : Priority;
  t_status : option Status;
  t_custom_fields : option (list CustomField)
}.

(** A team member record of [config.py].  [max_tickets] is present on the
    first-level team only; [user_id = None] is a record without that key,
    for which [m['user_id']] raises [KeyError]. *)
Record Member := {
  user_id : option Z;
  name : string;
  max_tickets : option Z
}.

(** The dictionary returned by the router: the member's keys, and the two
    keys [assignment_type] and [reason] when the router added them. *)
Record Assignee := {
  member : Member;
  assignment_type : option string;
  reason : option string
}.

Record BusinessHours := { bh_start : Z; bh_end : Z; bh_timezone : string }.

Record Config := {
  REDMINE_BASE_URL : string;
  DEVOPS_PROJECT_ID : Z;
  DEVOPS_TEAM_GROUP_ID : Z;
  OLLAMA_BASE_URL : string;
  OLLAMA_MODEL : string;
  OLLAMA_TIMEOUT : Z;
  TEST_MODE : bool;
  BUSINESS_HOURS : BusinessHours;
  L1_MEMBERS : list Member;
  L2_MEMBERS : list Member;
  CRITICAL_ENVIRONMENTS : list string
}.

Definition l1 (uid : Z) (n : string) : Member :=
  {| user_id := Some uid; name := n; max_tickets := Some 5 |}.
Definition l2 (uid : Z) (n : string) : Member :=
  {| user_id := Some uid; name := n; max_tickets := None |}.

(** The class attributes of [Config] with the defaults of the environment
    variables. *)
Definition config : Config := {|
  REDMINE_BASE_URL := "https://techsupport.6dtech.co.in";
  DEVOPS_PROJECT_ID := 1;
  DEVOPS_TEAM_GROUP_ID := 6;
  OLLAMA_BASE_URL := "http://10.0.2.121:11434";
  OLLAMA_MODEL := "llama3.2:3b";
  OLLAMA_TIMEOUT := 90;
  TEST_MODE := false;
  BUSINESS_HOURS := {| bh_start := 9; bh_end := 21; bh_timezone := "Asia/Kolkata" |};
  L1_MEMBERS := [ l1 1239 "Shashikiran Umakanth"; l1 1330 "Jon Joseph";
                  l1 1329 "Lakshmi A B"; l1 1328 "Musab Acharath";
                  l1 1327 "Afsana ashraf"; l1 1155 "Sreehari Padmakumar";
                  l1 1795 "Joel Mathew" ];
  L2_MEMBERS := [ l2 21 "Arun Ramdas"; l2 155 "Manoja Ningaraja";
                  l2 11 "Jerish Vijay"; l2 10 "Angel Varghese" ];
  CRITICAL_ENVIRONMENTS := [ "prod"; "production"; "live" ]
|}.

(** ** Exceptions *)

Inductive Exn :=
| KeyError (key : string)
| IndexError
| ValueError (msg : string)
| HTTPError (status : Z)
| Timeout
| ConnectionError
| JSONDecodeError
| UnknownTimeZoneError (zone : string)
| AttributeError (msg : string)
| TypeError (msg : string)
| Exception (msg : string).

(** [str(e)] *)
Definition str_exn (e : Exn) : string :=
  match e with
  | KeyError k => "'" +:+ k +:+ "'"
  | IndexError => "list index out of range"
  | ValueError m => m
  | HTTPError st => Text.str_int st +:+ " Error"
  | Timeout => "Read timed out."
  | ConnectionError => "Connection refused"
  | JSONDecodeError => "Expecting value: line 1 column 1 (char 0)"
  | UnknownTimeZoneError z => "'" +:+ z +:+ "'"
  | AttributeError m => m
  | TypeError m => m
  | Exception m => m
  end.

Inductive Result (A : Type) :=
| Ok (a : A)
| Raise (e : Exn).
Arguments Ok {A} a.
Arguments Raise {A} e.

(** ** Values that are not the text the code expects *)
Module Py.

(** [type(v).__name__] *)
Definition type_name (v : Json) : string :=
  match v with
  | JNull => "NoneType"
  | JStr _ => "str"
  | JOther JInt _ => "int"
  | JOther JFloat _ => "float"
  | JOther JBool _ => "bool"
  | JOther JList _ => "list"
  | JOther JDict _ => "dict"
  end.

(** [v] inside an f-string. *)
Definition format (v : Json) : string :=
  match v with
  | JNull => "None"
  | JStr s => s
  | JOther _ text => text
  end.

(** [v.lower()]: a method of strings only. *)
Definition lower (v : Json) : Result string :=
  match v with
  | JStr s => Ok (Text.lower s)
  | _ => Raise (AttributeError ("'" +:+ type_name v
                                +:+ "' object has no attribute 'lower'"))
  end.

(** [subject[:50]]: [None] cannot be sliced.  The result is the text that
    was sliced. *)
Definition sliced (subject : option string) : Result string :=
  match subject with
  | Some s => Ok s
  | None => Raise (TypeError "'NoneType' object is not subscriptable")
  end.

(** The subject as a value. *)
Definition of_subject (subject : option string) : Json :=
  match subject with
  | Some s => JStr s
  | None => JNull
  end.

End Py.

(** ** Priority arbiter *)

(** [{cf['name']: cf.get('value', '') for cf in ticket.get('custom_fields', [])}]:
    a later field of the same name replaces an earlier one. *)
Definition custom_fields_dict (ticket : Ticket) : gmap string Json :=
  foldl (fun d cf => <[cf_name cf := default (JStr "") (cf_value cf)]> d) ∅
        (default [] (t_custom_fields ticket)).

Definition dict_get (d : gmap string Json) (k : string) (dflt : Json) : Json :=
  default dflt (d !! k).

Record Arbitration := {
  original_priority : string;
  adjusted_priority : string;
  environment : string;
  was_downgraded : bool;
  new_priority_id : Z
}.

Definition PRIORITY_IDS : gmap string Z :=
  <["P5(Trivial)" := 1]> (<["P4(Low)" := 2]> (<["P3(Medium)" := 3]>
  (<["P2(High)" := 5]> (<["P1(Critical)" := 4]> ∅)))).

(** The arbiter raises where [.lower()] does, on a tag that is not a
    text. *)
Definition analyze_priority_and_environment (cfg : Config) (ticket : Ticket)
  : Result Arbitration :=
  let original_priority := priority_name (t_priority ticket) in
  let original_priority_id := priority_id (t_priority ticket) in
  let custom_fields := custom_fields_dict ticket in
  match Py.lower (dict_get custom_fields "Deployment Environment Tags" (JStr "")) with
  | Raise e => Raise e
  | Ok lowered =>
      let environment := Text.strip lowered in
      if String.eqb original_priority "P1(Critical)" then
        let is_production := Text.any_in (CRITICAL_ENVIRONMENTS cfg) environment in
        if negb is_production then
          Ok {| original_priority := original_priority;
                adjusted_priority := "P2(High)";
                environment := environment;
                was_downgraded := true;
                new_priority_id := default 0 (PRIORITY_IDS !! "P2(High)") |}
        else
          Ok {| original_priority := original_priority;
                adjusted_priority := original_priority;
                environment := environment;
                was_downgraded := false;
                new_priority_id := original_priority_id |}
      else
        Ok {| original_priority := original_priority;
              adjusted_priority := original_priority;
              environment := environment;
              was_downgraded := false;
              new_priority_id := original_priority_id |}
  end.

(** ** The monad of state and errors *)

(** A computation over a state [S]: it returns or raises, and the state it
    reached is kept in both cases. *)
Definition M (S A : Type) : Type := S -> Result A * S.

Definition ret {S A} (a : A) : M S A := fun s => (Ok a, s).
Definition raise {S A} (e : Exn) : M S A := fun s => (Raise e, s).
Definition bind {S A B} (m : M S A) (k : A -> M S B) : M S B :=
  fun s => match m s with
           | (Ok a, s') => k a s'
           | (Raise e, s') => (Raise e, s')
           end.
(** [try: m  except Exception as e: h e] *)
Definition try_except {S A} (m : M S A) (h : Exn -> M S A) : M S A :=
  fun s => match m s with
           | (Ok a, s') => (Ok a, s')
           | (Raise e, s') => h e s'
           end.
(** The outcome of [m] as a value, for a [try] whose two branches go on. *)
Definition attempt {S A} (m : M S A) : M S (Result A) :=
  fun s => let (r, s') := m s in (Ok r, s').
(** A step that returns or raises and leaves the state. *)
Definition of_result {S A} (r : Result A) : M S A := fun s => (r, s).
Definition modify {S} (f : S -> S) : M S unit := fun s => (Ok tt, f s).
Definition gets {S A} (f : S -> A) : M S A := fun s => (Ok (f s), s).

Declare Scope py_scope.
Delimit Scope py_scope with py.
Notation "x <- m ;; k" := (bind m (fun x => k))
  (at level 100, m at next level, right associativity) : py_scope.
Notation "m ;;; k" := (bind m (fun _ => k))
  (at level 100, right associativity) : py_scope.
Local Open Scope py_scope.

(** [d[key]] on an optional key. *)
Definition getitem {S A} (o : option A) (key : string) : M S A :=
  match o with
  | Some a => ret a
  | None => raise (KeyError key)
  end.

(** ** The collaborators *)

(** [total_count] of an answer: the key is absent, is [null], or holds an
    integer. *)
Inductive JField (A : Type) := Absent | Null | Val (a : A).
Arguments Absent {A}.
Arguments Null {A}.
Arguments Val {A} a.

Record IssuesJson := { total_count : JField Z; issues : option (list Ticket) }.
(** The answer of the generation backend: its key [response]. *)
Record GenerateJson := { j_response : option string }.

(** An HTTP answer; [body = None] when [response.json()] raises. *)
Record Response (B : Type) := { status_code : Z; body : option B }.
Arguments status_code {B} r.
Arguments body {B} r.

Inductive Outcome (B : Type) :=
| Raises (e : Exn)
| Responds (r : Response B).
Arguments Raises {B} e.
Arguments Responds {B} r.

(** The query parameters of a [GET issues.json]. *)
Record GetRequest := {
  q_project_id : option Z;
  q_status_id : option string;
  q_assigned_to_id : Z;
  q_limit : Z
}.

Inductive PutRequest :=
| PutPriority (ticket_id : Z) (priority_id : Z) (environment : string)
| PutAssignment (ticket_id : Z) (assigned_to_id : Z) (ai_analysis : string).

Record PostRequest := { p_model : string; p_prompt : string; p_timeout : Z }.

Inductive Event :=
| EvGet (q : GetRequest)
| EvPut (q : PutRequest)
| EvPost (q : PostRequest)
| EvProbe (uid : Z)          (* entry of get_user_workload *)
| EvAnalyze (tid : Z).       (* entry of analyze_with_ollama *)

(** What the service talks to: the tracker, the generation backend and the
    clock, each a transition of a world [W]. *)
Class External (W : Type) := {
  session_get : GetRequest -> W -> Outcome IssuesJson * W;
  session_put : PutRequest -> W -> Outcome unit * W;
  requests_post : PostRequest -> W -> Outcome GenerateJson * W;
  (* datetime.now(pytz.timezone(zone)).hour *)
  current_hour : string -> W -> Result Z;
  (* datetime.now().isoformat() *)
  isoformat_now : W -> string
}.

(** The state of a run: the world, and the calls made so far, oldest first. *)
Record State (W : Type) := { world : W; trace : list Event }.
Arguments world {W} s.
Arguments trace {W} s.

(** ** The records of [models.py] *)

Record TicketAssignment := {
  ta_user_id : Z;
  ta_name : string;
  ta_max_tickets : option Z
}.

Record ProcessedTicket := {
  pt_ticket_id : Z;
  pt_subject : string;
  pt_original_priority : string;
  pt_adjusted_priority : string;
  pt_environment : string;
  pt_priority_downgraded : bool;
  pt_assigned_to : TicketAssignment;
  pt_assignment_type : string;
  pt_reason : string;
  pt_ai_analysis : string;
  pt_ai_analysis_short : string;
  pt_redmine_url : string;
  pt_success : bool;
  pt_error : option string
}.

Record AutomationResponse := {
  r_success : bool;
  r_processed_tickets : list ProcessedTicket;
  r_total_processed : Z;
  r_priority_adjustments : Z;
  r_ollama_analyses : Z;
  r_errors : list string;
  r_timestamp : string
}.

(** The local variables of [process_tickets] that its loop updates. *)
Record Locals := {
  processed_tickets : list ProcessedTicket;
  errors : list string;
  priority_adjustments : Z;
  ollama_analyses : Z
}.

Section Service.
Context {W : Type} `{External W}.

Abbreviation St := (State W).

Definition emit (e : Event) : M St unit :=
  modify (fun s => {| world := world s; trace := trace s ++ [e] |}).

Definition external {B} (call : W -> Outcome B * W) : M St (Response B) :=
  fun s => let (o, w') := call (world s) in
           let s' := {| world := w'; trace := trace s |} in
           match o with
           | Raises e => (Raise e, s')
           | Responds r => (Ok r, s')
           end.

Definition http_get (q : GetRequest) : M St (Response IssuesJson) :=
  emit (EvGet q) ;;; external (session_get q).
Definition http_put (q : PutRequest) : M St (Response unit) :=
  emit (EvPut q) ;;; external (session_put q).
Definition http_post (q : PostRequest) : M St (Response GenerateJson) :=
  emit (EvPost q) ;;; external (requests_post q).

(** [response.json()] *)
Definition json {B} (r : Response B) : M St B :=
  match body r with
  | Some b => ret b
  | None => raise JSONDecodeError
  end.

(** [response.raise_for_status()] *)
Definition raise_for_status {B} (r : Response B) : M St unit :=
  if (400 <=? status_code r) && (status_code r <? 600)
  then raise (HTTPError (status_code r)) else ret tt.

(** ** Workload prober *)

Definition test_workloads : gmap Z Z :=
  list_to_map [ (1239, 1); (1330, 3); (1329, 0); (1328, 4); (1327, 2);
                (1155, 1); (1795, 3); (21, 5); (155, 3); (11, 2); (10, 4) ].

(** [data.get('total_count', 0)]: [None] when the answer holds [null]. *)
Definition get_total_count (data : IssuesJson) : option Z :=
  match total_count data with
  | Absent => Some 0
  | Null => None
  | Val n => Some n
  end.

(** [issue.get('status', {}).get('id') == 2] *)
Definition status_id_is_2 (issue : Ticket) : bool :=
  match t_status issue with
  | Some st => match status_id st with Some i => i =? 2 | None => false end
  | None => false
  end.

(** [issue.get('status', {}).get('name', '').lower() == 'in progress'] *)
Definition status_name_in_progress (issue : Ticket) : bool :=
  let nm := match t_status issue with
            | Some st => default "" (status_name st)
            | None => ""
            end in
  String.eqb (Text.lower nm) "in progress".

(** [sum(1 for issue in data.get('issues', []) if p(issue))] *)
Definition count_issues (p : Ticket -> bool) (data : IssuesJson) : Z :=
  Z.of_nat (length (filter (fun i => p i = true) (default [] (issues data)))).

Definition _get_workload_method_1 (user_id : Z) : M St (option Z) :=
  response <- http_get {| q_project_id := None; q_status_id := Some "2";
                          q_assigned_to_id := user_id; q_limit := 100 |} ;;
  if status_code response =? 200 then
    data <- json response ;;
    ret (get_total_count data)
  else raise (Exception ("HTTP " +:+ Text.str_int (status_code response))).

Definition _get_workload_method_2 (user_id : Z) : M St (option Z) :=
  response <- http_get {| q_project_id := None; q_status_id := None;
                          q_assigned_to_id := user_id; q_limit := 100 |} ;;
  if status_code response =? 200 then
    data <- json response ;;
    ret (Some (count_issues status_id_is_2 data))
  else raise (Exception ("HTTP " +:+ Text.str_int (status_code response))).

Definition _get_workload_method_3 (user_id : Z) : M St (option Z) :=
  response <- http_get {| q_project_id := None; q_status_id := Some "open";
                          q_assigned_to_id := user_id; q_limit := 100 |} ;;
  if status_code response =? 200 then
    data <- json response ;;
    ret (Some (count_issues status_name_in_progress data))
  else raise (Exception ("HTTP " +:+ Text.str_int (status_code response))).

(** The loop over the methods: the first one that returns a value other
    than [None] without raising decides; 999 when none does. *)
Fixpoint try_methods (methods : list (Z -> M St (option Z))) (user_id : Z)
  : M St Z :=
  match methods with
  | [] => ret 999
  | method :: rest =>
      r <- attempt (method user_id) ;;
      match r with
      | Ok (Some workload) => ret workload
      | Ok None => try_methods rest user_id
      | Raise _ => try_methods rest user_id
      end
  end.

Definition methods : list (Z -> M St (option Z)) :=
  [ _get_workload_method_1; _get_workload_method_2; _get_workload_method_3 ].

Definition get_user_workload (cfg : Config) (user_id : Z) : M St Z :=
  emit (EvProbe user_id) ;;;
  if TEST_MODE cfg then ret (default 0 (test_workloads !! user_id))
  else try_methods methods user_id.

(** ** Assignment router *)

(** [min(l, key=key)]: the keys are computed once each, in order, and an
    element replaces the best so far only on a strictly smaller key. *)
Fixpoint min_loop {A} (key : A -> M St Z) (rest : list A) (best : A) (kbest : Z)
  : M St A :=
  match rest with
  | [] => ret best
  | y :: rest' =>
      ky <- key y ;;
      if ky <? kbest then min_loop key rest' y ky
      else min_loop key rest' best kbest
  end.

Definition min_by_key {A} (key : A -> M St Z) (l : list A) : M St A :=
  match l with
  | [] => raise (ValueError "min() arg is an empty sequence")
  | x :: rest => kx <- key x ;; min_loop key rest x kx
  end.

(** [l[0]] *)
Definition first_item {A} (l : list A) : M St A :=
  match l with
  | [] => raise IndexError
  | x :: _ => ret x
  end.

Definition bare (m : Member) : Assignee :=
  {| member := m; assignment_type := None; reason := None |}.

(** [lambda m: self.get_user_workload(m['user_id'])] *)
Definition load_key (cfg : Config) (m : Member) : M St Z :=
  uid <- getitem (user_id m) "user_id" ;; get_user_workload cfg uid.

Definition critical_reason (workload : Z) : string :=
  "P1 Critical PRODUCTION issue - L2 team (24/7) - Current load: "
  +:+ Text.str_int workload +:+ " tickets".

Definition overloaded_reason (workload : Z) : string :=
  "L1 team at capacity (5+ tickets each) - Escalated to L2 - Load: "
  +:+ Text.str_int workload.

Definition business_hours_reason (current_load cap : Z) : string :=
  "P2-P5 during business hours - L1 team - Load: "
  +:+ Text.str_int current_load +:+ "/" +:+ Text.str_int cap.

(** The body of both [try] blocks of the router: the least loaded member of
    the second-level team, probed once more for the reason text. *)
Definition select_l2 (cfg : Config) (kind : string) (reason_of : Z -> string)
  : M St (option Assignee) :=
  best_l2 <- min_by_key (load_key cfg) (L2_MEMBERS cfg) ;;
  uid <- getitem (user_id best_l2) "user_id" ;;
  workload <- get_user_workload cfg uid ;;
  ret (Some {| member := best_l2;
               assignment_type := Some kind;
               reason := Some (reason_of workload) |}).

(** [return self.config.L2_MEMBERS[0]] of both [except] blocks. *)
Definition l2_fallback (cfg : Config) : M St (option Assignee) :=
  m <- first_item (L2_MEMBERS cfg) ;; ret (Some (bare m)).

(** The loop that fills [available_l1]. *)
Fixpoint collect_available_l1 (cfg : Config) (members : list Member)
  (available_l1 : list (Member * Z)) : M St (list (Member * Z)) :=
  match members with
  | [] => ret available_l1
  | member :: rest =>
      uid <- getitem (user_id member) "user_id" ;;
      current_load <- get_user_workload cfg uid ;;
      cap <- getitem (max_tickets member) "max_tickets" ;;
      if current_load <? cap
      then collect_available_l1 cfg rest (available_l1 ++ [(member, current_load)])
      else collect_available_l1 cfg rest available_l1
  end.

Definition find_best_assignee (cfg : Config) (adjusted_priority : string)
  (is_business_hours : bool) : M St (option Assignee) :=
  if String.eqb adjusted_priority "P1(Critical)" then
    try_except
      (select_l2 cfg "L2_CRITICAL_PROD" critical_reason)
      (fun _ => l2_fallback cfg)
  else if is_business_hours then
    available_l1 <- collect_available_l1 cfg (L1_MEMBERS cfg) [] ;;
    match available_l1 with
    | _ :: _ =>
        best <- min_by_key (fun x => ret (snd x)) available_l1 ;;
        let '(best_l1, current_load) := best in
        cap <- getitem (max_tickets best_l1) "max_tickets" ;;
        ret (Some {| member := best_l1;
                     assignment_type := Some "L1_BUSINESS_HOURS";
                     reason := Some (business_hours_reason current_load cap) |})
    | [] =>
        try_except
          (select_l2 cfg "L2_L1_OVERLOADED" overloaded_reason)
          (fun _ => l2_fallback cfg)
    end
  else ret None.

(** ** Analysis generator *)

Definition build_prompt (ticket : Ticket) (environment priority project_id : string)
  : string :=
  "Act as a professional DevOps Engineer specializing in Kubernetes, GitLab CI/CD pipelines, and utility services such as RabbitMQ, Redis, Kafka, Elasticsearch, and NiFi. Provide a structured response similar to enterprise support portals like RedHat.

## Ticket Information
- ID: #" +:+ Text.str_int (t_id ticket) +:+ "
- Subject: " +:+ Py.format (Py.of_subject (t_subject ticket)) +:+ "
- Description: " +:+ Py.format (default (JStr "No description provided")
                                         (t_description ticket)) +:+ "
- Priority: " +:+ priority +:+ "
- Environment: " +:+ (if Text.truthy environment then Text.upper environment
                      else "Not specified") +:+ "
- Project: " +:+ project_id +:+ "

## Response Requirements
Generate a professional support response with the following structure:

1. **Acknowledgment** - Brief professional acknowledgment
2. **Initial Assessment** - Technology category and potential impact
3. **Information Required** - Structured bullet points requesting specific details
4. **Troubleshooting Commands** - Relevant diagnostic commands if applicable
5. **Next Steps** - Clear process for resolution

## Information Request Format
Use this EXACT format for requesting information:

**To assist in resolving this issue efficiently, please provide the following information:**

1. **Business Impact:** Does this affect business operations, end users, or revenue?
2. **Error Details:** Please provide any error messages, logs, or specific symptoms observed.

## Technical Commands Format
If the issue relates to specific technologies, provide relevant diagnostic commands:
- For Kubernetes: kubectl commands
- For message brokers: status and log commands  
- For databases: connection and performance checks
- For CI/CD: pipeline and build diagnostics

Keep the response professional, structured, and under 300 words. Focus on information gathering rather than immediate solutions.".

(** [subject_lower + ' ' + description_lower], after the two calls of
    [.lower()], of which either raises on a value that is not a text. *)
Definition combined_text (ticket : Ticket) : Result string :=
  match Py.lower (Py.of_subject (t_subject ticket)) with
  | Raise e => Raise e
  | Ok subject_lower =>
      match Py.lower (default (JStr "") (t_description ticket)) with
      | Raise e => Raise e
      | Ok description_lower => Ok (subject_lower +:+ " " +:+ description_lower)
      end
  end.

(** The [if]/[elif] chain of the fallback: the category and its commands. *)
Definition categorize (combined_text : string) : string * list string :=
  if Text.any_in ["kubernetes"; "k8s"; "pod"; "deployment"; "namespace"] combined_text then
    ("Kubernetes Infrastructure",
     [ "kubectl get pods -n <namespace>";
       "kubectl describe pod <pod_name> -n <namespace>";
       "kubectl logs <pod_name> -n <namespace> --tail=100" ])
  else if Text.any_in ["rabbitmq"; "rabbit"; "mq"; "queue"; "message"] combined_text then
    ("RabbitMQ Message Broker",
     [ "kubectl logs <rabbitmq-pod-name> --tail=100";
       "kubectl exec -it <rabbitmq-pod> -- rabbitmqctl status";
       "kubectl exec -it <rabbitmq-pod> -- rabbitmqctl list_queues" ])
  else if Text.any_in ["redis"; "cache"; "session"] combined_text then
    ("Redis Cache Service",
     [ "kubectl logs <redis-pod-name> --tail=100";
       "kubectl exec -it <redis-pod> -- redis-cli ping";
       "kubectl exec -it <redis-pod> -- redis-cli info memory" ])
  else if Text.any_in ["kafka"; "streaming"; "topic"] combined_text then
    ("Kafka Streaming Platform",
     [ "kubectl logs <kafka-pod-name> --tail=100";
       "kubectl exec -it <kafka-pod> -- kafka-topics --list" ])
  else if Text.any_in ["elasticsearch"; "elastic"; "search"] combined_text then
    ("Elasticsearch Search Engine",
     [ "kubectl logs <elasticsearch-pod-name> --tail=100";
       "kubectl exec -it <es-pod> -- curl -X GET 'localhost:9200/_cluster/health'" ])
  else if Text.any_in ["gitlab"; "ci/cd"; "pipeline"; "build"] combined_text then
    ("GitLab CI/CD Pipeline",
     [ "kubectl logs <gitlab-runner-pod> --tail=100";
       "kubectl get pods -l app=gitlab-runner" ])
  else if Text.any_in ["database"; "db"; "sql"; "mysql"; "postgres"] combined_text then
    ("Database Service",
     [ "kubectl logs <database-pod-name> --tail=100";
       "kubectl describe pod <database-pod-name>" ])
  else
    ("Infrastructure Service",
     [ "kubectl get pods --all-namespaces";
       "kubectl get events --sort-by=.metadata.creationTimestamp" ]).

Definition fallback_template (category env_context : string) (commands : list string)
  : string :=
  "Thank you for contacting 6D DevOps Support regarding this "
  +:+ Text.lower category +:+ " issue" +:+ env_context +:+ ".

**Initial Assessment:**
This appears to be a " +:+ category +:+ " issue that requires additional information for proper diagnosis and resolution.

**To assist in resolving this issue efficiently, please provide the following information:**

1. **Error Details:** Please provide any error messages, logs, or specific symptoms observed.
2. **Recent Changes:** Were there any recent deployments, configuration changes, or updates?
3. **Issue Description: 

**Diagnostic Commands:**
Please run the following commands and provide the output:

```
" +:+ Text.join_lines commands +:+ "
```

**Next Steps:**
Once we receive this information, our team will perform a comprehensive analysis and provide specific resolution steps. This structured approach ensures efficient problem resolution.

*Note: This response was generated by our automated triage system. Our AI analysis service will provide enhanced diagnostics once connectivity is restored.*".

Definition _generate_professional_fallback_analysis
  (ticket : Ticket) (environment priority : string) : Result string :=
  match combined_text ticket with
  | Raise e => Raise e
  | Ok combined_text =>
      let '(category, commands) := categorize combined_text in
      let env_context :=
        if Text.truthy environment
        then " in the " +:+ Text.upper environment +:+ " environment" else "" in
      Ok (fallback_template category env_context commands)
  end.

(** The [try] block of [analyze_with_ollama]: [Some analysis] where the
    source returns from inside it, [None] where control leaves the block.
    Nothing in it raises on a value that is not a text: the prompt only
    formats the subject, the description and the project. *)
Definition ollama_request (cfg : Config) (ticket : Ticket)
  (environment priority : string) : M St (option string) :=
  let custom_fields := custom_fields_dict ticket in
  let project_id := dict_get custom_fields "Project Jira ID" (JStr "Unknown") in
  let prompt := build_prompt ticket environment priority (Py.format project_id) in
  response <- http_post {| p_model := OLLAMA_MODEL cfg; p_prompt := prompt;
                           p_timeout := OLLAMA_TIMEOUT cfg |} ;;
  if status_code response =? 200 then
    result <- json response ;;
    let analysis := Text.strip (default "" (j_response result)) in
    if Text.truthy analysis then ret (Some analysis) else ret None
  else ret None.

(** The call of the fallback is after the [try]: what it raises reaches the
    caller. *)
Definition analyze_with_ollama (cfg : Config) (ticket : Ticket)
  (environment priority : string) : M St string :=
  emit (EvAnalyze (t_id ticket)) ;;;
  r <- try_except (ollama_request cfg ticket environment priority)
                  (fun _ => ret None) ;;
  match r with
  | Some analysis => ret analysis
  | None =>
      of_result (_generate_professional_fallback_analysis ticket environment priority)
  end.

(** ** Ticket pipeline *)

Definition is_business_hours (cfg : Config) : M St bool :=
  fun s => match current_hour (bh_timezone (BUSINESS_HOURS cfg)) (world s) with
           | Ok current_hour =>
               (Ok ((bh_start (BUSINESS_HOURS cfg) <=? current_hour)
                    && (current_hour <? bh_end (BUSINESS_HOURS cfg))), s)
           | Raise e => (Raise e, s)
           end.

Definition ticket_99991 : Ticket := {|
  t_id := 99991;
  t_subject := Some "Production database connection timeout";
  t_description := Some (JStr "Users unable to login - production database showing connection timeouts");
  t_priority := {| priority_id := 4; priority_name := "P1(Critical)" |};
  t_status := Some {| status_id := Some 1; status_name := Some "New" |};
  t_custom_fields := Some [ {| cf_name := "Project Jira ID"; cf_value := Some (JStr "AUTH-SERVICE") |};
                            {| cf_name := "Deployment Environment Tags"; cf_value := Some (JStr "prod") |} ]
|}.

Definition ticket_99992 : Ticket := {|
  t_id := 99992;
  t_subject := Some "Development environment deployment failing";
  t_description := Some (JStr "CI/CD pipeline failing on dev environment - need assistance");
  t_priority := {| priority_id := 4; priority_name := "P1(Critical)" |};
  t_status := Some {| status_id := Some 1; status_name := Some "New" |};
  t_custom_fields := Some [ {| cf_name := "Project Jira ID"; cf_value := Some (JStr "PAYMENT-SERVICE") |};
                            {| cf_name := "Deployment Environment Tags"; cf_value := Some (JStr "dev") |} ]
|}.

Definition get_new_devops_tickets (cfg : Config) : M St (list Ticket) :=
  if TEST_MODE cfg then ret [ ticket_99991; ticket_99992 ]
  else
    try_except
      (response <- http_get {| q_project_id := Some (DEVOPS_PROJECT_ID cfg);
                               q_status_id := Some "1";
                               q_assigned_to_id := DEVOPS_TEAM_GROUP_ID cfg;
                               q_limit := 50 |} ;;
       raise_for_status response ;;;
       data <- json response ;;
       ret (default [] (issues data)))
      (fun _ => ret []).

Definition add_priority_downgrade_note (ticket_id : Z) (environment : string)
  (new_priority_id : Z) : M St bool :=
  try_except
    (response <- http_put (PutPriority ticket_id new_priority_id environment) ;;
     raise_for_status response ;;;
     ret true)
    (fun _ => ret false).

Definition assign_ticket_in_redmine (ticket_id : Z) (assignee : Assignee)
  (ai_analysis : string) : M St bool :=
  try_except
    (uid <- getitem (user_id (member assignee)) "user_id" ;;
     response <- http_put (PutAssignment ticket_id uid ai_analysis) ;;
     raise_for_status response ;;;
     ret true)
    (fun _ => ret false).

(** A service call made from [process_tickets], whose locals it leaves. *)
Definition lift {A} (m : M St A) : M (Locals * St) A :=
  fun ls => let (r, s') := m (snd ls) in (r, (fst ls, s')).

Definition update (f : Locals -> Locals) : M (Locals * St) unit :=
  modify (fun ls => (f (fst ls), snd ls)).

(** [processed_tickets.append(p)], [errors.append(msg)] and the two
    counters. *)
Definition add_processed (p : ProcessedTicket) (l : Locals) : Locals :=
  {| processed_tickets := processed_tickets l ++ [p];
     errors := errors l;
     priority_adjustments := priority_adjustments l;
     ollama_analyses := ollama_analyses l |}.

Definition add_error (msg : string) (l : Locals) : Locals :=
  {| processed_tickets := processed_tickets l;
     errors := errors l ++ [msg];
     priority_adjustments := priority_adjustments l;
     ollama_analyses := ollama_analyses l |}.

Definition bump_adjustments (l : Locals) : Locals :=
  {| processed_tickets := processed_tickets l;
     errors := errors l;
     priority_adjustments := priority_adjustments l + 1;
     ollama_analyses := ollama_analyses l |}.

Definition bump_analyses (l : Locals) : Locals :=
  {| processed_tickets := processed_tickets l;
     errors := errors l;
     priority_adjustments := priority_adjustments l;
     ollama_analyses := ollama_analyses l + 1 |}.

Definition append_processed (p : ProcessedTicket) : M (Locals * St) unit :=
  update (add_processed p).
Definition append_error (msg : string) : M (Locals * St) unit :=
  update (add_error msg).
Definition incr_priority_adjustments : M (Locals * St) unit :=
  update bump_adjustments.
Definition incr_ollama_analyses : M (Locals * St) unit :=
  update bump_analyses.

Definition redmine_url (cfg : Config) (ticket : Ticket) : string :=
  REDMINE_BASE_URL cfg +:+ "/issues/" +:+ Text.str_int (t_id ticket).

(** The record of a ticket that waits.  [subject] is [ticket['subject']],
    a text once the first statement of the loop body has sliced it. *)
Definition pending_ticket (cfg : Config) (ticket : Ticket) (subject : string)
  (a : Arbitration) : ProcessedTicket := {|
  pt_ticket_id := t_id ticket;
  pt_subject := subject;
  pt_original_priority := original_priority a;
  pt_adjusted_priority := adjusted_priority a;
  pt_environment := environment a;
  pt_priority_downgraded := was_downgraded a;
  pt_assigned_to := {| ta_user_id := 0; ta_name := "Pending"; ta_max_tickets := None |};
  pt_assignment_type := "OUTSIDE_HOURS";
  pt_reason := "Non-critical ticket outside business hours (9AM-9PM IST)";
  pt_ai_analysis := "Waiting for business hours";
  pt_ai_analysis_short := "Pending business hours";
  pt_redmine_url := redmine_url cfg ticket;
  pt_success := true;
  pt_error := None
|}.

(** The record of an assigned ticket.  [uid], [kind] and [why] are
    [assignee['user_id']], [assignee['assignment_type']] and
    [assignee['reason']]. *)
Definition assigned_ticket (cfg : Config) (ticket : Ticket) (subject : string)
  (a : Arbitration) (assignee : Assignee) (uid : Z) (kind why ai_analysis : string)
  (assignment_success : bool) : ProcessedTicket := {|
  pt_ticket_id := t_id ticket;
  pt_subject := subject;
  pt_original_priority := original_priority a;
  pt_adjusted_priority := adjusted_priority a;
  pt_environment := environment a;
  pt_priority_downgraded := was_downgraded a;
  pt_assigned_to := {| ta_user_id := uid; ta_name := name (member assignee);
                       ta_max_tickets := max_tickets (member assignee) |};
  pt_assignment_type := kind;
  pt_reason := why;
  pt_ai_analysis := ai_analysis;
  pt_ai_analysis_short := "AI analysis with SPOC assignment";
  pt_redmine_url := redmine_url cfg ticket;
  pt_success := assignment_success;
  pt_error := if assignment_success then None
              else Some "Failed to assign in Redmine"
|}.

(** [f"Error processing ticket #{ticket['id']}: {str(e)}"] *)
Definition error_message (ticket : Ticket) (e : Exn) : string :=
  "Error processing ticket #" +:+ Text.str_int (t_id ticket) +:+ ": " +:+ str_exn e.

(** The body of the inner [try] of [process_tickets], for one ticket.  Its
    first statement logs [ticket['subject'][:50]]. *)
Definition process_ticket (cfg : Config) (is_business_hours : bool)
  (ticket : Ticket) : M (Locals * St) unit :=
  subject <- of_result (Py.sliced (t_subject ticket)) ;;
  a <- of_result (analyze_priority_and_environment cfg ticket) ;;
  (if was_downgraded a then
     incr_priority_adjustments ;;;
     _ <- lift (add_priority_downgrade_note (t_id ticket) (environment a)
                                            (new_priority_id a)) ;;
     ret tt
   else ret tt) ;;;
  assignee <- lift (find_best_assignee cfg (adjusted_priority a) is_business_hours) ;;
  match assignee with
  | None => append_processed (pending_ticket cfg ticket subject a)
  | Some assignee =>
      ai_analysis <- lift (analyze_with_ollama cfg ticket (environment a)
                                               (adjusted_priority a)) ;;
      incr_ollama_analyses ;;;
      assignment_success <- lift (assign_ticket_in_redmine (t_id ticket) assignee
                                                           ai_analysis) ;;
      uid <- getitem (user_id (member assignee)) "user_id" ;;
      kind <- getitem (assignment_type assignee) "assignment_type" ;;
      why <- getitem (reason assignee) "reason" ;;
      append_processed (assigned_ticket cfg ticket subject a assignee uid kind why
                                        ai_analysis assignment_success)
  end.

(** One turn of the [for] loop: the body under its [except]. *)
Definition process_ticket_guarded (cfg : Config) (is_business_hours : bool)
  (ticket : Ticket) : M (Locals * St) unit :=
  try_except (process_ticket cfg is_business_hours ticket)
    (fun e => append_error (error_message ticket e)).

Fixpoint for_each {S A} (l : list A) (body : A -> M S unit) : M S unit :=
  match l with
  | [] => ret tt
  | x :: rest => body x ;;; for_each rest body
  end.

Definition summary (ok : bool) (start_time : string) (extra : list string)
  (l : Locals) : AutomationResponse := {|
  r_success := ok;
  r_processed_tickets := processed_tickets l;
  r_total_processed := Z.of_nat (length (processed_tickets l));
  r_priority_adjustments := priority_adjustments l;
  r_ollama_analyses := ollama_analyses l;
  r_errors := extra ++ errors l;
  r_timestamp := start_time
|}.

Definition no_locals : Locals :=
  {| processed_tickets := []; errors := [];
     priority_adjustments := 0; ollama_analyses := 0 |}.

(** The outer [try] of [process_tickets]. *)
Definition process_tickets_try (cfg : Config) (start_time : string)
  : M (Locals * St) AutomationResponse :=
  tickets <- lift (get_new_devops_tickets cfg) ;;
  match tickets with
  | [] => ret {| r_success := true; r_processed_tickets := [];
                 r_total_processed := 0; r_priority_adjustments := 0;
                 r_ollama_analyses := 0; r_errors := ["No new tickets found"];
                 r_timestamp := start_time |}
  | _ :: _ =>
      is_business_hours <- lift (is_business_hours cfg) ;;
      for_each tickets (process_ticket_guarded cfg is_business_hours) ;;;
      l <- gets fst ;;
      ret (summary true start_time [] l)
  end.

Definition process_tickets (cfg : Config) : M St AutomationResponse :=
  fun s =>
    let start_time := isoformat_now (world s) in
    let '(r, (_, s')) :=
      try_except (process_tickets_try cfg start_time)
        (fun e => l <- gets fst ;;
                  ret (summary false start_time
                         ["Critical error in process_tickets: " +:+ str_exn e] l))
        (no_locals, s) in
    (r, s').

End Service.
(** * Specification vocabulary and sample inputs *)

(** ** Priority arbiter *)

(** The environment tag of a ticket: the value of the custom field, if the
    ticket has the field. *)
Definition environment_tag (ticket : Ticket) : option Json :=
  custom_fields_dict ticket !! "Deployment Environment Tags".

(** The tag when it is a text; a ticket without the field has the empty
    text for its tag. *)
Definition tag_text (ticket : Ticket) : option string :=
  match environment_tag ticket with
  | None => Some ""
  | Some (JStr tag) => Some tag
  | Some _ => None
  end.

(** The tag as the arbiter sees it: lowercased and trimmed. *)
Definition normalized_tag (ticket : Ticket) : option string :=
  match tag_text ticket with
  | Some tag => Some (Text.strip (Text.lower tag))
  | None => None
  end.

(** The exception of a string method called on a value that has none. *)
Definition no_attribute (v : Json) (method : string) : Exn :=
  AttributeError ("'" +:+ Py.type_name v +:+ "' object has no attribute '"
                  +:+ method +:+ "'").

Definition is_text (v : Json) : Prop := exists s, v = JStr s.

(** The tag matches a production alias: some configured alias occurs in it. *)
Definition matches_production_alias (cfg : Config) (tag : string) : Prop :=
  exists alias, In alias (CRITICAL_ENVIRONMENTS cfg) /\ Text.contains alias tag = true.

Definition declared (ticket : Ticket) : string := priority_name (t_priority ticket).

Definition with_priority (p : string) (ticket : Ticket) : Ticket :=
  {| t_id := t_id ticket; t_subject := t_subject ticket;
     t_description := t_description ticket;
     t_priority := {| priority_id := 3; priority_name := p |};
     t_status := t_status ticket; t_custom_fields := t_custom_fields ticket |}.

Definition without_fields (ticket : Ticket) : Ticket :=
  {| t_id := t_id ticket; t_subject := t_subject ticket;
     t_description := t_description ticket; t_priority := t_priority ticket;
     t_status := t_status ticket; t_custom_fields := None |}.

(** The ticket with the one custom field of the environment, holding [v]. *)
Definition with_tag_value (v : Json) (ticket : Ticket) : Ticket :=
  {| t_id := t_id ticket; t_subject := t_subject ticket;
     t_description := t_description ticket; t_priority := t_priority ticket;
     t_status := t_status ticket;
     t_custom_fields := Some [ {| cf_name := "Deployment Environment Tags";
                                  cf_value := Some v |} ] |}.

Definition with_tag (tag : string) (ticket : Ticket) : Ticket :=
  with_tag_value (JStr tag) ticket.

Definition with_description (d : option Json) (ticket : Ticket) : Ticket :=
  {| t_id := t_id ticket; t_subject := t_subject ticket;
     t_description := d; t_priority := t_priority ticket;
     t_status := t_status ticket; t_custom_fields := t_custom_fields ticket |}.

Definition with_subject (subject : option string) (ticket : Ticket) : Ticket :=
  {| t_id := t_id ticket; t_subject := subject;
     t_description := t_description ticket; t_priority := t_priority ticket;
     t_status := t_status ticket; t_custom_fields := t_custom_fields ticket |}.


(** ** A collaborator for examples

    A server without memory: every answer is a function of the request. *)
Record Server := {
  on_get : GetRequest -> Outcome IssuesJson;
  on_put : PutRequest -> Outcome unit;
  on_post : PostRequest -> Outcome GenerateJson;
  hour : Result Z;
  now : string
}.

#[export] Instance Server_External : External Server := {|
  session_get q w := (on_get w q, w);
  session_put q w := (on_put w q, w);
  requests_post q w := (on_post w q, w);
  current_hour _ w := hour w;
  isoformat_now w := now w
|}.

Definition start {W} (w : W) : State W := {| world := w; trace := [] |}.

Definition answer {B} (status : Z) (b : B) : Outcome B :=
  Responds {| status_code := status; body := Some b |}.

(** A tracker that reports [count uid] tickets in progress for each user,
    accepts every update, and whose generation backend is down. *)
Definition counting_server (count : Z -> Z) (h : Z) : Server := {|
  on_get q := answer 200 {| total_count := Val (count (q_assigned_to_id q));
                            issues := Some [] |};
  on_put _ := Responds {| status_code := 200; body := None |};
  on_post _ := Raises ConnectionError;
  hour := Ok h;
  now := "2025-01-01T10:00:00"
|}.

(** A tracker that cannot be reached. *)
Definition unreachable_server : Server := {|
  on_get _ := Raises ConnectionError;
  on_put _ := Raises ConnectionError;
  on_post _ := Raises ConnectionError;
  hour := Ok 10;
  now := "2025-01-01T10:00:00"
|}.

(** ** Workload prober *)
Section ProberSpec.
Context {W : Type} `{External W}.

Definition strategy := Z -> M (State W) (option Z).

(** A strategy fails when it raises or returns [None]; it succeeds with [w]
    when it returns [w]. *)
Definition fails (m : strategy) (uid : Z) (s s' : State W) : Prop :=
  snd (m uid s) = s' /\
  match fst (m uid s) with Ok (Some _) => False | _ => True end.

Definition succeeds (m : strategy) (uid : Z) (s : State W) (w : Z) (s' : State W)
  : Prop :=
  m uid s = (Ok (Some w), s').

(** Every strategy of the list fails, each run in the state its predecessor
    left. *)
Inductive all_fail (uid : Z) : list strategy -> State W -> State W -> Prop :=
| all_fail_nil s : all_fail uid [] s s
| all_fail_cons m ms s s1 s2 :
    fails m uid s s1 -> all_fail uid ms s1 s2 -> all_fail uid (m :: ms) s s2.

(** The state in which [get_user_workload] starts its strategies. *)
Definition probing (uid : Z) (s : State W) : State W :=
  {| world := world s; trace := trace s ++ [EvProbe uid] |}.

(** The tracker's answer to the first strategy carries [total_count = n]. *)
Definition reported_total (uid : Z) (s : State W) (n : Z) : Prop :=
  exists r b,
    fst (session_get {| q_project_id := None; q_status_id := Some "2";
                        q_assigned_to_id := uid; q_limit := 100 |} (world s))
    = Responds r /\ body r = Some b /\ total_count b = Val n.

End ProberSpec.

(** ** Assignment router *)

(** The least entry of a list of keyed items, the first of them on a tie:
    what [min] returns once the keys are known. *)
Fixpoint least_first {A} (best : A * Z) (rest : list (A * Z)) : A * Z :=
  match rest with
  | [] => best
  | y :: rest' =>
      if snd y <? snd best then least_first y rest' else least_first best rest'
  end.

(** [k], at position [i] of [loads], is a minimum of [loads] and the first
    one. *)
Definition is_least_first (loads : list Z) (i : nat) (k : Z) : Prop :=
  loads !! i = Some k /\
  (forall j kj, loads !! j = Some kj -> k <= kj) /\
  (forall j kj, (j < i)%nat -> loads !! j = Some kj -> k < kj).

Definition has_id (m : Member) : Prop := user_id m <> None.

Definition has_id_b (m : Member) : bool :=
  match user_id m with Some _ => true | None => false end.

(** A first-level record carries its id and a capacity below the sentinel. *)
Definition l1_ok (m : Member) : Prop :=
  has_id m /\ exists cap, max_tickets m = Some cap /\ cap <= 999.

Definition roster_ok (cfg : Config) : Prop :=
  Forall l1_ok (L1_MEMBERS cfg) /\
  L2_MEMBERS cfg <> [] /\ Forall has_id (L2_MEMBERS cfg).

Definition capacity (m : Member) : Z := default 0 (max_tickets m).

(** The members that pass the capacity filter, with their loads. *)
Definition under_capacity (members : list Member) (loads : list Z)
  : list (Member * Z) :=
  filter (fun x => snd x < capacity (fst x)) (zip members loads).

Section RouterSpec.
Context {W : Type} `{External W}.

(** The keys of the items of a list, computed in order. *)
Fixpoint keys_of {A} (key : A -> M (State W) Z) (l : list A) : M (State W) (list Z) :=
  match l with
  | [] => ret []
  | x :: rest => k <- key x ;; ks <- keys_of key rest ;; ret (k :: ks)
  end.

(** The loads probed for the members of a team, in configured order. *)
Definition probed_loads (cfg : Config) (team : list Member)
  : M (State W) (list Z) :=
  keys_of (load_key cfg) team.

End RouterSpec.

(** [cfg] with another second-level team. *)
Definition with_l2 (team : list Member) (cfg : Config) : Config := {|
  REDMINE_BASE_URL := REDMINE_BASE_URL cfg;
  DEVOPS_PROJECT_ID := DEVOPS_PROJECT_ID cfg;
  DEVOPS_TEAM_GROUP_ID := DEVOPS_TEAM_GROUP_ID cfg;
  OLLAMA_BASE_URL := OLLAMA_BASE_URL cfg;
  OLLAMA_MODEL := OLLAMA_MODEL cfg;
  OLLAMA_TIMEOUT := OLLAMA_TIMEOUT cfg;
  TEST_MODE := TEST_MODE cfg;
  BUSINESS_HOURS := BUSINESS_HOURS cfg;
  L1_MEMBERS := L1_MEMBERS cfg;
  L2_MEMBERS := team;
  CRITICAL_ENVIRONMENTS := CRITICAL_ENVIRONMENTS cfg
|}.

(** A record of the second-level team that lost its [user_id] key. *)
Definition anonymous (n : string) : Member :=
  {| user_id := None; name := n; max_tickets := None |}.

(** The loads of the test table, as a tracker would report them. *)
Definition table_load (uid : Z) : Z := default 0 (test_workloads !! uid).

(** ** Analysis generator *)

(** The subject is a text, and the description is a text or missing: the
    values on which the fallback can call [.lower()]. *)
Definition describes_in_text (ticket : Ticket) : Prop :=
  (exists subject, t_subject ticket = Some subject) /\
  (t_description ticket = None \/ exists d, t_description ticket = Some (JStr d)).

(** The first value on which the fallback calls [.lower()] and that is not
    a text: the subject, then the description. *)
Definition value_without_text (ticket : Ticket) : option Json :=
  match t_subject ticket with
  | None => Some JNull
  | Some _ =>
      match t_description ticket with
      | None | Some (JStr _) => None
      | Some v => Some v
      end
  end.

(** The text that the fallback searches for keywords, when the ticket
    describes itself in text. *)
Definition searched_text (ticket : Ticket) : string :=
  Text.lower (default "" (t_subject ticket)) +:+ " " +:+
  Text.lower (match t_description ticket with
              | Some (JStr d) => d
              | _ => ""
              end).

(** The categories of the fallback in their order of priority: keywords,
    name, commands. *)
Definition CATEGORIES : list (list string * (string * list string)) :=
  [ (["kubernetes"; "k8s"; "pod"; "deployment"; "namespace"],
     ("Kubernetes Infrastructure",
      [ "kubectl get pods -n <namespace>";
        "kubectl describe pod <pod_name> -n <namespace>";
        "kubectl logs <pod_name> -n <namespace> --tail=100" ]));
    (["rabbitmq"; "rabbit"; "mq"; "queue"; "message"],
     ("RabbitMQ Message Broker",
      [ "kubectl logs <rabbitmq-pod-name> --tail=100";
        "kubectl exec -it <rabbitmq-pod> -- rabbitmqctl status";
        "kubectl exec -it <rabbitmq-pod> -- rabbitmqctl list_queues" ]));
    (["redis"; "cache"; "session"],
     ("Redis Cache Service",
      [ "kubectl logs <redis-pod-name> --tail=100";
        "kubectl exec -it <redis-pod> -- redis-cli ping";
        "kubectl exec -it <redis-pod> -- redis-cli info memory" ]));
    (["kafka"; "streaming"; "topic"],
     ("Kafka Streaming Platform",
      [ "kubectl logs <kafka-pod-name> --tail=100";
        "kubectl exec -it <kafka-pod> -- kafka-topics --list" ]));
    (["elasticsearch"; "elastic"; "search"],
     ("Elasticsearch Search Engine",
      [ "kubectl logs <elasticsearch-pod-name> --tail=100";
        "kubectl exec -it <es-pod> -- curl -X GET 'localhost:9200/_cluster/health'" ]));
    (["gitlab"; "ci/cd"; "pipeline"; "build"],
     ("GitLab CI/CD Pipeline",
      [ "kubectl logs <gitlab-runner-pod> --tail=100";
        "kubectl get pods -l app=gitlab-runner" ]));
    (["database"; "db"; "sql"; "mysql"; "postgres"],
     ("Database Service",
      [ "kubectl logs <database-pod-name> --tail=100";
        "kubectl describe pod <database-pod-name>" ])) ].

Definition DEFAULT_CATEGORY : string * list string :=
  ("Infrastructure Service",
   [ "kubectl get pods --all-namespaces";
     "kubectl get events --sort-by=.metadata.creationTimestamp" ]).

(** The first category of the table one of whose keywords occurs in the
    text, the default category when there is none. *)
Definition first_matching_category (text : string) : string * list string :=
  match List.find (fun row => Text.any_in (fst row) text) CATEGORIES with
  | Some row => snd row
  | None => DEFAULT_CATEGORY
  end.

(** A text made of white space only. *)
Fixpoint blank (s : string) : bool :=
  match s with
  | EmptyString => true
  | String c s' => Text.isspace c && blank s'
  end.

(** The text of an answer: its key [response], or the empty text. *)
Definition answer_text (j : GenerateJson) : string := default "" (j_response j).

(** The ways the generation backend fails. *)
Inductive backend_fails : Outcome GenerateJson -> Prop :=
| fails_raising e :                        (* timeout, transport error *)
    backend_fails (Raises e)
| fails_status r :                         (* a status other than 200 *)
    status_code r <> 200 -> backend_fails (Responds r)
| fails_decoding r :                       (* a body that is not JSON *)
    status_code r = 200 -> body r = None -> backend_fails (Responds r)
| fails_blank r j :                        (* an empty or blank text *)
    status_code r = 200 -> body r = Some j -> blank (answer_text j) = true ->
    backend_fails (Responds r).

(** The backend answers with a text that is not blank. *)
Inductive backend_answers : Outcome GenerateJson -> string -> Prop :=
| answers_text r j :
    status_code r = 200 -> body r = Some j -> blank (answer_text j) = false ->
    backend_answers (Responds r) (Text.strip (answer_text j)).

(** The request that [analyze_with_ollama] sends. *)
Definition generation_request (cfg : Config) (ticket : Ticket)
  (environment priority : string) : PostRequest :=
  {| p_model := OLLAMA_MODEL cfg;
     p_prompt := build_prompt ticket environment priority
                   (Py.format (dict_get (custom_fields_dict ticket) "Project Jira ID"
                                        (JStr "Unknown")));
     p_timeout := OLLAMA_TIMEOUT cfg |}.

Section GeneratorSpec.
Context {W : Type} `{External W}.

(** The state after [analyze_with_ollama]: the call recorded itself and sent
    its request, once. *)
Definition asked (cfg : Config) (ticket : Ticket) (environment priority : string)
  (s : State W) : State W :=
  {| world := snd (requests_post (generation_request cfg ticket environment priority)
                                 (world s));
     trace := trace s ++ [ EvAnalyze (t_id ticket);
                           EvPost (generation_request cfg ticket environment priority) ] |}.

End GeneratorSpec.

(** A server whose generation backend gives the answer [o]. *)
Definition generating_server (o : Outcome GenerateJson) : Server := {|
  on_get _ := Raises ConnectionError;
  on_put _ := Responds {| status_code := 200; body := None |};
  on_post _ := o;
  hour := Ok 10;
  now := "2025-01-01T10:00:00"
|}.

(** ** Ticket pipeline *)

(** The request that fetches the new tickets. *)
Definition fetch_request (cfg : Config) : GetRequest :=
  {| q_project_id := Some (DEVOPS_PROJECT_ID cfg); q_status_id := Some "1";
     q_assigned_to_id := DEVOPS_TEAM_GROUP_ID cfg; q_limit := 50 |}.

(** The ways the fetch of the new tickets fails. *)
Inductive fetch_fails : Outcome IssuesJson -> Prop :=
| fetch_raising e :                        (* tracker unreachable, timeout *)
    fetch_fails (Raises e)
| fetch_status r :                         (* an error status *)
    400 <= status_code r < 600 -> fetch_fails (Responds r)
| fetch_decoding r :                       (* a body that is not JSON *)
    ~ (400 <= status_code r < 600) -> body r = None -> fetch_fails (Responds r).

(** What a turn of the loop leaves for its ticket: a record in
    [processed_tickets], or a text in [errors]. *)
Inductive Entry :=
| Processed (p : ProcessedTicket)
| Failed (msg : string).

Definition records (entries : list Entry) : list ProcessedTicket :=
  omap (fun e => match e with Processed p => Some p | Failed _ => None end) entries.

Definition failures (entries : list Entry) : list string :=
  omap (fun e => match e with Failed msg => Some msg | Processed _ => None end) entries.

(** The entry is the record of [ticket], or the error text of an exception
    raised while [ticket] was processed. *)
Definition entry_of (ticket : Ticket) (entry : Entry) : Prop :=
  match entry with
  | Processed p => pt_ticket_id p = t_id ticket
  | Failed msg => exists e, msg = error_message ticket e
  end.

(** A tracker that hands out the given tickets, reports [count uid] tickets
    in progress for a user, and accepts every update. *)
Definition ticket_server (tickets : list Ticket) (count : Z -> Z) (h : Z) : Server := {|
  on_get q :=
    match q_project_id q with
    | Some _ => answer 200 {| total_count := Absent; issues := Some tickets |}
    | None => answer 200 {| total_count := Val (count (q_assigned_to_id q));
                            issues := Some [] |}
    end;
  on_put _ := Responds {| status_code := 200; body := None |};
  on_post _ := Raises ConnectionError;
  hour := Ok h;
  now := "2025-01-01T10:00:00"
|}.

Definition some_locals : Locals :=
  {| processed_tickets := []; errors := ["earlier"];
     priority_adjustments := 2; ollama_analyses := 1 |}.

(** What the loop body knows of a ticket when it turns to it: the subject
    that its first statement sliced and the result of the arbiter, or the
    exception of the first of the two that raised. *)
Definition arbitrated (cfg : Config) (ticket : Ticket) : Result (string * Arbitration) :=
  match Py.sliced (t_subject ticket) with
  | Raise e => Raise e
  | Ok subject =>
      match analyze_priority_and_environment cfg ticket with
      | Raise e => Raise e
      | Ok a => Ok (subject, a)
      end
  end.

Section PipelineSpec.
Context {W : Type} `{External W}.

(** The steps of the loop body after the priority adjustment, for a ticket
    with the subject [subject] and the arbitration [a]. *)
Definition route_and_record (cfg : Config) (bh : bool) (ticket : Ticket)
  (subject : string) (a : Arbitration)
  (l : Locals) (s : State W) : Result unit * (Locals * State W) :=
  match find_best_assignee cfg (adjusted_priority a) bh s with
  | (Raise e, s1) => (Raise e, (l, s1))
  | (Ok None, s1) =>
      (Ok tt, (add_processed (pending_ticket cfg ticket subject a) l, s1))
  | (Ok (Some assignee), s1) =>
      match analyze_with_ollama cfg ticket (environment a) (adjusted_priority a) s1 with
      | (Raise e, s2) => (Raise e, (l, s2))
      | (Ok ai, s2) =>
          match assign_ticket_in_redmine (t_id ticket) assignee ai s2 with
          | (Raise e, s3) => (Raise e, (bump_analyses l, s3))
          | (Ok ok, s3) =>
              match user_id (member assignee), assignment_type assignee,
                    reason assignee with
              | None, _, _ => (Raise (KeyError "user_id"), (bump_analyses l, s3))
              | Some _, None, _ =>
                  (Raise (KeyError "assignment_type"), (bump_analyses l, s3))
              | Some _, Some _, None =>
                  (Raise (KeyError "reason"), (bump_analyses l, s3))
              | Some uid, Some kind, Some why =>
                  (Ok tt, (add_processed (assigned_ticket cfg ticket subject a assignee
                                            uid kind why ai ok)
                             (bump_analyses l), s3))
              end
          end
      end
  end.

End PipelineSpec.

(** The configuration with a second-level team one of whose records lost
    its id, and with no second-level team at all. *)
Definition config_with_guest : Config :=
  with_l2 [l2 21 "Arun Ramdas"; anonymous "Guest"] config.
Definition config_without_l2 : Config := with_l2 [] config.

(** * The rest of the service

    [get_team_workload] and [test_ollama_connection] of
    [devops_service.py], and the vocabulary of the properties stated about
    the calls a run makes. *)

(** ** The records of the workload report ([models.py]) *)

Record TeamWorkload := {
  tw_user_id : Z;
  tw_name : string;
  tw_max_tickets : option Z;
  tw_current_tickets : Z;
  tw_status : string
}.

(** The dictionary that [get_team_workload] returns. *)
Record WorkloadReport := {
  wr_l1_team : list TeamWorkload;
  wr_l2_team : list TeamWorkload;
  wr_business_hours : bool;
  wr_timestamp : string;
  wr_note : string
}.

(** ** The model list of the generation backend *)

(** An entry of [models] in the answer to [GET /api/tags]; its name is read
    with [model.get('name', '')]. *)
Record ModelInfo := { model_name : option string }.

(** The answer to [GET /api/tags]; [models] is read with
    [.get('models', [])]. *)
Record TagsJson := { tags_models : option (list ModelInfo) }.

(** [requests.get(f"{OLLAMA_BASE_URL}/api/tags", timeout=5)].  The call is
    not among the events of [trace], which are those of the pipeline. *)
Class ExternalTags (W : Type) := {
  requests_get_tags : W -> Outcome TagsJson * W
}.

(** The dictionary that [test_ollama_connection] returns; a key that a
    branch leaves out is [None]. *)
Record OllamaTest := {
  ot_success : bool;
  ot_error : option string;
  ot_endpoint : string;
  ot_model : option string;
  ot_available_models : option (list string);
  ot_test_analysis : option string;
  ot_timestamp : option string
}.

(** The sample ticket of [test_ollama_connection].  Its [priority] has no
    [id]; the field, which [analyze_with_ollama] does not read, is 0 here. *)
Definition test_ticket : Ticket := {|
  t_id := 99999;
  t_subject := Some "Test connectivity to Ollama service";
  t_description := Some (JStr "This is a connectivity test for the Ollama AI integration");
  t_priority := {| priority_id := 0; priority_name := "P3(Medium)" |};
  t_status := None;
  t_custom_fields := None
|}.

Section Reports.
Context {W : Type} `{External W}.

Local Open Scope py_scope.

(** The loop [for x in l: out.append(f(x))]. *)
Fixpoint map_m {A B} (f : A -> M (State W) B) (l : list A) : M (State W) (list B) :=
  match l with
  | [] => ret []
  | x :: rest => y <- f x ;; ys <- map_m f rest ;; ret (y :: ys)
  end.

(** One turn of the first loop of [get_team_workload]: the [try] that
    probes the member and compares the load with the capacity, its bare
    [except], and the record built after it. *)
Definition l1_entry (cfg : Config) (member : Member) : M (State W) TeamWorkload :=
  cs <- try_except
          (uid <- getitem (user_id member) "user_id" ;;
           current_tickets <- get_user_workload cfg uid ;;
           cap <- getitem (max_tickets member) "max_tickets" ;;
           ret (current_tickets,
                if current_tickets <? cap then "available" else "at_capacity"))
          (fun _ => ret (0, "unknown")) ;;
  uid <- getitem (user_id member) "user_id" ;;
  cap <- getitem (max_tickets member) "max_tickets" ;;
  ret {| tw_user_id := uid; tw_name := name member; tw_max_tickets := Some cap;
         tw_current_tickets := fst cs; tw_status := snd cs |}.

(** One turn of the second loop. *)
Definition l2_entry (cfg : Config) (member : Member) : M (State W) TeamWorkload :=
  cs <- try_except
          (uid <- getitem (user_id member) "user_id" ;;
           current_tickets <- get_user_workload cfg uid ;;
           ret (current_tickets, "available"))
          (fun _ => ret (0, "unknown")) ;;
  uid <- getitem (user_id member) "user_id" ;;
  ret {| tw_user_id := uid; tw_name := name member; tw_max_tickets := None;
         tw_current_tickets := fst cs; tw_status := snd cs |}.

Definition get_team_workload (cfg : Config) : M (State W) WorkloadReport :=
  try_except
    (l1_workload <- map_m (l1_entry cfg) (L1_MEMBERS cfg) ;;
     l2_workload <- map_m (l2_entry cfg) (L2_MEMBERS cfg) ;;
     business_hours <- is_business_hours cfg ;;
     timestamp <- gets (fun s => isoformat_now (world s)) ;;
     ret {| wr_l1_team := l1_workload;
            wr_l2_team := l2_workload;
            wr_business_hours := business_hours;
            wr_timestamp := timestamp;
            wr_note := "Workload shows only 'In Progress' tickets (status_id=2)" |})
    (fun e => raise (Exception ("Failed to get team workload: " +:+ str_exn e))).

Context `{ExternalTags W}.

(** [model_names = [model.get('name', '') for model in models]] *)
Definition model_names (data : TagsJson) : list string :=
  map (fun model => default "" (model_name model)) (default [] (tags_models data)).

(** [x in l] on a list of strings. *)
Definition in_list (x : string) (l : list string) : bool :=
  existsb (String.eqb x) l.

Definition failed_test (cfg : Config) (error : string)
  (available : option (list string)) : OllamaTest :=
  {| ot_success := false; ot_error := Some error;
     ot_endpoint := OLLAMA_BASE_URL cfg; ot_model := None;
     ot_available_models := available; ot_test_analysis := None;
     ot_timestamp := None |}.

Definition test_ollama_connection (cfg : Config) : M (State W) OllamaTest :=
  try_except
    (response <- external requests_get_tags ;;
     if negb (status_code response =? 200) then
       ret (failed_test cfg ("Ollama API unreachable: HTTP "
                             +:+ Text.str_int (status_code response)) None)
     else
       data <- json response ;;
       let model_names := model_names data in
       if negb (in_list (OLLAMA_MODEL cfg) model_names) then
         ret (failed_test cfg ("Model '" +:+ OLLAMA_MODEL cfg +:+ "' not found")
                          (Some model_names))
       else
         analysis <- analyze_with_ollama cfg test_ticket "test" "P3(Medium)" ;;
         timestamp <- gets (fun s => isoformat_now (world s)) ;;
         ret {| ot_success := true; ot_error := None;
                ot_endpoint := OLLAMA_BASE_URL cfg;
                ot_model := Some (OLLAMA_MODEL cfg);
                ot_available_models := Some model_names;
                ot_test_analysis := Some analysis;
                ot_timestamp := Some timestamp |})
    (fun e => ret (failed_test cfg ("Ollama connection failed: " +:+ str_exn e) None)).

End Reports.

(** ** Vocabulary of the further properties *)

(** The tracker accepted an update: it answered, with a status that
    [raise_for_status] lets through. *)
Definition accepted (o : Outcome unit) : bool :=
  match o with
  | Raises _ => false
  | Responds r => negb ((400 <=? status_code r) && (status_code r <? 600))
  end.



(** The ticket as the tracker holds it once the adjustment [a] was
    applied. *)
Definition reprioritized (a : Arbitration) (ticket : Ticket) : Ticket :=
  {| t_id := t_id ticket; t_subject := t_subject ticket;
     t_description := t_description ticket;
     t_priority := {| priority_id := new_priority_id a;
                      priority_name := adjusted_priority a |};
     t_status := t_status ticket; t_custom_fields := t_custom_fields ticket |}.

(** Kinds of events. *)
Definition is_read (e : Event) : Prop :=
  match e with EvGet _ | EvProbe _ => True | _ => False end.

Definition is_not_get (e : Event) : Prop :=
  match e with EvGet _ => False | _ => True end.

Definition is_not_request (e : Event) : Prop :=
  match e with EvProbe _ | EvAnalyze _ => True | _ => False end.

(** A probe of [uid], or a query of the tickets assigned to [uid]. *)
Definition is_read_of (uid : Z) (e : Event) : Prop :=
  match e with
  | EvProbe u => u = uid
  | EvGet q => q_assigned_to_id q = uid /\ q_project_id q = None
  | _ => False
  end.

Definition is_get (e : Event) : bool :=
  match e with EvGet _ => true | _ => false end.

Section TraceSpec.
Context {W : Type}.

(** Whatever its result, [m] only adds events to the trace, all of them in
    [P]; [proj] finds the state of the run in the state of [m]. *)
Definition emits_on {S A} (proj : S -> State W) (P : Event -> Prop) (m : M S A)
  : Prop :=
  forall s, exists evs,
    trace (proj (snd (m s))) = trace (proj s) ++ evs /\ Forall P evs.

(** For a method of the service. *)
Definition emits {A} (P : Event -> Prop) (m : M (State W) A) : Prop :=
  emits_on (fun s => s) P m.

(** For a computation of [process_tickets], which carries the locals. *)
Definition emits_in_run {A} (P : Event -> Prop) (m : M (Locals * State W) A) : Prop :=
  emits_on snd P m.

End TraceSpec.

(** ** More collaborators for examples *)

(** A tracker that answers every update with the status [st]. *)
Definition updating_server (st : Z) (count : Z -> Z) (h : Z) : Server := {|
  on_get q := answer 200 {| total_count := Val (count (q_assigned_to_id q));
                            issues := Some [] |};
  on_put _ := Responds {| status_code := st; body := None |};
  on_post _ := Raises ConnectionError;
  hour := Ok h;
  now := "2025-01-01T10:00:00"
|}.

(** A tracker that hands out tickets on a host whose time zone is unknown. *)
Definition clockless_server (tickets : list Ticket) : Server := {|
  on_get q := answer 200 {| total_count := Absent; issues := Some tickets |};
  on_put _ := Responds {| status_code := 200; body := None |};
  on_post _ := Raises ConnectionError;
  hour := Raise (UnknownTimeZoneError "Mars/Olympus");
  now := "2025-01-01T10:00:00"
|}.

(** [cfg] with another window of business hours. *)
Definition with_hours (start stop : Z) (cfg : Config) : Config := {|
  REDMINE_BASE_URL := REDMINE_BASE_URL cfg;
  DEVOPS_PROJECT_ID := DEVOPS_PROJECT_ID cfg;
  DEVOPS_TEAM_GROUP_ID := DEVOPS_TEAM_GROUP_ID cfg;
  OLLAMA_BASE_URL := OLLAMA_BASE_URL cfg;
  OLLAMA_MODEL := OLLAMA_MODEL cfg;
  OLLAMA_TIMEOUT := OLLAMA_TIMEOUT cfg;
  TEST_MODE := TEST_MODE cfg;
  BUSINESS_HOURS := {| bh_start := start; bh_end := stop;
                       bh_timezone := bh_timezone (BUSINESS_HOURS cfg) |};
  L1_MEMBERS := L1_MEMBERS cfg;
  L2_MEMBERS := L2_MEMBERS cfg;
  CRITICAL_ENVIRONMENTS := CRITICAL_ENVIRONMENTS cfg
|}.

(** [cfg] in test mode or out of it. *)
Definition with_test_mode (on : bool) (cfg : Config) : Config := {|
  REDMINE_BASE_URL := REDMINE_BASE_URL cfg;
  DEVOPS_PROJECT_ID := DEVOPS_PROJECT_ID cfg;
  DEVOPS_TEAM_GROUP_ID := DEVOPS_TEAM_GROUP_ID cfg;
  OLLAMA_BASE_URL := OLLAMA_BASE_URL cfg;
  OLLAMA_MODEL := OLLAMA_MODEL cfg;
  OLLAMA_TIMEOUT := OLLAMA_TIMEOUT cfg;
  TEST_MODE := on;
  BUSINESS_HOURS := BUSINESS_HOURS cfg;
  L1_MEMBERS := L1_MEMBERS cfg;
  L2_MEMBERS := L2_MEMBERS cfg;
  CRITICAL_ENVIRONMENTS := CRITICAL_ENVIRONMENTS cfg
|}.

(** A server together with the answer of its generation backend to
    [GET /api/tags]. *)
Record TagServer := { base : Server; on_tags : Outcome TagsJson }.

#[export] Instance TagServer_External : External TagServer := {|
  session_get q w := (on_get (base w) q, w);
  session_put q w := (on_put (base w) q, w);
  requests_post q w := (on_post (base w) q, w);
  current_hour _ w := hour (base w);
  isoformat_now w := now (base w)
|}.

#[export] Instance TagServer_ExternalTags : ExternalTags TagServer := {|
  requests_get_tags w := (on_tags w, w)
|}.

(** A backend that lists the given models and whose generation is down. *)
Definition listing_server (names : list string) : TagServer := {|
  base := unreachable_server;
  on_tags := answer 200 {| tags_models :=
                             Some (map (fun n => {| model_name := Some n |}) names) |}
|}.





(** ** Vocabulary of the workload report *)

(** The entry reports the member: same id, name and capacity. *)
Definition reports (m : Member) (e : TeamWorkload) : Prop :=
  user_id m = Some (tw_user_id e) /\ tw_name e = name m /\
  tw_max_tickets e = max_tickets m.

(** The status of a first-level entry tells whether the load is below the
    capacity. *)
Definition l1_status_ok (e : TeamWorkload) : Prop :=
  exists cap, tw_max_tickets e = Some cap /\
    ((tw_status e = "available" /\ tw_current_tickets e < cap) \/
     (tw_status e = "at_capacity" /\ cap <= tw_current_tickets e)).

(** The members that the report shows available, with their loads. *)
Definition available_in_report (members : list Member) (entries : list TeamWorkload)
  : list (Member * Z) :=
  map (fun x => (fst x, tw_current_tickets (snd x)))
      (filter (fun x => tw_status (snd x) = "available") (zip members entries)).

(** Every record of both teams carries the keys that the report reads. *)
Definition rosters_keyed (cfg : Config) : Prop :=
  Forall (fun m => has_id m /\ max_tickets m <> None) (L1_MEMBERS cfg) /\
  Forall has_id (L2_MEMBERS cfg).

(** [cfg] with another first-level team. *)
Definition with_l1 (team : list Member) (cfg : Config) : Config := {|
  REDMINE_BASE_URL := REDMINE_BASE_URL cfg;
  DEVOPS_PROJECT_ID := DEVOPS_PROJECT_ID cfg;
  DEVOPS_TEAM_GROUP_ID := DEVOPS_TEAM_GROUP_ID cfg;
  OLLAMA_BASE_URL := OLLAMA_BASE_URL cfg;
  OLLAMA_MODEL := OLLAMA_MODEL cfg;
  OLLAMA_TIMEOUT := OLLAMA_TIMEOUT cfg;
  TEST_MODE := TEST_MODE cfg;
  BUSINESS_HOURS := BUSINESS_HOURS cfg;
  L1_MEMBERS := team;
  L2_MEMBERS := L2_MEMBERS cfg;
  CRITICAL_ENVIRONMENTS := CRITICAL_ENVIRONMENTS cfg
|}.
(** * Properties *)

(** ** Facts about text *)
Section TextFacts.
Import Text.

Lemma prefix_app (p post : string) : String.prefix p (p +:+ post) = true.
Proof.
  induction p as [|c p IH]; simpl.
  - now destruct post.
  - destruct (Ascii.ascii_dec c c) as [_|ne]; [exact IH | now destruct ne].
Qed.

Lemma prefix_split (p s : string) :
  String.prefix p s = true -> exists post, s = p +:+ post.
Proof.
  revert s; induction p as [|c p IH]; intros s Hp.
  - now exists s.
  - destruct s as [|d s]; simpl in Hp; [discriminate|].
    destruct (Ascii.ascii_dec c d) as [->|]; [|discriminate].
    destruct (IH s Hp) as [post ->]. now exists post.
Qed.

Lemma contains_prefix (sub s : string) :
  String.prefix sub s = true -> contains sub s = true.
Proof. intros Hp. destruct s; cbn [contains]; rewrite Hp; reflexivity. Qed.

Lemma contains_app (sub pre post : string) :
  contains sub (pre +:+ sub +:+ post) = true.
Proof.
  induction pre as [|c pre IH].
  - apply contains_prefix. exact (prefix_app sub post).
  - change (String c pre +:+ sub +:+ post) with (String c (pre +:+ sub +:+ post)).
    cbn [contains]. rewrite IH. apply orb_true_r.
Qed.

Lemma contains_split (sub s : string) :
  contains sub s = true -> exists pre post, s = pre +:+ sub +:+ post.
Proof.
  induction s as [|c s IH]; intros Hc.
  - cbn [contains] in Hc. rewrite orb_false_r in Hc.
    destruct (prefix_split _ _ Hc) as [post E]. now exists "", post.
  - cbn [contains] in Hc. apply orb_true_iff in Hc as [Hp|Hr].
    + destruct (prefix_split _ _ Hp) as [post E]. now exists "", post.
    + destruct (IH Hr) as (pre & post & ->). now exists (String c pre), post.
Qed.

(** [sub in s] holds exactly when [s] is some text, then [sub], then some
    text. *)
Lemma contains_spec (sub s : string) :
  contains sub s = true <-> exists pre post, s = pre +:+ sub +:+ post.
Proof.
  split; [apply contains_split|].
  intros (pre & post & ->). apply contains_app.
Qed.

Lemma contains_empty (sub : string) : sub <> "" -> contains sub "" = false.
Proof. destruct sub; [congruence | reflexivity]. Qed.

Lemma any_in_spec (words : list string) (s : string) :
  any_in words s = true <-> exists w, In w words /\ contains w s = true.
Proof. unfold any_in. apply existsb_exists. Qed.

Lemma truthy_nonempty (s : string) : truthy s = true <-> s <> "".
Proof. destruct s; simpl; split; congruence. Qed.

End TextFacts.

(** ** Priority arbiter *)

Lemma tag_value_of_text ticket tag :
  tag_text ticket = Some tag ->
  dict_get (custom_fields_dict ticket) "Deployment Environment Tags" (JStr "") = JStr tag.
Proof.
  unfold tag_text, environment_tag, dict_get.
  destruct (_ !! _) as [[| |]|]; cbn; congruence.
Qed.

Lemma tag_text_cases ticket :
  (exists tag, tag_text ticket = Some tag) \/
  (tag_text ticket = None /\ exists v, environment_tag ticket = Some v /\ ~ is_text v).
Proof.
  unfold tag_text. destruct (environment_tag ticket) as [[| s |k t]|].
  - right. split; [reflexivity|]. eexists. split; [reflexivity|]. intros [? [=]].
  - left. now eexists.
  - right. split; [reflexivity|]. eexists. split; [reflexivity|]. intros [? [=]].
  - left. now eexists.
Qed.

(** The arbiter on a tag that is a text. *)
Lemma analyze_text_tag cfg ticket n :
  normalized_tag ticket = Some n ->
  analyze_priority_and_environment cfg ticket =
  Ok (if String.eqb (declared ticket) "P1(Critical)" then
        if Text.any_in (CRITICAL_ENVIRONMENTS cfg) n then
          {| original_priority := declared ticket;
             adjusted_priority := declared ticket;
             environment := n;
             was_downgraded := false;
             new_priority_id := priority_id (t_priority ticket) |}
        else
          {| original_priority := declared ticket;
             adjusted_priority := "P2(High)";
             environment := n;
             was_downgraded := true;
             new_priority_id := 5 |}
      else
        {| original_priority := declared ticket;
           adjusted_priority := declared ticket;
           environment := n;
           was_downgraded := false;
           new_priority_id := priority_id (t_priority ticket) |}).
Proof.
  unfold normalized_tag. destruct (tag_text ticket) as [tag|] eqn:Etag; [|discriminate].
  intros [= <-]. unfold analyze_priority_and_environment, declared.
  rewrite (tag_value_of_text _ _ Etag). cbn [Py.lower].
  destruct (String.eqb _ _); [|reflexivity].
  destruct (Text.any_in _ _); reflexivity.
Qed.

(** The arbiter on a tag that is not a text. *)
Lemma analyze_other_tag cfg ticket v :
  environment_tag ticket = Some v -> ~ is_text v ->
  analyze_priority_and_environment cfg ticket = Raise (no_attribute v "lower").
Proof.
  intros Hv Hnt. unfold analyze_priority_and_environment, dict_get.
  unfold environment_tag in Hv. rewrite Hv. cbn [default from_option id].
  destruct v as [| s |k t]; [reflexivity | | reflexivity].
  destruct Hnt. now exists s.
Qed.

(** The arbiter returns exactly for the tags that are texts, and then
    reports the normalized tag and the declared priority. *)
Lemma analyze_returns cfg ticket a :
  analyze_priority_and_environment cfg ticket = Ok a ->
  normalized_tag ticket = Some (environment a) /\
  original_priority a = declared ticket.
Proof.
  destruct (tag_text_cases ticket) as [[tag Ht]|(_ & v & Hv & Hnt)].
  - assert (Hn : normalized_tag ticket = Some (Text.strip (Text.lower tag))).
    { unfold normalized_tag. now rewrite Ht. }
    rewrite (analyze_text_tag cfg ticket _ Hn), Hn. intros [= <-].
    destruct (String.eqb _ _); [destruct (Text.any_in _ _)|]; now split.
  - rewrite (analyze_other_tag cfg ticket v Hv Hnt). discriminate.
Qed.

Lemma is_production_iff cfg tag :
  Text.any_in (CRITICAL_ENVIRONMENTS cfg) tag = true <-> matches_production_alias cfg tag.
Proof. apply any_in_spec. Qed.

Lemma empty_tag_matches_nothing cfg :
  Forall (fun alias => alias <> "") (CRITICAL_ENVIRONMENTS cfg) ->
  ~ matches_production_alias cfg "".
Proof.
  intros Hne (alias & Hin & Hc).
  rewrite List.Forall_forall in Hne. specialize (Hne alias Hin).
  rewrite contains_empty in Hc by assumption. discriminate.
Qed.

Lemma missing_tag_is_empty ticket :
  environment_tag ticket = None -> normalized_tag ticket = Some "".
Proof. unfold normalized_tag, tag_text. now intros ->. Qed.

Lemma critical_production cfg ticket n :
  declared ticket = "P1(Critical)" ->
  normalized_tag ticket = Some n ->
  matches_production_alias cfg n ->
  exists a,
    analyze_priority_and_environment cfg ticket = Ok a /\
    environment a = n /\
    adjusted_priority a = "P1(Critical)" /\ was_downgraded a = false /\
    new_priority_id a = priority_id (t_priority ticket).
Proof.
  intros Hd Hn Hm. apply is_production_iff in Hm.
  rewrite (analyze_text_tag cfg ticket n Hn), Hd, Hm. cbn [String.eqb Ascii.eqb Bool.eqb].
  eexists. split; [reflexivity|]. cbn. auto.
Qed.

Lemma critical_elsewhere cfg ticket n :
  declared ticket = "P1(Critical)" ->
  normalized_tag ticket = Some n ->
  ~ matches_production_alias cfg n ->
  exists a,
    analyze_priority_and_environment cfg ticket = Ok a /\
    environment a = n /\
    adjusted_priority a = "P2(High)" /\ was_downgraded a = true /\
    new_priority_id a = 5.
Proof.
  intros Hd Hn Hm. rewrite <- is_production_iff in Hm.
  apply not_true_is_false in Hm.
  rewrite (analyze_text_tag cfg ticket n Hn), Hd, Hm. cbn [String.eqb Ascii.eqb Bool.eqb].
  eexists. split; [reflexivity|]. cbn. auto.
Qed.

Lemma below_critical cfg ticket n :
  declared ticket <> "P1(Critical)" ->
  normalized_tag ticket = Some n ->
  exists a,
    analyze_priority_and_environment cfg ticket = Ok a /\
    environment a = n /\
    adjusted_priority a = declared ticket /\ was_downgraded a = false /\
    new_priority_id a = priority_id (t_priority ticket).
Proof.
  intros Hd Hn. apply String.eqb_neq in Hd.
  rewrite (analyze_text_tag cfg ticket n Hn), Hd.
  eexists. split; [reflexivity|]. cbn. auto.
Qed.

(** What the arbiter does for a ticket whose tag is a text or missing: a
    [P1(Critical)] ticket whose normalized tag matches a production alias
    stays [P1(Critical)]; one whose tag matches no alias, and so one whose
    tag is empty or missing when no alias is empty, becomes [P2(High)] and is
    downgraded; every other declared priority is returned unchanged. *)
Lemma arbitration_of_text_tag (cfg : Config) (ticket : Ticket) (n : string) :
  normalized_tag ticket = Some n ->
  exists a,
    analyze_priority_and_environment cfg ticket = Ok a /\
    environment a = n /\
    original_priority a = declared ticket /\
    (declared ticket = "P1(Critical)" -> matches_production_alias cfg n ->
     adjusted_priority a = "P1(Critical)" /\ was_downgraded a = false) /\
    (declared ticket = "P1(Critical)" -> ~ matches_production_alias cfg n ->
     adjusted_priority a = "P2(High)" /\ was_downgraded a = true) /\
    (declared ticket = "P1(Critical)" ->
     Forall (fun alias => alias <> "") (CRITICAL_ENVIRONMENTS cfg) ->
     environment_tag ticket = None \/ n = "" ->
     adjusted_priority a = "P2(High)" /\ was_downgraded a = true) /\
    (declared ticket <> "P1(Critical)" ->
     adjusted_priority a = declared ticket /\ was_downgraded a = false).
Proof.
  intros Hn.
  assert (Hret : exists a, analyze_priority_and_environment cfg ticket = Ok a).
  { rewrite (analyze_text_tag cfg ticket n Hn). now eexists. }
  destruct Hret as [a Ha]. exists a. split; [exact Ha|].
  destruct (analyze_returns cfg ticket a Ha) as (Henv & Horig).
  assert (He : environment a = n) by congruence.
  split; [exact He|]. split; [exact Horig|].
  assert (Hnon : declared ticket = "P1(Critical)" -> ~ matches_production_alias cfg n ->
                 adjusted_priority a = "P2(High)" /\ was_downgraded a = true).
  { intros Hd Hm. destruct (critical_elsewhere cfg ticket n Hd Hn Hm)
      as (a' & Ha' & _ & ? & ? & _). assert (a' = a) as -> by congruence. auto. }
  split; [|split; [exact Hnon|split]].
  - intros Hd Hm. destruct (critical_production cfg ticket n Hd Hn Hm)
      as (a' & Ha' & _ & ? & ? & _). assert (a' = a) as -> by congruence. auto.
  - intros Hd Hne Hempty. apply (Hnon Hd).
    assert (n = "") as ->.
    { destruct Hempty as [Hnone|]; [|assumption].
      rewrite (missing_tag_is_empty _ Hnone) in Hn. congruence. }
    now apply empty_tag_matches_nothing.
  - intros Hd. destruct (below_critical cfg ticket n Hd Hn)
      as (a' & Ha' & _ & ? & ? & _). assert (a' = a) as -> by congruence. auto.
Qed.

Lemma config_aliases_nonempty :
  Forall (fun alias => alias <> "") (CRITICAL_ENVIRONMENTS config).
Proof. repeat constructor; discriminate. Qed.

(** The arbiter on the two test tickets, on a ticket without fields and on
    one of lower priority. *)
Example arbitration_examples :
  map (fun t => match analyze_priority_and_environment config t with
                | Ok a => Some (adjusted_priority a, was_downgraded a, environment a)
                | Raise _ => None
                end)
      [ ticket_99991; ticket_99992; without_fields ticket_99991;
        with_priority "P3(Medium)" ticket_99991; with_tag "  PROD " ticket_99992 ]
  = [ Some ("P1(Critical)", false, "prod"); Some ("P2(High)", true, "dev");
      Some ("P2(High)", true, ""); Some ("P3(Medium)", false, "prod");
      Some ("P1(Critical)", false, "prod") ].
Proof. vm_compute. reflexivity. Qed.

(** C1.  The arbiter does not arbitrate a ticket whose environment tag is
    not a text.  When the field holds [null] (or a list, or a number),
    [.lower()] is called on that value and the arbiter raises
    [AttributeError], whatever the declared priority: a [P1(Critical)]
    ticket with such a tag is not downgraded to [P2(High)], and a ticket of
    lower priority is not returned unchanged. *)
Theorem tag_without_text_is_not_arbitrated (cfg : Config) (ticket : Ticket) (v : Json) :
  environment_tag ticket = Some v ->
  ~ is_text v ->
  analyze_priority_and_environment cfg ticket = Raise (no_attribute v "lower") /\
  forall a, analyze_priority_and_environment cfg ticket <> Ok a.
Proof.
  intros Hv Hnt. rewrite (analyze_other_tag cfg ticket v Hv Hnt).
  split; [reflexivity | discriminate].
Qed.

Lemma not_text_null : ~ is_text JNull.
Proof. intros [s [=]]. Qed.

Lemma tag_without_text_is_not_arbitrated_witness :
  analyze_priority_and_environment config (with_tag_value JNull ticket_99992)
  = Raise (AttributeError "'NoneType' object has no attribute 'lower'").
Proof.
  apply (tag_without_text_is_not_arbitrated config (with_tag_value JNull ticket_99992)
           JNull eq_refl not_text_null).
Defined.

(** The same for a ticket of lower priority, and for the list of a field
    with several values. *)
Example tag_without_text_examples :
  analyze_priority_and_environment config
    (with_tag_value JNull (with_priority "P3(Medium)" ticket_99992))
  = Raise (AttributeError "'NoneType' object has no attribute 'lower'") /\
  analyze_priority_and_environment config
    (with_tag_value (JOther JList "['dev', 'qa']") ticket_99992)
  = Raise (AttributeError "'list' object has no attribute 'lower'").
Proof. split; reflexivity. Qed.

(** C9. A [P1(Critical)] ticket whose normalized tag contains a configured
    alias anywhere, also inside a longer word, is taken for production: it
    stays [P1(Critical)] and is not downgraded.  With the aliases of
    [config.py] this holds for the tags [nonprod] and [reproduction]. *)
Theorem alias_inside_a_word_is_production (ticket : Ticket) :
  declared ticket = "P1(Critical)" ->
  (forall cfg alias pre post,
     In alias (CRITICAL_ENVIRONMENTS cfg) ->
     normalized_tag ticket = Some (pre +:+ alias +:+ post) ->
     exists a,
       analyze_priority_and_environment cfg ticket = Ok a /\
       Text.any_in (CRITICAL_ENVIRONMENTS cfg) (environment a) = true /\
       adjusted_priority a = "P1(Critical)" /\ was_downgraded a = false) /\
  (normalized_tag ticket = Some "nonprod" \/
   normalized_tag ticket = Some "reproduction" ->
   exists a,
     analyze_priority_and_environment config ticket = Ok a /\
     Text.any_in (CRITICAL_ENVIRONMENTS config) (environment a) = true /\
     adjusted_priority a = "P1(Critical)" /\ was_downgraded a = false).
Proof.
  intros Hd.
  assert (G : forall cfg alias pre post,
     In alias (CRITICAL_ENVIRONMENTS cfg) ->
     normalized_tag ticket = Some (pre +:+ alias +:+ post) ->
     exists a,
       analyze_priority_and_environment cfg ticket = Ok a /\
       Text.any_in (CRITICAL_ENVIRONMENTS cfg) (environment a) = true /\
       adjusted_priority a = "P1(Critical)" /\ was_downgraded a = false).
  { intros cfg alias pre post Hin Htag.
    assert (Hm : matches_production_alias cfg (pre +:+ alias +:+ post)).
    { exists alias. split; [assumption|]. apply contains_app. }
    destruct (critical_production cfg ticket _ Hd Htag Hm) as (a & Ha & He & Hp & Hw & _).
    exists a. split; [exact Ha|]. rewrite He.
    split; [now apply is_production_iff | auto]. }
  split; [exact G|].
  intros [Htag|Htag].
  - apply (G config "prod" "non" ""); [left; reflexivity | exact Htag].
  - apply (G config "prod" "re" "uction"); [left; reflexivity | exact Htag].
Qed.

Lemma alias_inside_a_word_is_production_witness :
  (exists a, analyze_priority_and_environment config (with_tag " NonProd " ticket_99992)
             = Ok a /\ was_downgraded a = false) /\
  (exists a, analyze_priority_and_environment config (with_tag "Reproduction" ticket_99992)
             = Ok a /\ adjusted_priority a = "P1(Critical)").
Proof.
  split.
  - destruct (alias_inside_a_word_is_production (with_tag " NonProd " ticket_99992))
      as (_ & Hex); [reflexivity|].
    destruct Hex as (a & Ha & _ & _ & Hw); [left; vm_compute; reflexivity|].
    now exists a.
  - destruct (alias_inside_a_word_is_production (with_tag "Reproduction" ticket_99992))
      as (_ & Hex); [reflexivity|].
    destruct Hex as (a & Ha & _ & Hp & _); [right; vm_compute; reflexivity|].
    now exists a.
Defined.

(** ** The monad *)
Section MonadFacts.
Context {S A B : Type}.

Lemma bind_Ok (m : M S A) (k : A -> M S B) s a s' :
  m s = (Ok a, s') -> bind m k s = k a s'.
Proof. unfold bind. now intros ->. Qed.

Lemma bind_Raise (m : M S A) (k : A -> M S B) s e s' :
  m s = (Raise e, s') -> bind m k s = (Raise e, s').
Proof. unfold bind. now intros ->. Qed.

Lemma try_except_Ok (m : M S A) h s a s' :
  m s = (Ok a, s') -> try_except m h s = (Ok a, s').
Proof. unfold try_except. now intros ->. Qed.

Lemma try_except_Raise (m : M S A) h s e s' :
  m s = (Raise e, s') -> try_except m h s = h e s'.
Proof. unfold try_except. now intros ->. Qed.

End MonadFacts.

(** ** Workload prober *)
Section Prober.
Context {W : Type} `{External W}.

Lemma try_methods_cons (m : strategy) ms uid (s : State W) :
  try_methods (m :: ms) uid s =
  match m uid s with
  | (Ok (Some w), s1) => (Ok w, s1)
  | (_, s1) => try_methods ms uid s1
  end.
Proof.
  cbn [try_methods]. unfold bind, attempt.
  destruct (m uid s) as [[[w|]|e] s1]; reflexivity.
Qed.

Lemma try_methods_all_fail ms uid (s s' : State W) :
  all_fail uid ms s s' -> try_methods ms uid s = (Ok 999, s').
Proof.
  induction 1 as [s | m ms s s1 s2 [Hs Hf] _ IH]; [reflexivity|].
  rewrite try_methods_cons.
  destruct (m uid s) as [[[w|]|e] s0]; simpl in *; subst; tauto.
Qed.

Lemma try_methods_first pre (m : strategy) post uid (s s1 : State W) w s2 :
  all_fail uid pre s s1 -> succeeds m uid s1 w s2 ->
  try_methods (pre ++ m :: post) uid s = (Ok w, s2).
Proof.
  induction 1 as [s | m' ms s s1 s3 [Hs Hf] _ IH]; intros Hok.
  - simpl app. rewrite try_methods_cons. unfold succeeds in Hok. now rewrite Hok.
  - simpl app. rewrite try_methods_cons.
    destruct (m' uid s) as [[[w'|]|e] s0]; simpl in *; subst; tauto.
Qed.

(** The loop always returns: the sentinel after every strategy failed, or
    the value of the first strategy that succeeded. *)
Lemma try_methods_returns ms uid (s : State W) :
  exists w s', try_methods ms uid s = (Ok w, s') /\
    ((w = 999 /\ all_fail uid ms s s') \/
     (exists pre m post s1, ms = pre ++ m :: post /\
        all_fail uid pre s s1 /\ succeeds m uid s1 w s')).
Proof.
  revert s; induction ms as [|m ms IH]; intros s.
  - exists 999, s. split; [reflexivity|]. left. split; [reflexivity | constructor].
  - rewrite try_methods_cons.
    destruct (m uid s) as [r s1] eqn:E.
    assert (Hrest : (forall w, r <> Ok (Some w)) ->
      exists w s', try_methods ms uid s1 = (Ok w, s') /\
        ((w = 999 /\ all_fail uid (m :: ms) s s') \/
         (exists pre m0 post s0, m :: ms = pre ++ m0 :: post /\
            all_fail uid pre s s0 /\ succeeds m0 uid s0 w s'))).
    { intros Hr.
      assert (Hf : fails m uid s s1).
      { unfold fails. rewrite E. split; [reflexivity|].
        destruct r as [[w|]|e]; simpl; [now apply (Hr w) | exact I | exact I]. }
      destruct (IH s1) as (w & s' & Hrun & [[-> Hall] | (pre & m0 & post & s0 & -> & Hpre & Hok)]).
      - exists 999, s'. split; [assumption|]. left. split; [reflexivity|].
        econstructor; eassumption.
      - exists w, s'. split; [assumption|]. right.
        exists (m :: pre), m0, post, s0. split; [reflexivity|].
        split; [econstructor; eassumption | assumption]. }
    destruct r as [[w|]|e].
    + exists w, s1. split; [reflexivity|]. right.
      exists [], m, ms, s. split; [reflexivity|]. split; [constructor | exact E].
    + apply Hrest. discriminate.
    + apply Hrest. discriminate.
Qed.

Lemma get_user_workload_probing cfg uid (s : State W) :
  get_user_workload cfg uid s =
  (if TEST_MODE cfg then ret (default 0 (test_workloads !! uid))
   else try_methods methods uid) (probing uid s).
Proof. reflexivity. Qed.

Lemma http_get_run q (s : State W) :
  http_get q s =
  let s' := {| world := snd (session_get q (world s)); trace := trace s ++ [EvGet q] |} in
  match fst (session_get q (world s)) with
  | Raises e => (Raise e, s')
  | Responds r => (Ok r, s')
  end.
Proof.
  unfold http_get, bind, emit, modify, external. simpl.
  destruct (session_get q (world s)) as [[e|r] w']; reflexivity.
Qed.

Lemma count_issues_nonneg p data : 0 <= count_issues p data.
Proof. unfold count_issues. lia. Qed.

Lemma method_1_natural uid (s : State W) w s' :
  succeeds _get_workload_method_1 uid s w s' -> 0 <= w \/ reported_total uid s w.
Proof.
  unfold succeeds, _get_workload_method_1, bind, reported_total.
  rewrite http_get_run. cbv zeta.
  destruct (fst (session_get _ (world s))) as [e|r] eqn:E; [discriminate|].
  destruct (status_code r =? 200); [|discriminate].
  unfold json. destruct (body r) as [b|] eqn:Eb; [|discriminate].
  unfold ret, get_total_count.
  destruct (total_count b) as [| |n] eqn:En; intros [= <- _]; [left; lia|].
  right. now exists r, b.
Qed.

Lemma method_2_natural uid (s : State W) w s' :
  succeeds _get_workload_method_2 uid s w s' -> 0 <= w.
Proof.
  unfold succeeds, _get_workload_method_2, bind.
  rewrite http_get_run. cbv zeta.
  destruct (fst (session_get _ (world s))) as [e|r]; [discriminate|].
  destruct (status_code r =? 200); [|discriminate].
  unfold json. destruct (body r) as [b|]; [|discriminate].
  intros [= <- _]. apply count_issues_nonneg.
Qed.

Lemma method_3_natural uid (s : State W) w s' :
  succeeds _get_workload_method_3 uid s w s' -> 0 <= w.
Proof.
  unfold succeeds, _get_workload_method_3, bind.
  rewrite http_get_run. cbv zeta.
  destruct (fst (session_get _ (world s))) as [e|r]; [discriminate|].
  destruct (status_code r =? 200); [|discriminate].
  unfold json. destruct (body r) as [b|]; [|discriminate].
  intros [= <- _]. apply count_issues_nonneg.
Qed.

Lemma get_user_workload_returns cfg uid (s : State W) :
  exists w s', get_user_workload cfg uid s = (Ok w, s').
Proof.
  rewrite get_user_workload_probing. destruct (TEST_MODE cfg).
  - eexists _, _. reflexivity.
  - destruct (try_methods_returns methods uid (probing uid s)) as (w & s' & Hrun & _).
    now exists w, s'.
Qed.

Lemma try_methods_natural uid (s : State W) w s' :
  try_methods methods uid s = (Ok w, s') -> 0 <= w \/ reported_total uid s w.
Proof.
  unfold methods. rewrite try_methods_cons.
  destruct (_get_workload_method_1 uid s) as [r1 s1] eqn:E1.
  assert (Hrest : try_methods [_get_workload_method_2; _get_workload_method_3] uid s1
                  = (Ok w, s') -> 0 <= w).
  { rewrite try_methods_cons.
    destruct (_get_workload_method_2 uid s1) as [r2 s2] eqn:E2.
    assert (Hlast : try_methods [_get_workload_method_3] uid s2 = (Ok w, s') -> 0 <= w).
    { rewrite try_methods_cons.
      destruct (_get_workload_method_3 uid s2) as [r3 s3] eqn:E3.
      destruct r3 as [[w3|]|e3]; cbn [try_methods ret]; intros [= <- <-]; try lia.
      eapply method_3_natural; exact E3. }
    destruct r2 as [[w2|]|e2]; try exact Hlast.
    intros [= <- <-]. eapply method_2_natural; exact E2. }
  destruct r1 as [[w1|]|e1]; try (intros Hr; left; now apply Hrest).
  intros [= <- <-]. eapply method_1_natural; exact E1.
Qed.

(** C3, as amended.  [get_user_workload] always returns.  Outside test mode
    it returns 999 when all three strategies fail, and the value of the
    first strategy that succeeds, in the state that strategy left, when one
    does; a result other than 999 comes from a strategy that succeeded; and
    a negative result can only be the [total_count] that the tracker sent
    to the first strategy.  In test mode it returns the entry of the table, or 0,
    and runs no strategy. *)
Theorem workload_probe (cfg : Config) (uid : Z) (s : State W) :
  (exists w s', get_user_workload cfg uid s = (Ok w, s')) /\
  (TEST_MODE cfg = false ->
   (forall s', all_fail uid methods (probing uid s) s' ->
      get_user_workload cfg uid s = (Ok 999, s')) /\
   (forall pre m post s1 w s2,
      methods = pre ++ m :: post ->
      all_fail uid pre (probing uid s) s1 -> succeeds m uid s1 w s2 ->
      get_user_workload cfg uid s = (Ok w, s2)) /\
   (forall w s', get_user_workload cfg uid s = (Ok w, s') -> w <> 999 ->
      exists pre m post s1, methods = pre ++ m :: post /\
        all_fail uid pre (probing uid s) s1 /\ succeeds m uid s1 w s') /\
   (forall w s', get_user_workload cfg uid s = (Ok w, s') ->
      0 <= w \/ reported_total uid s w)) /\
  (TEST_MODE cfg = true ->
   get_user_workload cfg uid s = (Ok (default 0 (test_workloads !! uid)), probing uid s)).
Proof.
  split; [apply get_user_workload_returns|].
  rewrite get_user_workload_probing.
  split; intros ->; [|reflexivity].
  split; [exact (try_methods_all_fail methods uid (probing uid s))|].
  split.
  { intros pre m post s1 w s2 -> Hpre Hok. eapply try_methods_first; eassumption. }
  destruct (try_methods_returns methods uid (probing uid s))
    as (w0 & s0 & Hrun & Hcase).
  rewrite Hrun. split.
  - intros w s' [= <- <-] Hw.
    destruct Hcase as [[-> _]|Hex]; [congruence | exact Hex].
  - intros w s' [= <- <-].
    exact (try_methods_natural uid (probing uid s) w0 s0 Hrun).
Qed.

End Prober.

Lemma workload_probe_witness :
  get_user_workload config 21 (start (counting_server (fun _ => 3) 10))
  = (Ok 3, {| world := counting_server (fun _ => 3) 10;
              trace := [ EvProbe 21;
                         EvGet {| q_project_id := None; q_status_id := Some "2";
                                  q_assigned_to_id := 21; q_limit := 100 |} ] |}) /\
  get_user_workload config 21 (start unreachable_server)
  = (Ok 999, {| world := unreachable_server;
                trace := [ EvProbe 21;
                           EvGet {| q_project_id := None; q_status_id := Some "2";
                                    q_assigned_to_id := 21; q_limit := 100 |};
                           EvGet {| q_project_id := None; q_status_id := None;
                                    q_assigned_to_id := 21; q_limit := 100 |};
                           EvGet {| q_project_id := None; q_status_id := Some "open";
                                    q_assigned_to_id := 21; q_limit := 100 |} ] |}).
Proof.
  split.
  - destruct (workload_probe config 21 (start (counting_server (fun _ => 3) 10)))
      as (_ & Hrun & _).
    destruct (Hrun eq_refl) as (_ & Hfirst & _).
    apply (Hfirst [] _get_workload_method_1
                  [_get_workload_method_2; _get_workload_method_3]
                  (probing 21 (start (counting_server (fun _ => 3) 10)))).
    + reflexivity.
    + constructor.
    + reflexivity.
  - destruct (workload_probe config 21 (start unreachable_server)) as (_ & Hrun & _).
    destruct (Hrun eq_refl) as (Hall & _).
    apply Hall.
    repeat (econstructor; [split; [reflexivity | exact I]|]).
    constructor.
Defined.

(** C3 as stated fails: a tracker that reports 999 tickets in progress makes
    the probe return 999 although its first strategy succeeded. *)
Lemma sentinel_is_not_only_failure :
  ~ (forall (cfg : Config) (uid : Z) (s : State Server),
       fst (get_user_workload cfg uid s) = Ok 999 <->
       exists s', all_fail uid methods (probing uid s) s').
Proof.
  intros Hclaim.
  destruct (Hclaim config 21 (start (counting_server (fun _ => 999) 10))) as [Hall _].
  destruct (Hall eq_refl) as [s' Hfail].
  inversion Hfail as [|m ms s0 s1 s2 [_ Hf] _]; subst.
  exact Hf.
Qed.

(** ** Assignment router *)

Lemma least_first_spec {A} (rest : list (A * Z)) (b : A * Z) :
  exists i, (b :: rest) !! i = Some (least_first b rest) /\
    (forall j x, (b :: rest) !! j = Some x -> snd (least_first b rest) <= snd x) /\
    (forall j x, (j < i)%nat -> (b :: rest) !! j = Some x ->
                 snd (least_first b rest) < snd x).
Proof.
  revert b; induction rest as [|y rest IH]; intros b.
  - exists 0%nat. split; [reflexivity|]. split.
    + intros [|j] x; simpl; [intros [= <-]; lia | discriminate].
    + intros; lia.
  - cbn [least_first]. destruct (snd y <? snd b) eqn:E.
    + apply Z.ltb_lt in E. destruct (IH y) as (i & Hi & Hle & Hlt).
      exists (S i). split; [exact Hi|].
      assert (Hy := Hle 0%nat y eq_refl).
      split.
      * intros [|j] x Hx; simpl in Hx; [injection Hx as <-; lia | exact (Hle j x Hx)].
      * intros [|j] x Hj Hx; simpl in Hx; [injection Hx as <-; lia|].
        apply (Hlt j x); [lia | exact Hx].
    + apply Z.ltb_ge in E. destruct (IH b) as (i & Hi & Hle & Hlt).
      assert (Hb := Hle 0%nat b eq_refl).
      assert (Hall : forall j x, (b :: y :: rest) !! j = Some x ->
                                 snd (least_first b rest) <= snd x).
      { intros [|[|j]] x Hx; simpl in Hx.
        - injection Hx as <-. exact Hb.
        - injection Hx as <-. lia.
        - exact (Hle (S j) x Hx). }
      destruct i as [|i].
      * exists 0%nat. split; [exact Hi|]. split; [exact Hall | intros; lia].
      * exists (S (S i)). split; [exact Hi|]. split; [exact Hall|].
        intros [|[|j]] x Hj Hx; simpl in Hx.
        -- injection Hx as <-. apply (Hlt 0%nat b); [lia | reflexivity].
        -- injection Hx as <-.
           assert (snd (least_first b rest) < snd b)
             by (apply (Hlt 0%nat b); [lia | reflexivity]).
           lia.
        -- apply (Hlt (S j) x); [lia | exact Hx].
Qed.

Lemma all_ids_or_not (team : list Member) :
  Forall has_id team \/ ~ Forall has_id team.
Proof.
  induction team as [|m team [IH|IH]].
  - left. constructor.
  - destruct (user_id m) as [uid|] eqn:E.
    + left. constructor; [unfold has_id; congruence | exact IH].
    + right. intros Hall. inversion Hall as [|? ? Hm _]; subst. now apply Hm.
  - right. intros Hall. inversion Hall; subst. now apply IH.
Qed.

Section Router.
Context {W : Type} `{External W}.

Lemma keys_of_length {A} (key : A -> M (State W) Z) l :
  forall s ks s', keys_of key l s = (Ok ks, s') -> length ks = length l.
Proof.
  induction l as [|x l IH]; intros s ks s'; cbn [keys_of]; unfold bind, ret.
  - now intros [= <- _].
  - destruct (key x s) as [[k|e] s1]; [|discriminate].
    destruct (keys_of key l s1) as [[ks'|e] s2] eqn:E; [|discriminate].
    intros [= <- _]. simpl. f_equal. eapply IH; exact E.
Qed.

Lemma min_loop_keys {A} (key : A -> M (State W) Z) rest :
  forall best kbest s ks s',
    keys_of key rest s = (Ok ks, s') ->
    min_loop key rest best kbest s
    = (Ok (fst (least_first (best, kbest) (zip rest ks))), s').
Proof.
  induction rest as [|y rest IH]; intros best kbest s ks s';
    cbn [keys_of min_loop]; unfold bind, ret.
  - now intros [= <- <-].
  - destruct (key y s) as [[ky|e] s1]; [|discriminate].
    destruct (keys_of key rest s1) as [[ks'|e] s2] eqn:E; [|discriminate].
    intros [= <- <-]. cbn [zip_with least_first snd].
    destruct (ky <? kbest); apply IH; exact E.
Qed.

Lemma min_loop_raises {A} (key : A -> M (State W) Z) rest :
  forall best kbest s e s',
    keys_of key rest s = (Raise e, s') ->
    min_loop key rest best kbest s = (Raise e, s').
Proof.
  induction rest as [|y rest IH]; intros best kbest s e s';
    cbn [keys_of min_loop]; unfold bind, ret; [discriminate|].
  destruct (key y s) as [[ky|e0] s1]; [|now intros [= <- <-]].
  destruct (keys_of key rest s1) as [[ks'|e1] s2] eqn:E; [discriminate|].
  intros [= <- <-]. destruct (ky <? kbest); apply IH; exact E.
Qed.

Lemma min_by_key_raises {A} (key : A -> M (State W) Z) l s e s' :
  keys_of key l s = (Raise e, s') -> min_by_key key l s = (Raise e, s').
Proof.
  destruct l as [|x rest]; cbn [keys_of min_by_key]; unfold bind, ret; [discriminate|].
  destruct (key x s) as [[kx|e0] s1]; [|now intros [= <- <-]].
  destruct (keys_of key rest s1) as [[ks'|e1] s2] eqn:E; [discriminate|].
  intros [= <- <-]. eapply min_loop_raises; exact E.
Qed.

(** [min] over a list that is not empty returns the first item of least
    key, in the state reached after computing every key. *)
Lemma min_by_key_keys {A} (key : A -> M (State W) Z) l s ks s' :
  l <> [] -> keys_of key l s = (Ok ks, s') ->
  exists i best k, min_by_key key l s = (Ok best, s') /\
    l !! i = Some best /\ is_least_first ks i k.
Proof.
  intros Hne Hkeys. pose proof (keys_of_length _ _ _ _ _ Hkeys) as Hlen.
  destruct l as [|x rest]; [congruence|]. clear Hne.
  revert Hkeys. cbn [keys_of min_by_key]; unfold bind, ret.
  destruct (key x s) as [[kx|e] s1]; [|discriminate].
  destruct (keys_of key rest s1) as [[ks'|e] s2] eqn:E; [|discriminate].
  intros [= <- <-]. rewrite (min_loop_keys _ _ _ _ _ _ _ E).
  destruct (least_first_spec (zip rest ks') (x, kx)) as (i & Hi & Hle & Hlt).
  destruct (least_first (x, kx) (zip rest ks')) as [best k].
  change ((x, kx) :: zip rest ks') with (zip (x :: rest) (kx :: ks')) in *.
  apply lookup_zip_with_Some in Hi as (b0 & k0 & [= -> ->] & Hb & Hk).
  exists i, b0, k0. split; [reflexivity|]. split; [exact Hb|].
  assert (Hpair : forall j kj, (kx :: ks') !! j = Some kj ->
                    exists xj, zip (x :: rest) (kx :: ks') !! j = Some (xj, kj)).
  { intros j kj Hj.
    destruct (lookup_lt_is_Some_2 (x :: rest) j) as [xj Hxj].
    { rewrite <- Hlen. eapply lookup_lt_Some; exact Hj. }
    exists xj. apply lookup_zip_with_Some. now exists xj, kj. }
  split; [exact Hk|]. split.
  - intros j kj Hj. destruct (Hpair j kj Hj) as [xj Hz]. exact (Hle j _ Hz).
  - intros j kj Hlt' Hj. destruct (Hpair j kj Hj) as [xj Hz]. exact (Hlt j _ Hlt' Hz).
Qed.

Lemma load_key_run cfg m (s : State W) :
  load_key cfg m s =
  match user_id m with
  | Some uid => get_user_workload cfg uid s
  | None => (Raise (KeyError "user_id"), s)
  end.
Proof. unfold load_key, bind, getitem. destruct (user_id m); reflexivity. Qed.

Lemma probed_loads_returns cfg team :
  Forall has_id team ->
  forall s : State W, exists ks s', probed_loads cfg team s = (Ok ks, s').
Proof.
  unfold probed_loads.
  induction 1 as [|m team Hm _ IH]; intros s; cbn [keys_of]; unfold bind, ret.
  - now eexists _, _.
  - rewrite load_key_run. unfold has_id in Hm.
    destruct (user_id m) as [uid|]; [|congruence].
    destruct (get_user_workload_returns cfg uid s) as (w & s1 & ->).
    destruct (IH s1) as (ks & s2 & ->). now eexists _, _.
Qed.

Lemma probed_loads_raises cfg team :
  ~ Forall has_id team ->
  forall s : State W, exists s',
    probed_loads cfg team s = (Raise (KeyError "user_id"), s').
Proof.
  unfold probed_loads.
  induction team as [|m team IH]; intros Hno s; [destruct Hno; constructor|].
  cbn [keys_of]; unfold bind, ret. rewrite load_key_run.
  destruct (user_id m) as [uid|] eqn:Em; [|now eexists].
  destruct (get_user_workload_returns cfg uid s) as (w & s1 & ->).
  destruct (IH ltac:(intros Hall; apply Hno; constructor;
                      [unfold has_id; congruence | exact Hall]) s1) as (s2 & ->).
  now eexists.
Qed.

Lemma select_l2_run cfg kind reason_of (s : State W) :
  select_l2 cfg kind reason_of s =
  match min_by_key (load_key cfg) (L2_MEMBERS cfg) s with
  | (Ok best, s1) =>
      match load_key cfg best s1 with
      | (Ok w, s2) => (Ok (Some {| member := best; assignment_type := Some kind;
                                   reason := Some (reason_of w) |}), s2)
      | (Raise e, s2) => (Raise e, s2)
      end
  | (Raise e, s1) => (Raise e, s1)
  end.
Proof.
  unfold select_l2, bind.
  destruct (min_by_key _ _ s) as [[best|e] s1]; [|reflexivity].
  rewrite load_key_run. unfold getitem, ret, raise.
  destruct (user_id best); [|reflexivity].
  destruct (get_user_workload cfg z s1) as [[w|e] s2]; reflexivity.
Qed.

(** The selection over a team that is not empty and whose records carry
    their ids: the first member of least probed load, probed once more. *)
Lemma select_l2_ok cfg kind reason_of (s : State W) :
  L2_MEMBERS cfg <> [] -> Forall has_id (L2_MEMBERS cfg) ->
  exists loads s1 i best k w s2,
    probed_loads cfg (L2_MEMBERS cfg) s = (Ok loads, s1) /\
    L2_MEMBERS cfg !! i = Some best /\ is_least_first loads i k /\
    load_key cfg best s1 = (Ok w, s2) /\
    select_l2 cfg kind reason_of s
    = (Ok (Some {| member := best; assignment_type := Some kind;
                   reason := Some (reason_of w) |}), s2).
Proof.
  intros Hne Hids.
  destruct (probed_loads_returns cfg _ Hids s) as (loads & s1 & Hloads).
  destruct (min_by_key_keys _ _ _ _ _ Hne Hloads) as (i & best & k & Hmin & Hi & Hk).
  assert (Hbest : has_id best).
  { rewrite Forall_lookup in Hids. exact (Hids i best Hi). }
  assert (exists w s2, load_key cfg best s1 = (Ok w, s2)) as (w & s2 & Hw).
  { rewrite load_key_run. unfold has_id in Hbest.
    destruct (user_id best) as [uid|]; [|congruence].
    apply get_user_workload_returns. }
  exists loads, s1, i, best, k, w, s2.
  repeat (split; [assumption|]).
  rewrite select_l2_run, Hmin, Hw. reflexivity.
Qed.

Lemma select_l2_keys_raise cfg kind reason_of (s : State W) e s' :
  probed_loads cfg (L2_MEMBERS cfg) s = (Raise e, s') ->
  select_l2 cfg kind reason_of s = (Raise e, s').
Proof.
  intros Hr. rewrite select_l2_run.
  now rewrite (min_by_key_raises _ _ _ _ _ Hr).
Qed.

Lemma select_l2_empty cfg kind reason_of (s : State W) :
  L2_MEMBERS cfg = [] ->
  select_l2 cfg kind reason_of s
  = (Raise (ValueError "min() arg is an empty sequence"), s).
Proof. intros E. rewrite select_l2_run, E. reflexivity. Qed.

Lemma find_best_assignee_critical cfg bh (s : State W) :
  find_best_assignee cfg "P1(Critical)" bh s =
  try_except (select_l2 cfg "L2_CRITICAL_PROD" critical_reason)
             (fun _ => l2_fallback cfg) s.
Proof. reflexivity. Qed.

Lemma find_best_assignee_below cfg prio bh (s : State W) :
  prio <> "P1(Critical)" ->
  find_best_assignee cfg prio bh s =
  (if bh then
     available_l1 <- collect_available_l1 cfg (L1_MEMBERS cfg) [] ;;
     match available_l1 with
     | _ :: _ =>
         best <- min_by_key (fun x => ret (snd x)) available_l1 ;;
         let '(best_l1, current_load) := best in
         cap <- getitem (max_tickets best_l1) "max_tickets" ;;
         ret (Some {| member := best_l1;
                      assignment_type := Some "L1_BUSINESS_HOURS";
                      reason := Some (business_hours_reason current_load cap) |})
     | [] =>
         try_except (select_l2 cfg "L2_L1_OVERLOADED" overloaded_reason)
                    (fun _ => l2_fallback cfg)
     end
   else ret None) s.
Proof.
  intros Hp. apply String.eqb_neq in Hp.
  unfold find_best_assignee. now rewrite Hp.
Qed.

Lemma l2_fallback_run cfg (s : State W) :
  l2_fallback cfg s =
  match L2_MEMBERS cfg with
  | [] => (Raise IndexError, s)
  | m :: _ => (Ok (Some (bare m)), s)
  end.
Proof. unfold l2_fallback, bind, first_item. now destruct (L2_MEMBERS cfg). Qed.

(** C2, as amended.  For [P1(Critical)], either value of the business-hours
    flag and a second-level team that is not empty, the router returns a
    member of that team: never [None], and it does not raise.  When every
    record carries its id, it is the member of least probed load, the first
    of them in configured order, tagged [L2_CRITICAL_PROD] with the load
    probed once more; otherwise it is the first configured record as it
    stands. *)
Theorem critical_routing (cfg : Config) (bh : bool) (s : State W)
  (m0 : Member) (rest : list Member) :
  L2_MEMBERS cfg = m0 :: rest ->
  (exists a s', find_best_assignee cfg "P1(Critical)" bh s = (Ok (Some a), s') /\
                member a ∈ L2_MEMBERS cfg) /\
  (Forall has_id (L2_MEMBERS cfg) ->
   exists loads s1 i best k w s2,
     probed_loads cfg (L2_MEMBERS cfg) s = (Ok loads, s1) /\
     L2_MEMBERS cfg !! i = Some best /\ is_least_first loads i k /\
     load_key cfg best s1 = (Ok w, s2) /\
     find_best_assignee cfg "P1(Critical)" bh s
     = (Ok (Some {| member := best; assignment_type := Some "L2_CRITICAL_PROD";
                    reason := Some (critical_reason w) |}), s2)) /\
  (~ Forall has_id (L2_MEMBERS cfg) ->
   exists s', find_best_assignee cfg "P1(Critical)" bh s = (Ok (Some (bare m0)), s')).
Proof.
  intros E. rewrite find_best_assignee_critical.
  assert (Hne : L2_MEMBERS cfg <> []) by (rewrite E; discriminate).
  assert (Hok : Forall has_id (L2_MEMBERS cfg) ->
    exists loads s1 i best k w s2,
     probed_loads cfg (L2_MEMBERS cfg) s = (Ok loads, s1) /\
     L2_MEMBERS cfg !! i = Some best /\ is_least_first loads i k /\
     load_key cfg best s1 = (Ok w, s2) /\
     try_except (select_l2 cfg "L2_CRITICAL_PROD" critical_reason)
                (fun _ => l2_fallback cfg) s
     = (Ok (Some {| member := best; assignment_type := Some "L2_CRITICAL_PROD";
                    reason := Some (critical_reason w) |}), s2)).
  { intros Hids.
    destruct (select_l2_ok cfg "L2_CRITICAL_PROD" critical_reason s Hne Hids)
      as (loads & s1 & i & best & k & w & s2 & Hl & Hi & Hk & Hw & Hsel).
    exists loads, s1, i, best, k, w, s2. repeat (split; [assumption|]).
    now apply try_except_Ok. }
  assert (Hbad : ~ Forall has_id (L2_MEMBERS cfg) ->
    exists s', try_except (select_l2 cfg "L2_CRITICAL_PROD" critical_reason)
                          (fun _ => l2_fallback cfg) s = (Ok (Some (bare m0)), s')).
  { intros Hno. destruct (probed_loads_raises cfg _ Hno s) as (s' & Hr).
    exists s'. erewrite try_except_Raise by (eapply select_l2_keys_raise; exact Hr).
    rewrite l2_fallback_run, E. reflexivity. }
  split; [|split; assumption].
  destruct (all_ids_or_not (L2_MEMBERS cfg)) as [Hids|Hno].
  - destruct (Hok Hids) as (loads & s1 & i & best & k & w & s2 & _ & Hi & _ & _ & Hrun).
    eexists _, s2. split; [exact Hrun|]. simpl. eapply list_elem_of_lookup_2; exact Hi.
  - destruct (Hbad Hno) as (s' & Hrun). eexists _, s'. split; [exact Hrun|].
    simpl. rewrite E. left.
Qed.

Lemma keys_of_pure {A} (f : A -> Z) l (s : State W) :
  keys_of (fun x => ret (f x)) l s = (Ok (map f l), s).
Proof.
  induction l as [|x l IH]; [reflexivity|].
  cbn [keys_of]. unfold bind, ret in *. now rewrite IH.
Qed.

Lemma under_capacity_cons m members w loads :
  under_capacity (m :: members) (w :: loads) =
  if w <? capacity m then (m, w) :: under_capacity members loads
  else under_capacity members loads.
Proof.
  unfold under_capacity. cbn [zip_with]. rewrite filter_cons. cbn [fst snd].
  destruct (Z.ltb_spec w (capacity m)); destruct (decide (w < capacity m));
    try reflexivity; lia.
Qed.

Lemma keys_of_cons {A} (key : A -> M (State W) Z) x l (s : State W) :
  keys_of key (x :: l) s =
  match key x s with
  | (Ok k, s1) =>
      match keys_of key l s1 with
      | (Ok ks, s2) => (Ok (k :: ks), s2)
      | (Raise e, s2) => (Raise e, s2)
      end
  | (Raise e, s1) => (Raise e, s1)
  end.
Proof. reflexivity. Qed.

Lemma collect_available_l1_cons cfg m rest acc (s : State W) :
  collect_available_l1 cfg (m :: rest) acc s =
  match user_id m with
  | None => (Raise (KeyError "user_id"), s)
  | Some uid =>
      match get_user_workload cfg uid s with
      | (Ok w, s1) =>
          match max_tickets m with
          | None => (Raise (KeyError "max_tickets"), s1)
          | Some cap =>
              if w <? cap then collect_available_l1 cfg rest (acc ++ [(m, w)]) s1
              else collect_available_l1 cfg rest acc s1
          end
      | (Raise e, s1) => (Raise e, s1)
      end
  end.
Proof.
  cbn [collect_available_l1]. unfold bind, getitem, ret, raise.
  destruct (user_id m) as [uid|]; [|reflexivity].
  destruct (get_user_workload cfg uid s) as [[w|e] s1]; [|reflexivity].
  destruct (max_tickets m) as [cap|]; [|reflexivity].
  destruct (w <? cap); reflexivity.
Qed.

(** The loop over the first-level team probes every member in order and
    keeps those whose load is below their capacity. *)
Lemma collect_available_l1_run cfg members :
  Forall l1_ok members ->
  forall acc (s : State W), exists loads s1,
    probed_loads cfg members s = (Ok loads, s1) /\
    collect_available_l1 cfg members acc s
    = (Ok (acc ++ under_capacity members loads), s1).
Proof.
  unfold probed_loads.
  induction 1 as [|m members [Hid (cap & Hcap & _)] _ IH]; intros acc s.
  - exists [], s. split; [reflexivity|]. simpl. now rewrite app_nil_r.
  - rewrite keys_of_cons, collect_available_l1_cons, load_key_run, Hcap.
    unfold has_id in Hid. destruct (user_id m) as [uid|]; [|congruence].
    destruct (get_user_workload_returns cfg uid s) as (w & s1 & ->).
    cbv beta iota.
    destruct (w <? cap) eqn:Ew.
    + destruct (IH (acc ++ [(m, w)]) s1) as (loads & s2 & Hl & Hc).
      exists (w :: loads), s2. rewrite Hl. split; [reflexivity|].
      rewrite under_capacity_cons. unfold capacity at 1. rewrite Hcap. cbn [default from_option id].
      rewrite Ew, Hc. now rewrite <- app_assoc.
    + destruct (IH acc s1) as (loads & s2 & Hl & Hc).
      exists (w :: loads), s2. rewrite Hl. split; [reflexivity|].
      rewrite under_capacity_cons. unfold capacity at 1. rewrite Hcap. cbn [default from_option id].
      rewrite Ew, Hc. reflexivity.
Qed.

Lemma under_capacity_elem members loads m load :
  (m, load) ∈ under_capacity members loads <->
  load < capacity m /\
  exists j, members !! j = Some m /\ loads !! j = Some load.
Proof.
  unfold under_capacity. rewrite list_elem_of_filter. cbn [fst snd].
  rewrite list_elem_of_lookup.
  split; intros [Hlt [j Hj]]; (split; [exact Hlt|]); exists j.
  - apply lookup_zip_with_Some in Hj as (x & y & [= -> ->] & ? & ?). now split.
  - apply lookup_zip_with_Some. exists m, load. tauto.
Qed.

Lemma find_best_assignee_deferred cfg prio (s : State W) :
  prio <> "P1(Critical)" -> find_best_assignee cfg prio false s = (Ok None, s).
Proof. intros Hp. now rewrite find_best_assignee_below. Qed.

Lemma l1_capacity members m :
  Forall l1_ok members -> m ∈ members ->
  max_tickets m = Some (capacity m) /\ capacity m <= 999.
Proof.
  intros Hall Hm. rewrite Forall_forall in Hall.
  destruct (Hall m Hm) as (_ & cap & Hcap & Hle).
  unfold capacity. rewrite Hcap. now split.
Qed.

(** C4.  For a priority other than [P1(Critical)] during business hours,
    and the rosters in order, the router probes every first-level member
    and keeps exactly those whose load is strictly below their capacity, so
    never one whose load is the sentinel 999.  When some remain it assigns
    the one of least load, the first of them in configured order, tagged
    [L1_BUSINESS_HOURS]; when none remains it assigns the second-level
    member of least probed load, tagged [L2_L1_OVERLOADED] with the reason
    that tells the first level is at capacity. *)
Theorem business_hours_routing (cfg : Config) (prio : string) (s : State W) :
  prio <> "P1(Critical)" -> roster_ok cfg ->
  exists loads s1,
    let available := under_capacity (L1_MEMBERS cfg) loads in
    probed_loads cfg (L1_MEMBERS cfg) s = (Ok loads, s1) /\
    collect_available_l1 cfg (L1_MEMBERS cfg) [] s = (Ok available, s1) /\
    (forall m load,
       (m, load) ∈ available <->
       load < capacity m /\
       exists j, L1_MEMBERS cfg !! j = Some m /\ loads !! j = Some load) /\
    (forall m, (m, 999) ∉ available) /\
    (available <> [] ->
     exists i best load,
       available !! i = Some (best, load) /\
       is_least_first (available.*2) i load /\
       find_best_assignee cfg prio true s
       = (Ok (Some {| member := best; assignment_type := Some "L1_BUSINESS_HOURS";
                      reason := Some (business_hours_reason load (capacity best)) |}),
          s1)) /\
    (available = [] ->
     exists loads2 s2 i best k w s3,
       probed_loads cfg (L2_MEMBERS cfg) s1 = (Ok loads2, s2) /\
       L2_MEMBERS cfg !! i = Some best /\ is_least_first loads2 i k /\
       load_key cfg best s2 = (Ok w, s3) /\
       find_best_assignee cfg prio true s
       = (Ok (Some {| member := best; assignment_type := Some "L2_L1_OVERLOADED";
                      reason := Some (overloaded_reason w) |}), s3)).
Proof.
  intros Hp (Hl1 & Hne & Hids).
  destruct (collect_available_l1_run cfg _ Hl1 [] s) as (loads & s1 & Hloads & Hcol).
  rewrite app_nil_l in Hcol.
  exists loads, s1. cbv zeta.
  assert (Hin : forall m load, (m, load) ∈ under_capacity (L1_MEMBERS cfg) loads ->
                               m ∈ L1_MEMBERS cfg).
  { intros m load Hm. apply under_capacity_elem in Hm as (_ & j & Hj & _).
    eapply list_elem_of_lookup_2; exact Hj. }
  split; [exact Hloads|]. split; [exact Hcol|].
  split; [intros m load; apply under_capacity_elem|].
  split.
  { intros m Hm. pose proof (Hin _ _ Hm) as Hmem.
    apply under_capacity_elem in Hm as (Hlt & _).
    destruct (l1_capacity _ _ Hl1 Hmem) as (_ & Hle). lia. }
  rewrite find_best_assignee_below by exact Hp.
  split.
  - intros Hsome.
    pose proof (keys_of_pure snd (under_capacity (L1_MEMBERS cfg) loads) s1) as Hkeys.
    destruct (min_by_key_keys _ _ _ _ _ Hsome Hkeys)
      as (i & [best load] & k & Hmin & Hi & Hk).
    assert (k = load) as ->.
    { destruct Hk as (Hk & _). rewrite list_lookup_fmap, Hi in Hk.
      now injection Hk. }
    exists i, best, load. split; [exact Hi|]. split; [exact Hk|].
    assert (Hbest : best ∈ L1_MEMBERS cfg).
    { eapply Hin, list_elem_of_lookup_2; exact Hi. }
    destruct (l1_capacity _ _ Hl1 Hbest) as (Hcap & _).
    unfold bind. rewrite Hcol.
    destruct (under_capacity (L1_MEMBERS cfg) loads) as [|x xs] eqn:E; [congruence|].
    rewrite Hmin, Hcap. reflexivity.
  - intros Hnone.
    destruct (select_l2_ok cfg "L2_L1_OVERLOADED" overloaded_reason s1 Hne Hids)
      as (loads2 & s2 & i & best & k & w & s3 & Hl & Hi & Hk & Hw & Hsel).
    exists loads2, s2, i, best, k, w, s3. repeat (split; [assumption|]).
    unfold bind. rewrite Hcol, Hnone. now apply try_except_Ok.
Qed.

End Router.

Lemma critical_routing_witness :
  (exists a s',
     find_best_assignee config "P1(Critical)" false
       (start (counting_server table_load 23)) = (Ok (Some a), s') /\
     member a ∈ L2_MEMBERS config) /\
  (exists s',
     find_best_assignee (with_l2 [l2 21 "Arun Ramdas"; anonymous "Guest"] config)
       "P1(Critical)" true (start (counting_server table_load 10))
     = (Ok (Some (bare (l2 21 "Arun Ramdas"))), s')).
Proof.
  split.
  - apply (critical_routing config false (start (counting_server table_load 23))
             (l2 21 "Arun Ramdas") _ eq_refl).
  - apply (critical_routing (with_l2 [l2 21 "Arun Ramdas"; anonymous "Guest"] config)
             true (start (counting_server table_load 10))
             (l2 21 "Arun Ramdas") _ eq_refl).
    intros Hall. inversion Hall as [|? ? _ Hrest]; subst.
    inversion Hrest as [|? ? Hguest _]; subst. now apply Hguest.
Defined.

(** With the team and the loads of the test table, a critical ticket goes
    to the member of load 2, at night as well. *)
Example critical_goes_to_least_loaded :
  fst (find_best_assignee config "P1(Critical)" false
         (start (counting_server table_load 23)))
  = Ok (Some {| member := l2 11 "Jerish Vijay";
                assignment_type := Some "L2_CRITICAL_PROD";
                reason := Some "P1 Critical PRODUCTION issue - L2 team (24/7) - Current load: 2 tickets" |}).
Proof. vm_compute. reflexivity. Qed.

(** C2 as stated fails: with an empty second-level team the router raises
    [IndexError] from its fallback and returns no assignee. *)
Lemma critical_unrouted_without_l2 :
  ~ (forall (cfg : Config) (bh : bool) (s : State Server),
       exists a s', find_best_assignee cfg "P1(Critical)" bh s = (Ok (Some a), s')).
Proof.
  intros Hclaim.
  destruct (Hclaim (with_l2 [] config) true (start unreachable_server))
    as (a & s' & Hrun).
  vm_compute in Hrun. discriminate.
Qed.

Lemma config_roster_ok : roster_ok config.
Proof.
  split; [|split].
  - repeat constructor; try discriminate; exists 5; split; (reflexivity || lia).
  - discriminate.
  - repeat constructor; discriminate.
Qed.

Lemma business_hours_routing_witness :
  exists loads s1,
    probed_loads config (L1_MEMBERS config) (start (counting_server table_load 10))
    = (Ok loads, s1) /\
    forall m, (m, 999) ∉ under_capacity (L1_MEMBERS config) loads.
Proof.
  destruct (business_hours_routing config "P2(High)"
              (start (counting_server table_load 10)))
    as (loads & s1 & Hl & _ & _ & Hs & _).
  - discriminate.
  - exact config_roster_ok.
  - exists loads, s1. split; [exact Hl | exact Hs].
Defined.

(** With the loads of the test table the first level has room: the member
    without a ticket gets the next one. *)
Example high_goes_to_free_l1 :
  fst (find_best_assignee config "P2(High)" true
         (start (counting_server table_load 10)))
  = Ok (Some {| member := l1 1329 "Lakshmi A B";
                assignment_type := Some "L1_BUSINESS_HOURS";
                reason := Some "P2-P5 during business hours - L1 team - Load: 0/5" |}).
Proof. vm_compute. reflexivity. Qed.

(** Every first-level member at capacity: the ticket goes up. *)
Example high_escalates_when_l1_full :
  fst (find_best_assignee config "P2(High)" true
         (start (counting_server (fun _ => 5) 10)))
  = Ok (Some {| member := l2 21 "Arun Ramdas";
                assignment_type := Some "L2_L1_OVERLOADED";
                reason := Some "L1 team at capacity (5+ tickets each) - Escalated to L2 - Load: 5" |}).
Proof. vm_compute. reflexivity. Qed.

(** No probe answers: every load is the sentinel and nobody of the first
    level is kept. *)
Example high_escalates_when_probes_fail :
  fst (find_best_assignee config "P2(High)" true (start unreachable_server))
  = Ok (Some {| member := l2 21 "Arun Ramdas";
                assignment_type := Some "L2_L1_OVERLOADED";
                reason := Some "L1 team at capacity (5+ tickets each) - Escalated to L2 - Load: 999" |}).
Proof. vm_compute. reflexivity. Qed.

(** ** Analysis generator *)

Lemma lstrip_blank s : Text.lstrip s = "" <-> blank s = true.
Proof.
  induction s as [|c s IH]; simpl; [tauto|].
  destruct (Text.isspace c); simpl; [exact IH | split; discriminate].
Qed.

Lemma lstrip_head s c t : Text.lstrip s = String c t -> Text.isspace c = false.
Proof.
  induction s as [|d s IH]; simpl; [discriminate|].
  destruct (Text.isspace d) eqn:E; [exact IH | now intros [= <- _]].
Qed.

Lemma rstrip_empty c t : Text.rstrip (String c t) = "" -> Text.isspace c = true.
Proof.
  cbn [Text.rstrip]. destruct (Text.rstrip t); [|discriminate].
  now destruct (Text.isspace c).
Qed.

(** [strip] leaves nothing exactly of the blank texts. *)
Lemma strip_blank s : Text.strip s = "" <-> blank s = true.
Proof.
  unfold Text.strip. rewrite <- lstrip_blank. split.
  - destruct (Text.lstrip s) as [|c t] eqn:E; [reflexivity|].
    intros Hr. apply rstrip_empty in Hr. apply lstrip_head in E. congruence.
  - now intros ->.
Qed.

Lemma categorize_first_match text : categorize text = first_matching_category text.
Proof.
  unfold categorize, first_matching_category, CATEGORIES, DEFAULT_CATEGORY.
  cbn [List.find fst snd].
  repeat (match goal with
          | |- context [if ?c then _ else _] => destruct c; [reflexivity|]
          end).
  reflexivity.
Qed.

Lemma fallback_template_nonempty category env_context commands :
  fallback_template category env_context commands <> "".
Proof. unfold fallback_template. simpl. discriminate. Qed.

(** The two calls of [.lower()] of the fallback: both return on a ticket
    that describes itself in text, and the first that meets another value
    raises. *)
Lemma combined_text_cases ticket :
  combined_text ticket =
  match value_without_text ticket with
  | Some v => Raise (no_attribute v "lower")
  | None => Ok (searched_text ticket)
  end.
Proof.
  unfold combined_text, value_without_text, searched_text.
  destruct (t_subject ticket) as [subject|]; [|reflexivity].
  cbn [Py.of_subject Py.lower default from_option id].
  destruct (t_description ticket) as [[| d |k t]|]; reflexivity.
Qed.

Lemma describes_in_text_iff ticket :
  describes_in_text ticket <-> value_without_text ticket = None.
Proof.
  unfold describes_in_text, value_without_text. split.
  - intros ((subject & ->) & [-> | (d & ->)]); reflexivity.
  - destruct (t_subject ticket) as [subject|]; [|discriminate].
    intros Hd. split; [now eexists|].
    destruct (t_description ticket) as [[| d |k t]|]; try discriminate;
      [right; now eexists | now left].
Qed.

(** The fallback on a ticket that describes itself in text: the template of
    the first category, in the order of the table, one of whose keywords
    occurs in the lowercased subject and description. *)
Lemma fallback_in_text ticket environment priority :
  describes_in_text ticket ->
  _generate_professional_fallback_analysis ticket environment priority
  = Ok (let category := first_matching_category (searched_text ticket) in
        fallback_template (fst category)
          (if Text.truthy environment
           then " in the " +:+ Text.upper environment +:+ " environment" else "")
          (snd category)).
Proof.
  intros Ht. apply describes_in_text_iff in Ht.
  unfold _generate_professional_fallback_analysis.
  rewrite combined_text_cases, Ht, categorize_first_match.
  now destruct (first_matching_category _).
Qed.

Lemma fallback_without_text ticket environment priority v :
  value_without_text ticket = Some v ->
  _generate_professional_fallback_analysis ticket environment priority
  = Raise (no_attribute v "lower").
Proof.
  intros Hv. unfold _generate_professional_fallback_analysis.
  now rewrite combined_text_cases, Hv.
Qed.

(** What the fallback returns is never empty. *)
Lemma fallback_nonempty ticket environment priority text :
  _generate_professional_fallback_analysis ticket environment priority = Ok text ->
  text <> "".
Proof.
  unfold _generate_professional_fallback_analysis.
  destruct (combined_text ticket) as [c|e]; [|discriminate].
  destruct (categorize c) as [category commands]. intros [= <-].
  apply fallback_template_nonempty.
Qed.

Lemma backend_cases o : backend_fails o \/ exists text, backend_answers o text.
Proof.
  destruct o as [e|r]; [left; constructor|].
  destruct (Z.eq_dec (status_code r) 200) as [E|E]; [|left; now constructor].
  destruct (body r) as [j|] eqn:Eb; [|left; now apply fails_decoding].
  destruct (blank (answer_text j)) eqn:Ebl.
  - left. eapply fails_blank; eassumption.
  - right. eexists. eapply answers_text; eassumption.
Qed.

Section Generator.
Context {W : Type} `{External W}.

Lemma http_post_run q (s : State W) :
  http_post q s =
  let s' := {| world := snd (requests_post q (world s)); trace := trace s ++ [EvPost q] |} in
  match fst (requests_post q (world s)) with
  | Raises e => (Raise e, s')
  | Responds r => (Ok r, s')
  end.
Proof.
  unfold http_post, bind, emit, modify, external. simpl.
  destruct (requests_post q (world s)) as [[e|r] w']; reflexivity.
Qed.

(** The state in which [analyze_with_ollama] ends: it recorded itself and
    sent its one request. *)
Lemma asked_state cfg ticket environment priority (s : State W) :
  asked cfg ticket environment priority s =
  {| world := snd (requests_post (generation_request cfg ticket environment priority)
                                 (world s));
     trace := trace {| world := world s;
                       trace := trace s ++ [EvAnalyze (t_id ticket)] |}
              ++ [EvPost (generation_request cfg ticket environment priority)] |}.
Proof. unfold asked. cbn [trace]. now rewrite <- app_assoc. Qed.

Lemma ollama_request_fails cfg ticket environment priority (s : State W) :
  backend_fails (fst (requests_post (generation_request cfg ticket environment priority)
                                    (world s))) ->
  try_except (ollama_request cfg ticket environment priority) (fun _ => ret None) s
  = (Ok None,
     {| world := snd (requests_post (generation_request cfg ticket environment priority)
                                    (world s));
        trace := trace s ++ [EvPost (generation_request cfg ticket environment priority)] |}).
Proof.
  unfold ollama_request, try_except, bind. fold (generation_request cfg ticket environment priority).
  rewrite http_post_run. cbv zeta.
  intros Hf.
  set (o := fst (requests_post _ (world s))) in *. clearbody o.
  destruct Hf as [e | r Hst | r Hst Hb | r j Hst Hb Hbl].
  - reflexivity.
  - apply Z.eqb_neq in Hst. rewrite Hst. reflexivity.
  - rewrite Hst. cbn [Z.eqb Pos.eqb]. unfold json. rewrite Hb. reflexivity.
  - rewrite Hst. cbn [Z.eqb Pos.eqb]. unfold json. rewrite Hb. unfold ret.
    apply strip_blank in Hbl. unfold answer_text in Hbl. rewrite Hbl. reflexivity.
Qed.

Lemma ollama_request_answers cfg ticket environment priority (s : State W) text :
  backend_answers (fst (requests_post (generation_request cfg ticket environment priority)
                                      (world s))) text ->
  text <> "" /\
  try_except (ollama_request cfg ticket environment priority) (fun _ => ret None) s
  = (Ok (Some text),
     {| world := snd (requests_post (generation_request cfg ticket environment priority)
                                    (world s));
        trace := trace s ++ [EvPost (generation_request cfg ticket environment priority)] |}).
Proof.
  unfold ollama_request, try_except, bind. fold (generation_request cfg ticket environment priority).
  rewrite http_post_run. cbv zeta.
  intros Ha.
  set (o := fst (requests_post _ (world s))) in *. clearbody o.
  destruct Ha as [r j Hst Hb Hbl].
  assert (Hne : Text.strip (answer_text j) <> "").
  { rewrite strip_blank. congruence. }
  split; [exact Hne|].
  rewrite Hst. cbn [Z.eqb Pos.eqb]. unfold json. rewrite Hb. unfold ret.
  apply truthy_nonempty in Hne. unfold answer_text in Hne. rewrite Hne. reflexivity.
Qed.

Lemma analyze_with_ollama_run cfg ticket environment priority (s : State W) :
  analyze_with_ollama cfg ticket environment priority s =
  match try_except (ollama_request cfg ticket environment priority)
                   (fun _ => ret None)
                   {| world := world s;
                      trace := trace s ++ [EvAnalyze (t_id ticket)] |} with
  | (Ok (Some analysis), s') => (Ok analysis, s')
  | (Ok None, s') =>
      (_generate_professional_fallback_analysis ticket environment priority, s')
  | (Raise e, s') => (Raise e, s')
  end.
Proof.
  unfold analyze_with_ollama, bind, emit, modify, of_result. cbv beta iota.
  destruct (try_except _ _ _) as [[[a|]|e] s']; reflexivity.
Qed.

Lemma backend_exclusive o answer : backend_fails o -> backend_answers o answer -> False.
Proof.
  intros Hf Ha.
  destruct Hf as [e | r Hst | r Hst Hb | r j Hst Hb Hbl]; inversion Ha; congruence.
Qed.

(** The result of [analyze_with_ollama] by what the backend did: on a
    failure whatever the fallback returns or raises, otherwise the trimmed
    answer. *)
Lemma analyze_with_ollama_cases cfg ticket environment priority (s : State W) :
  let o := fst (requests_post (generation_request cfg ticket environment priority)
                              (world s)) in
  (backend_fails o ->
   analyze_with_ollama cfg ticket environment priority s
   = (_generate_professional_fallback_analysis ticket environment priority,
      asked cfg ticket environment priority s)) /\
  (forall answer, backend_answers o answer ->
   answer <> "" /\
   analyze_with_ollama cfg ticket environment priority s
   = (Ok answer, asked cfg ticket environment priority s)).
Proof.
  cbv zeta. rewrite analyze_with_ollama_run, asked_state.
  set (s0 := {| world := world s; trace := trace s ++ [EvAnalyze (t_id ticket)] |}).
  change (world s) with (world s0). split.
  - intros Hf. now rewrite (ollama_request_fails _ _ _ _ _ Hf).
  - intros answer Ha.
    destruct (ollama_request_answers _ _ _ _ _ _ Ha) as (Hne & ->). now split.
Qed.

(** [analyze_with_ollama] on a ticket that describes itself in text: it
    returns a text that is not empty. *)
Lemma analyze_with_ollama_in_text cfg ticket environment priority (s : State W) :
  describes_in_text ticket ->
  let o := fst (requests_post (generation_request cfg ticket environment priority)
                              (world s)) in
  exists text s',
    analyze_with_ollama cfg ticket environment priority s = (Ok text, s') /\
    text <> "" /\
    (backend_fails o ->
     _generate_professional_fallback_analysis ticket environment priority = Ok text) /\
    (forall answer, backend_answers o answer -> text = answer).
Proof.
  intros Ht. cbv zeta.
  destruct (analyze_with_ollama_cases cfg ticket environment priority s) as (Hfail & Hans).
  destruct (backend_cases
              (fst (requests_post (generation_request cfg ticket environment priority)
                                  (world s)))) as [Hf|[answer Ha]].
  - rewrite (Hfail Hf), (fallback_in_text _ environment priority Ht).
    eexists _, _. split; [reflexivity|].
    split; [apply fallback_template_nonempty|]. split; [reflexivity|].
    intros answer Ha. destruct (backend_exclusive _ _ Hf Ha).
  - destruct (Hans answer Ha) as (Hne & ->).
    eexists _, _. split; [reflexivity|]. split; [exact Hne|]. split.
    + intros Hf. destruct (backend_exclusive _ _ Hf Ha).
    + intros answer' Ha'. inversion Ha; inversion Ha'; congruence.
Qed.

Lemma analyze_with_ollama_returns cfg ticket env prio (s : State W) :
  describes_in_text ticket ->
  exists text s', analyze_with_ollama cfg ticket env prio s = (Ok text, s').
Proof.
  intros Ht.
  destruct (analyze_with_ollama_in_text cfg ticket env prio s Ht)
    as (text & s' & Hrun & _).
  now exists text, s'.
Qed.

(** [analyze_with_ollama] returns a text or raises, and it raises only what
    the fallback raises. *)
Lemma analyze_with_ollama_outcome cfg ticket env prio (s : State W) :
  snd (analyze_with_ollama cfg ticket env prio s) = asked cfg ticket env prio s /\
  match fst (analyze_with_ollama cfg ticket env prio s) with
  | Ok text => text <> ""
  | Raise e => exists v, value_without_text ticket = Some v /\ e = no_attribute v "lower"
  end.
Proof.
  destruct (analyze_with_ollama_cases cfg ticket env prio s) as (Hfail & Hans).
  destruct (backend_cases
              (fst (requests_post (generation_request cfg ticket env prio)
                                  (world s)))) as [Hf|[answer Ha]].
  - rewrite (Hfail Hf). split; [reflexivity|]. cbn [fst].
    destruct (value_without_text ticket) as [v|] eqn:Ev.
    + rewrite (fallback_without_text _ env prio v Ev). now exists v.
    + apply describes_in_text_iff in Ev.
      rewrite (fallback_in_text _ env prio Ev). apply fallback_template_nonempty.
  - destruct (Hans answer Ha) as (Hne & ->). now split.
Qed.

(** C6.  [analyze_with_ollama] raises to its caller.  The fallback is called
    after the [try], and on a ticket whose description holds [null] (or
    another value that is not a text), or whose subject is [null], it calls
    [.lower()] on that value: whenever the backend fails (it raises, answers
    with another status than 200, with a body that cannot be decoded, or
    with an empty or blank text), [analyze_with_ollama] raises
    [AttributeError] where it should return the fallback template. *)
Theorem analysis_raises_without_text (cfg : Config) (ticket : Ticket)
  (environment priority : string) (s : State W) (v : Json) :
  value_without_text ticket = Some v ->
  backend_fails (fst (requests_post (generation_request cfg ticket environment priority)
                                    (world s))) ->
  analyze_with_ollama cfg ticket environment priority s
  = (Raise (no_attribute v "lower"), asked cfg ticket environment priority s).
Proof.
  intros Hv Hf.
  destruct (analyze_with_ollama_cases cfg ticket environment priority s) as (Hfail & _).
  now rewrite (Hfail Hf), (fallback_without_text _ environment priority v Hv).
Qed.

End Generator.

(** The backend down: the first test ticket, which tells of a production
    database, gets the template of the database category. *)
Example fallback_for_database_ticket :
  fst (first_matching_category (searched_text ticket_99991)) = "Database Service" /\
  combined_text ticket_99991 = Ok (searched_text ticket_99991).
Proof. split; vm_compute; reflexivity. Qed.

(** A text that names a pipeline and a deployment matches two categories;
    the earlier one wins. *)
Example earlier_category_wins :
  fst (categorize (searched_text ticket_99992)) = "Kubernetes Infrastructure".
Proof. vm_compute. reflexivity. Qed.

Lemma analysis_raises_without_text_witness :
  analyze_with_ollama config (with_description (Some JNull) ticket_99992)
    "dev" "P2(High)" (start (generating_server (Raises Timeout)))
  = (Raise (AttributeError "'NoneType' object has no attribute 'lower'"),
     asked config (with_description (Some JNull) ticket_99992) "dev" "P2(High)"
       (start (generating_server (Raises Timeout)))).
Proof.
  apply (analysis_raises_without_text config (with_description (Some JNull) ticket_99992)
           "dev" "P2(High)" (start (generating_server (Raises Timeout))) JNull eq_refl).
  constructor.
Defined.

(** With the same backend a ticket that describes itself in text gets the
    template, and with a backend that answers, the ticket without a
    description gets the trimmed answer. *)
Example analysis_examples :
  fst (analyze_with_ollama config ticket_99991 "prod" "P1(Critical)"
         (start (generating_server (Raises Timeout))))
  = _generate_professional_fallback_analysis ticket_99991 "prod" "P1(Critical)" /\
  fst (analyze_with_ollama config (with_description (Some JNull) ticket_99991)
         "prod" "P1(Critical)"
         (start (generating_server
                   (answer 200 {| j_response := Some "  Restart the pool.  " |}))))
  = Ok "Restart the pool.".
Proof. split; vm_compute; reflexivity. Qed.

(** ** Ticket pipeline *)
Section Pipeline.
Context {W : Type} `{External W}.

Lemma http_put_run q (s : State W) :
  http_put q s =
  let s' := {| world := snd (session_put q (world s)); trace := trace s ++ [EvPut q] |} in
  match fst (session_put q (world s)) with
  | Raises e => (Raise e, s')
  | Responds r => (Ok r, s')
  end.
Proof.
  unfold http_put, bind, emit, modify, external. simpl.
  destruct (session_put q (world s)) as [[e|r] w']; reflexivity.
Qed.

(** The note never raises, and its only call is the update of the ticket. *)
Lemma add_priority_downgrade_note_returns tid env pid (s : State W) :
  exists ok s', add_priority_downgrade_note tid env pid s = (Ok ok, s') /\
                trace s' = trace s ++ [EvPut (PutPriority tid pid env)].
Proof.
  unfold add_priority_downgrade_note, try_except, bind.
  rewrite http_put_run. cbv zeta.
  destruct (fst (session_put _ (world s))) as [e|r].
  - now eexists _, _.
  - unfold raise_for_status.
    destruct ((400 <=? status_code r) && (status_code r <? 600)); now eexists _, _.
Qed.

Lemma assign_ticket_in_redmine_returns tid assignee ai (s : State W) :
  exists ok s', assign_ticket_in_redmine tid assignee ai s = (Ok ok, s').
Proof.
  unfold assign_ticket_in_redmine, try_except, bind, getitem.
  destruct (user_id (member assignee)) as [uid|]; [|now eexists _, _].
  unfold ret at 1. rewrite http_put_run. cbv zeta.
  destruct (fst (session_put _ (world s))) as [e|r].
  - now eexists _, _.
  - unfold raise_for_status.
    destruct ((400 <=? status_code r) && (status_code r <? 600)); now eexists _, _.
Qed.

Lemma process_ticket_run cfg bh ticket l (s : State W) :
  process_ticket cfg bh ticket (l, s) =
  match arbitrated cfg ticket with
  | Raise e => (Raise e, (l, s))
  | Ok (subject, a) =>
      if was_downgraded a then
        match add_priority_downgrade_note (t_id ticket) (environment a)
                                          (new_priority_id a) s with
        | (Ok _, s0) => route_and_record cfg bh ticket subject a (bump_adjustments l) s0
        | (Raise e, s0) => (Raise e, (bump_adjustments l, s0))
        end
      else route_and_record cfg bh ticket subject a l s
  end.
Proof.
  unfold process_ticket, arbitrated.
  unfold bind at 1. unfold of_result at 1.
  destruct (Py.sliced (t_subject ticket)) as [subject|e]; [|reflexivity].
  unfold bind at 1. unfold of_result at 1.
  destruct (analyze_priority_and_environment cfg ticket) as [a|e]; [|reflexivity].
  assert (Hrest : forall l0 (s0 : State W),
    (assignee <- lift (find_best_assignee cfg (adjusted_priority a) bh) ;;
     match assignee with
     | None => append_processed (pending_ticket cfg ticket subject a)
     | Some assignee =>
         ai_analysis <- lift (analyze_with_ollama cfg ticket (environment a)
                                                  (adjusted_priority a)) ;;
         incr_ollama_analyses ;;;
         assignment_success <- lift (assign_ticket_in_redmine (t_id ticket) assignee
                                       ai_analysis) ;;
         uid <- getitem (user_id (member assignee)) "user_id" ;;
         kind <- getitem (assignment_type assignee) "assignment_type" ;;
         why <- getitem (reason assignee) "reason" ;;
         append_processed (assigned_ticket cfg ticket subject a assignee uid kind why
                                           ai_analysis assignment_success)
     end) (l0, s0) = route_and_record cfg bh ticket subject a l0 s0).
  { intros l0 s0. unfold route_and_record.
    unfold bind, lift. cbn [fst snd].
    destruct (find_best_assignee cfg (adjusted_priority a) bh s0)
      as [[[assignee|]|e] s1]; try reflexivity.
    cbn [fst snd].
    destruct (analyze_with_ollama cfg ticket (environment a) (adjusted_priority a) s1)
      as [[ai|e] s2]; [|reflexivity].
    unfold incr_ollama_analyses, update, modify. cbn [fst snd].
    destruct (assign_ticket_in_redmine (t_id ticket) assignee ai s2)
      as [[ok|e] s3]; [|reflexivity].
    unfold getitem, ret, raise.
    destruct (user_id (member assignee)); [|reflexivity].
    destruct (assignment_type assignee); [|reflexivity].
    destruct (reason assignee); reflexivity. }
  unfold bind at 1.
  destruct (was_downgraded a).
  - unfold bind at 1. unfold incr_priority_adjustments, update, modify.
    unfold bind at 1. unfold lift. cbn [fst snd].
    destruct (add_priority_downgrade_note _ _ _ s) as [[ok|e] s0]; [|reflexivity].
    unfold ret at 1. apply Hrest.
  - unfold ret at 1. apply Hrest.
Qed.

Lemma arbitrated_subject cfg ticket subject a :
  arbitrated cfg ticket = Ok (subject, a) ->
  t_subject ticket = Some subject /\
  analyze_priority_and_environment cfg ticket = Ok a.
Proof.
  unfold arbitrated. destruct (t_subject ticket) as [s0|]; [|discriminate].
  cbn [Py.sliced]. destruct (analyze_priority_and_environment cfg ticket); [|discriminate].
  now intros [= <- <-].
Qed.

Lemma arbitrated_Ok cfg ticket subject a :
  t_subject ticket = Some subject ->
  analyze_priority_and_environment cfg ticket = Ok a ->
  arbitrated cfg ticket = Ok (subject, a).
Proof. intros Hs Ha. unfold arbitrated. now rewrite Hs, Ha. Qed.

Lemma route_and_record_outcome cfg bh ticket subject a l (s : State W) :
  match route_and_record cfg bh ticket subject a l s with
  | (Ok _, (l', _)) =>
      exists p, pt_ticket_id p = t_id ticket /\ pt_subject p = subject /\
                processed_tickets l' = processed_tickets l ++ [p] /\
                errors l' = errors l
  | (Raise _, (l', _)) =>
      processed_tickets l' = processed_tickets l /\ errors l' = errors l
  end.
Proof.
  unfold route_and_record.
  destruct (find_best_assignee _ _ _ _) as [[[assignee|]|e] s1];
    [| eexists; (split; [|split; [|split; reflexivity]]); reflexivity | now split].
  destruct (analyze_with_ollama _ _ _ _ _) as [[ai|e] s2]; [|now split].
  destruct (assign_ticket_in_redmine _ _ _ _) as [[ok|e] s3]; [|now split].
  destruct (user_id (member assignee)); [|now split].
  destruct (assignment_type assignee); [|now split].
  destruct (reason assignee); [|now split].
  eexists; (split; [|split; [|split; reflexivity]]); reflexivity.
Qed.

(** The loop body leaves one record for its ticket when it returns, and
    touches neither list when it raises. *)
Lemma process_ticket_outcome cfg bh ticket l (s : State W) :
  match process_ticket cfg bh ticket (l, s) with
  | (Ok _, (l', _)) =>
      exists p, pt_ticket_id p = t_id ticket /\
                Some (pt_subject p) = t_subject ticket /\
                processed_tickets l' = processed_tickets l ++ [p] /\
                errors l' = errors l
  | (Raise _, (l', _)) =>
      processed_tickets l' = processed_tickets l /\ errors l' = errors l
  end.
Proof.
  rewrite process_ticket_run.
  destruct (arbitrated cfg ticket) as [[subject a]|e] eqn:Ea; [|now split].
  apply arbitrated_subject in Ea as (Hs & _).
  assert (Hroute : forall l0 (s0 : State W),
            processed_tickets l0 = processed_tickets l -> errors l0 = errors l ->
            match route_and_record cfg bh ticket subject a l0 s0 with
            | (Ok _, (l', _)) =>
                exists p, pt_ticket_id p = t_id ticket /\
                          Some (pt_subject p) = t_subject ticket /\
                          processed_tickets l' = processed_tickets l ++ [p] /\
                          errors l' = errors l
            | (Raise _, (l', _)) =>
                processed_tickets l' = processed_tickets l /\ errors l' = errors l
            end).
  { intros l0 s0 Hp He.
    pose proof (route_and_record_outcome cfg bh ticket subject a l0 s0) as Ho.
    destruct (route_and_record cfg bh ticket subject a l0 s0) as [[[]|e] [l' s']].
    - destruct Ho as (p & Hid & Hsub & Hp' & He'). exists p.
      rewrite Hsub, Hs, Hp', He', Hp, He. auto.
    - destruct Ho as (Hp' & He'). split; congruence. }
  destruct (was_downgraded a); [|now apply Hroute].
  destruct (add_priority_downgrade_note_returns (t_id ticket) (environment a)
              (new_priority_id a) s) as (ok & s0 & -> & _).
  now apply Hroute.
Qed.


(** A turn of the loop never raises and leaves exactly one entry. *)
Lemma guarded_entry cfg bh ticket l (s : State W) :
  exists entry l' s',
    process_ticket_guarded cfg bh ticket (l, s) = (Ok tt, (l', s')) /\
    entry_of ticket entry /\
    processed_tickets l' = processed_tickets l ++ records [entry] /\
    errors l' = errors l ++ failures [entry].
Proof.
  pose proof (process_ticket_outcome cfg bh ticket l s) as Ho.
  unfold process_ticket_guarded, try_except.
  destruct (process_ticket cfg bh ticket (l, s)) as [[[]|e] [l1 s1]].
  - destruct Ho as (p & Hid & _ & Hp & He).
    exists (Processed p), l1, s1. split; [reflexivity|]. split; [exact Hid|].
    split; [exact Hp|]. cbn. now rewrite app_nil_r.
  - destruct Ho as (Hp & He).
    exists (Failed (error_message ticket e)), (add_error (error_message ticket e) l1), s1.
    split; [reflexivity|]. split; [now exists e|].
    cbn. rewrite app_nil_r, Hp, He. now split.
Qed.

(** The loop runs every turn and leaves one entry for each ticket, in
    order. *)
Lemma for_each_entries cfg bh tickets :
  forall l (s : State W), exists entries l' s',
    for_each tickets (process_ticket_guarded cfg bh) (l, s) = (Ok tt, (l', s')) /\
    Forall2 entry_of tickets entries /\
    processed_tickets l' = processed_tickets l ++ records entries /\
    errors l' = errors l ++ failures entries.
Proof.
  induction tickets as [|t tickets IH]; intros l s.
  - exists [], l, s. split; [reflexivity|]. split; [constructor|].
    cbn. now rewrite !app_nil_r.
  - destruct (guarded_entry cfg bh t l s) as (entry & l1 & s1 & Hrun & Hent & Hp & He).
    destruct (IH l1 s1) as (entries & l' & s' & Hrest & Hall & Hp' & He').
    exists (entry :: entries), l', s'.
    split; [cbn [for_each]; unfold bind; rewrite Hrun; exact Hrest|].
    split; [now constructor|].
    rewrite Hp', He', Hp, He, <- !app_assoc.
    split; f_equal; destruct entry; reflexivity.
Qed.

Lemma process_tickets_run cfg (s : State W) :
  process_tickets cfg s =
  let start_time := isoformat_now (world s) in
  match process_tickets_try cfg start_time (no_locals, s) with
  | (Ok r, (_, s')) => (Ok r, s')
  | (Raise e, (l, s')) =>
      (Ok (summary false start_time
             ["Critical error in process_tickets: " +:+ str_exn e] l), s')
  end.
Proof.
  unfold process_tickets, try_except. cbv zeta.
  destruct (process_tickets_try _ _ _) as [[r|e] [l s']]; reflexivity.
Qed.



Lemma critical_not_downgraded cfg ticket a :
  analyze_priority_and_environment cfg ticket = Ok a ->
  adjusted_priority a = "P1(Critical)" ->
  was_downgraded a = false.
Proof.
  unfold analyze_priority_and_environment.
  destruct (Py.lower _); [|discriminate].
  destruct (String.eqb _ _); [destruct (negb _)|]; intros [= <-]; cbn;
    [discriminate | reflexivity..].
Qed.

(** C10.  For a ticket that reaches the router (its subject is a text and
    the arbiter returned) with the adjusted priority [P1(Critical)]: when the selection over the second-level team raises and
    the team is not empty, the router returns the first configured record,
    which has neither [assignment_type] nor [reason].  The ticket then
    leaves an error text and no record: the text of the [KeyError] that the
    loop body raises on that record, once the analysis has returned, as it
    does for every ticket that describes itself in text, and otherwise the
    text of the exception that the analysis raised.  When the team is empty
    the router itself raises [IndexError]; the ticket leaves an error text,
    and the state of the run is untouched: nothing was sent to the tracker
    for it. *)
Theorem fallback_record_is_not_assigned (cfg : Config) (bh : bool)
  (ticket : Ticket) (subject : string) (a : Arbitration) (l : Locals) (s : State W) :
  t_subject ticket = Some subject ->
  analyze_priority_and_environment cfg ticket = Ok a ->
  adjusted_priority a = "P1(Critical)" ->
  (forall m0 rest e s1,
     L2_MEMBERS cfg = m0 :: rest ->
     select_l2 cfg "L2_CRITICAL_PROD" critical_reason s = (Raise e, s1) ->
     let missing := KeyError match user_id m0 with
                             | Some _ => "assignment_type"
                             | None => "user_id"
                             end in
     let analysis := analyze_with_ollama cfg ticket (environment a) "P1(Critical)" s1 in
     find_best_assignee cfg "P1(Critical)" bh s = (Ok (Some (bare m0)), s1) /\
     assignment_type (bare m0) = None /\ reason (bare m0) = None /\
     exists l' s' cause,
       process_ticket_guarded cfg bh ticket (l, s) = (Ok tt, (l', s')) /\
       processed_tickets l' = processed_tickets l /\
       errors l' = errors l ++ [error_message ticket cause] /\
       cause = match fst analysis with
               | Ok _ => missing
               | Raise e' => e'
               end /\
       (describes_in_text ticket -> cause = missing)) /\
  (L2_MEMBERS cfg = [] ->
   find_best_assignee cfg "P1(Critical)" bh s = (Raise IndexError, s) /\
   process_ticket_guarded cfg bh ticket (l, s)
   = (Ok tt, (add_error (error_message ticket IndexError) l, s))).
Proof.
  intros Hs Ha Hcrit. pose proof (arbitrated_Ok cfg ticket subject a Hs Ha) as Harb.
  pose proof (critical_not_downgraded cfg ticket a Ha Hcrit) as Hdown.
  split.
  - intros m0 rest e s1 Hteam Hsel. cbv zeta.
    assert (Hroute : find_best_assignee cfg "P1(Critical)" bh s
                     = (Ok (Some (bare m0)), s1)).
    { rewrite find_best_assignee_critical.
      rewrite (try_except_Raise _ _ _ _ _ Hsel), l2_fallback_run, Hteam. reflexivity. }
    split; [exact Hroute|]. split; [reflexivity|]. split; [reflexivity|].
    unfold process_ticket_guarded, try_except.
    rewrite process_ticket_run, Harb, Hdown. unfold route_and_record.
    rewrite Hcrit, Hroute.
    destruct (analyze_with_ollama cfg ticket (environment a) "P1(Critical)" s1)
      as [[ai|e'] s2] eqn:Eai.
    + destruct (assign_ticket_in_redmine_returns (t_id ticket) (bare m0) ai s2)
        as (ok & s3 & ->).
      cbn [member bare assignment_type reason fst].
      destruct (user_id m0); eexists _, _, _; (split; [reflexivity|]);
        (split; [reflexivity|]); (split; [reflexivity|]); now split.
    + eexists _, _, _. split; [reflexivity|]. split; [reflexivity|].
      split; [reflexivity|]. split; [reflexivity|].
      intros Ht.
      destruct (analyze_with_ollama_returns cfg ticket (environment a) "P1(Critical)"
                  s1 Ht) as (text & s2' & Hret).
      congruence.
  - intros Hteam.
    assert (Hroute : find_best_assignee cfg "P1(Critical)" bh s = (Raise IndexError, s)).
    { rewrite find_best_assignee_critical.
      rewrite (try_except_Raise _ _ _ _ _ (select_l2_empty cfg _ _ s Hteam)).
      rewrite l2_fallback_run, Hteam. reflexivity. }
    split; [exact Hroute|].
    unfold process_ticket_guarded, try_except.
    rewrite process_ticket_run, Harb, Hdown. unfold route_and_record.
    rewrite Hcrit, Hroute. reflexivity.
Qed.

(** C5.  For a priority other than [P1(Critical)] outside business hours the
    router returns [None] and leaves the state as it was: it probes nobody.
    For a ticket that reaches the router (its subject is a text and the
    arbiter returned) with such a priority the loop body then appends one
    record to [processed_tickets], the record of the
    ticket with the assignee [Pending] of id 0, and touches neither the
    errors nor the counter of the analyses.  Its only call is the update of
    a priority it adjusted: there is no probe and no analysis. *)
Theorem deferred_outside_hours (cfg : Config) :
  (forall prio (s : State W),
     prio <> "P1(Critical)" ->
     find_best_assignee cfg prio false s = (Ok None, s)) /\
  (forall ticket subject a l (s : State W),
     t_subject ticket = Some subject ->
     analyze_priority_and_environment cfg ticket = Ok a ->
     adjusted_priority a <> "P1(Critical)" ->
     exists l' s',
       process_ticket cfg false ticket (l, s) = (Ok tt, (l', s')) /\
       processed_tickets l' = processed_tickets l ++
         [ {| pt_ticket_id := t_id ticket;
              pt_subject := subject;
              pt_original_priority := original_priority a;
              pt_adjusted_priority := adjusted_priority a;
              pt_environment := environment a;
              pt_priority_downgraded := was_downgraded a;
              pt_assigned_to := {| ta_user_id := 0; ta_name := "Pending";
                                   ta_max_tickets := None |};
              pt_assignment_type := "OUTSIDE_HOURS";
              pt_reason := "Non-critical ticket outside business hours (9AM-9PM IST)";
              pt_ai_analysis := "Waiting for business hours";
              pt_ai_analysis_short := "Pending business hours";
              pt_redmine_url := REDMINE_BASE_URL cfg +:+ "/issues/"
                                +:+ Text.str_int (t_id ticket);
              pt_success := true;
              pt_error := None |} ] /\
       errors l' = errors l /\
       ollama_analyses l' = ollama_analyses l /\
       priority_adjustments l'
       = priority_adjustments l + (if was_downgraded a then 1 else 0) /\
       trace s' = trace s ++
         (if was_downgraded a
          then [EvPut (PutPriority (t_id ticket) (new_priority_id a) (environment a))]
          else [])).
Proof.
  split; [intros prio s Hp; now apply find_best_assignee_deferred|].
  intros ticket subject a l s Hs Ha Hp.
  rewrite process_ticket_run, (arbitrated_Ok cfg ticket subject a Hs Ha).
  unfold route_and_record.
  destruct (was_downgraded a) eqn:Ed.
  - destruct (add_priority_downgrade_note_returns (t_id ticket) (environment a)
                (new_priority_id a) s) as (ok & s0 & -> & Htrace).
    rewrite find_best_assignee_deferred by exact Hp.
    eexists _, s0. split; [reflexivity|].
    split; [cbn; unfold pending_ticket, redmine_url; now rewrite Ed|].
    cbn. repeat split. exact Htrace.
  - rewrite find_best_assignee_deferred by exact Hp.
    eexists _, s. split; [reflexivity|].
    split; [cbn; unfold pending_ticket, redmine_url; now rewrite Ed|].
    cbn. repeat split.
    + lia.
    + now rewrite app_nil_r.
Qed.

Lemma get_new_devops_tickets_fails cfg (s : State W) :
  TEST_MODE cfg = false ->
  fetch_fails (fst (session_get (fetch_request cfg) (world s))) ->
  get_new_devops_tickets cfg s
  = (Ok [], {| world := snd (session_get (fetch_request cfg) (world s));
               trace := trace s ++ [EvGet (fetch_request cfg)] |}).
Proof.
  intros Hmode Hf. unfold get_new_devops_tickets. rewrite Hmode.
  unfold try_except, bind. fold (fetch_request cfg). rewrite http_get_run. cbv zeta.
  set (o := fst (session_get _ (world s))) in *. clearbody o.
  destruct Hf as [e | r Hst | r Hst Hb]; [reflexivity| |].
  - unfold raise_for_status.
    destruct (Z.leb_spec 400 (status_code r)); [|lia].
    destruct (Z.ltb_spec (status_code r) 600); [|lia]. reflexivity.
  - unfold raise_for_status.
    assert (E : (400 <=? status_code r) && (status_code r <? 600) = false).
    { destruct (Z.leb_spec 400 (status_code r)); [|reflexivity].
      destruct (Z.ltb_spec (status_code r) 600); [lia|reflexivity]. }
    rewrite E. unfold ret at 1. unfold json. rewrite Hb. reflexivity.
Qed.

(** C7, as amended.  Outside test mode, when the fetch of the new tickets
    fails, [get_new_devops_tickets] absorbs the failure and returns no
    ticket, and [process_tickets] returns an empty summary that is marked
    successful and whose only error text is [No new tickets found]. *)
Theorem failed_fetch_reports_no_tickets (cfg : Config) (s : State W) :
  TEST_MODE cfg = false ->
  fetch_fails (fst (session_get (fetch_request cfg) (world s))) ->
  fst (get_new_devops_tickets cfg s) = Ok [] /\
  fst (process_tickets cfg s)
  = Ok {| r_success := true; r_processed_tickets := []; r_total_processed := 0;
          r_priority_adjustments := 0; r_ollama_analyses := 0;
          r_errors := ["No new tickets found"];
          r_timestamp := isoformat_now (world s) |}.
Proof.
  intros Hmode Hf. pose proof (get_new_devops_tickets_fails cfg s Hmode Hf) as Hfetch.
  split; [now rewrite Hfetch|].
  rewrite process_tickets_run. cbv zeta.
  unfold process_tickets_try, bind, lift. cbn [fst snd]. rewrite Hfetch. reflexivity.
Qed.

End Pipeline.

Lemma fallback_record_is_not_assigned_witness :
  (exists l' s',
     process_ticket_guarded config_with_guest true ticket_99991
       (no_locals, start (counting_server table_load 10)) = (Ok tt, (l', s')) /\
     processed_tickets l' = [] /\
     errors l' = ["Error processing ticket #99991: 'assignment_type'"]) /\
  process_ticket_guarded config_without_l2 true ticket_99991
    (no_locals, start (counting_server table_load 10))
  = (Ok tt, (add_error "Error processing ticket #99991: list index out of range"
               no_locals,
             start (counting_server table_load 10))).
Proof.
  split.
  - destruct (fallback_record_is_not_assigned config_with_guest true ticket_99991
                "Production database connection timeout"
                {| original_priority := "P1(Critical)";
                   adjusted_priority := "P1(Critical)";
                   environment := "prod"; was_downgraded := false;
                   new_priority_id := 4 |}
                no_locals (start (counting_server table_load 10))
                eq_refl eq_refl eq_refl) as (Hfall & _).
    edestruct (Hfall (l2 21 "Arun Ramdas") [anonymous "Guest"])
      as (_ & _ & _ & l' & s' & cause & Hrun & Hp & He & _ & Hcause).
    + reflexivity.
    + vm_compute. reflexivity.
    + exists l', s'. split; [exact Hrun|]. split; [exact Hp|].
      rewrite He, Hcause; [reflexivity|].
      split; [now eexists | right; now eexists].
  - destruct (fallback_record_is_not_assigned config_without_l2 true ticket_99991
                "Production database connection timeout"
                {| original_priority := "P1(Critical)";
                   adjusted_priority := "P1(Critical)";
                   environment := "prod"; was_downgraded := false;
                   new_priority_id := 4 |}
                no_locals (start (counting_server table_load 10))
                eq_refl eq_refl eq_refl) as (_ & Hempty).
    destruct (Hempty eq_refl) as (_ & Hrun). exact Hrun.
Defined.

(** The same ticket without a text for its description: the backend being
    down, the error of the ticket is the one of the fallback analysis. *)
Example fallback_record_with_null_description :
  errors (fst (snd (process_ticket_guarded config_with_guest true
                      (with_description (Some JNull) ticket_99991)
                      (no_locals, start (counting_server table_load 10)))))
  = ["Error processing ticket #99991: 'NoneType' object has no attribute 'lower'"].
Proof. vm_compute. reflexivity. Qed.

Lemma deferred_outside_hours_witness :
  exists l' s',
    process_ticket config false ticket_99992
      (no_locals, start (counting_server table_load 23)) = (Ok tt, (l', s')) /\
    map (fun p => (pt_ticket_id p, ta_name (pt_assigned_to p), pt_adjusted_priority p))
        (processed_tickets l')
    = [(99992, "Pending", "P2(High)")] /\
    ollama_analyses l' = 0 /\
    trace s' = [EvPut (PutPriority 99992 5 "dev")].
Proof.
  destruct (deferred_outside_hours (W := Server) config) as (_ & Hbody).
  destruct (Hbody ticket_99992 "Development environment deployment failing"
              {| original_priority := "P1(Critical)"; adjusted_priority := "P2(High)";
                 environment := "dev"; was_downgraded := true; new_priority_id := 5 |}
              no_locals (start (counting_server table_load 23)) eq_refl eq_refl)
    as (l' & s' & Hrun & Hp & _ & Ha & _ & Htrace).
  - discriminate.
  - exists l', s'. split; [exact Hrun|]. rewrite Hp. split; [reflexivity|].
    split; [exact Ha | exact Htrace].
Defined.

(** A night run over the two test tickets: the production one is assigned
    to the second level, the other is downgraded and waits. *)
Example night_run :
  let r := fst (process_tickets config
                  (start (ticket_server [ticket_99991; ticket_99992] table_load 23))) in
  (fun r => match r with
            | Ok r => (r_success r,
                       map (fun p => (pt_ticket_id p, ta_name (pt_assigned_to p),
                                      pt_assignment_type p))
                           (r_processed_tickets r),
                       r_priority_adjustments r, r_ollama_analyses r, r_errors r)
            | Raise _ => (false, [], 0, 0, [])
            end) r
  = (true, [ (99991, "Jerish Vijay", "L2_CRITICAL_PROD");
             (99992, "Pending", "OUTSIDE_HOURS") ], 1, 1, []).
Proof. vm_compute. reflexivity. Qed.

Lemma failed_fetch_reports_no_tickets_witness :
  fst (process_tickets config (start unreachable_server))
  = Ok {| r_success := true; r_processed_tickets := []; r_total_processed := 0;
          r_priority_adjustments := 0; r_ollama_analyses := 0;
          r_errors := ["No new tickets found"];
          r_timestamp := "2025-01-01T10:00:00" |}.
Proof.
  destruct (failed_fetch_reports_no_tickets config (start unreachable_server))
    as (_ & Hrun).
  - reflexivity.
  - constructor.
  - exact Hrun.
Defined.

(** C7 as stated fails: with the tracker out of reach the run is reported
    as successful, and its error list does not hold the error of the
    fetch. *)
Lemma failed_fetch_is_not_reported :
  ~ (forall (cfg : Config) (s : State Server),
       TEST_MODE cfg = false ->
       fetch_fails (fst (session_get (fetch_request cfg) (world s))) ->
       exists r, fst (process_tickets cfg s) = Ok r /\ r_success r = false).
Proof.
  intros Hclaim.
  destruct (Hclaim config (start unreachable_server) eq_refl (fetch_raising _))
    as (r & Hrun & Hflag).
  vm_compute in Hrun. injection Hrun as <-. discriminate.
Qed.


(** The same run in full: the first ticket raises in the router, the second
    is still processed and assigned. *)
Example batch_goes_on_after_an_exception :
  let r := fst (process_tickets config_without_l2
                  (start (ticket_server [ticket_99991; ticket_99992] table_load 10))) in
  (fun r => match r with
            | Ok r => (r_success r,
                       map (fun p => (pt_ticket_id p, ta_name (pt_assigned_to p),
                                      pt_assignment_type p))
                           (r_processed_tickets r),
                       r_errors r)
            | Raise _ => (false, [], [])
            end) r
  = (true, [ (99992, "Lakshmi A B", "L1_BUSINESS_HOURS") ],
     [ "Error processing ticket #99991: list index out of range" ]).
Proof. vm_compute. reflexivity. Qed.

(** * Further properties *)

(** ** The two updates of the tracker *)
Section Updates.
Context {W : Type} `{External W}.

Lemma accepted_iff (o : Outcome unit) :
  accepted o = true <->
  exists r, o = Responds r /\ ~ (400 <= status_code r < 600).
Proof.
  destruct o as [e|r]; simpl.
  - split; [discriminate | intros (r & [=] & _)].
  - rewrite negb_true_iff, andb_false_iff, Z.leb_gt, Z.ltb_ge. split.
    + intros Hst. exists r. split; [reflexivity | lia].
    + intros (r' & [= <-] & Hst). lia.
Qed.

Lemma add_priority_downgrade_note_run tid env pid (s : State W) :
  add_priority_downgrade_note tid env pid s =
  (Ok (accepted (fst (session_put (PutPriority tid pid env) (world s)))),
   {| world := snd (session_put (PutPriority tid pid env) (world s));
      trace := trace s ++ [EvPut (PutPriority tid pid env)] |}).
Proof.
  unfold add_priority_downgrade_note, try_except, bind.
  rewrite http_put_run. cbv zeta.
  destruct (fst (session_put _ (world s))) as [e|r]; [reflexivity|].
  unfold raise_for_status, accepted.
  destruct ((400 <=? status_code r) && (status_code r <? 600)); reflexivity.
Qed.

Lemma assign_ticket_in_redmine_run tid assignee ai (s : State W) :
  assign_ticket_in_redmine tid assignee ai s =
  match user_id (member assignee) with
  | None => (Ok false, s)
  | Some uid =>
      (Ok (accepted (fst (session_put (PutAssignment tid uid ai) (world s)))),
       {| world := snd (session_put (PutAssignment tid uid ai) (world s));
          trace := trace s ++ [EvPut (PutAssignment tid uid ai)] |})
  end.
Proof.
  unfold assign_ticket_in_redmine, try_except, bind, getitem.
  destruct (user_id (member assignee)) as [uid|]; [|reflexivity].
  unfold ret at 1. rewrite http_put_run. cbv zeta.
  destruct (fst (session_put _ (world s))) as [e|r]; [reflexivity|].
  unfold raise_for_status, accepted.
  destruct ((400 <=? status_code r) && (status_code r <? 600)); reflexivity.
Qed.

(** X1.  [add_priority_downgrade_note] never raises.  It sends one update,
    which carries the new priority id, and returns [True] exactly when the
    tracker answered with a status outside 400..599; an exception of the
    transport and an error status both give [False]. *)
Theorem downgrade_note_outcome (tid : Z) (env : string) (pid : Z) (s : State W) :
  exists ok s',
    add_priority_downgrade_note tid env pid s = (Ok ok, s') /\
    trace s' = trace s ++ [EvPut (PutPriority tid pid env)] /\
    (ok = true <->
     exists r, fst (session_put (PutPriority tid pid env) (world s)) = Responds r /\
               ~ (400 <= status_code r < 600)).
Proof.
  rewrite add_priority_downgrade_note_run. eexists _, _.
  split; [reflexivity|]. split; [reflexivity|]. apply accepted_iff.
Qed.

(** X2.  [assign_ticket_in_redmine] never raises.  For an assignee without
    [user_id] it returns [False] and sends nothing.  Otherwise it sends one
    update, with that id and the analysis, and returns [True] exactly when
    the tracker answered with a status outside 400..599. *)
Theorem assignment_outcome (tid : Z) (assignee : Assignee) (ai : string)
  (s : State W) :
  (user_id (member assignee) = None ->
   assign_ticket_in_redmine tid assignee ai s = (Ok false, s)) /\
  (forall uid, user_id (member assignee) = Some uid ->
   exists ok s',
     assign_ticket_in_redmine tid assignee ai s = (Ok ok, s') /\
     trace s' = trace s ++ [EvPut (PutAssignment tid uid ai)] /\
     (ok = true <->
      exists r, fst (session_put (PutAssignment tid uid ai) (world s)) = Responds r /\
                ~ (400 <= status_code r < 600))).
Proof.
  rewrite assign_ticket_in_redmine_run. split.
  - now intros ->.
  - intros uid ->. eexists _, _.
    split; [reflexivity|]. split; [reflexivity|]. apply accepted_iff.
Qed.

End Updates.

Lemma assignment_outcome_witness :
  assign_ticket_in_redmine 7 (bare (anonymous "Guest")) "text"
    (start (updating_server 200 table_load 10))
  = (Ok false, start (updating_server 200 table_load 10)) /\
  exists s',
    assign_ticket_in_redmine 7 (bare (l2 21 "Arun Ramdas")) "text"
      (start (updating_server 404 table_load 10)) = (Ok false, s') /\
    trace s' = [EvPut (PutAssignment 7 21 "text")].
Proof.
  split.
  - apply (assignment_outcome 7 (bare (anonymous "Guest")) "text"
             (start (updating_server 200 table_load 10))).
    reflexivity.
  - destruct (assignment_outcome 7 (bare (l2 21 "Arun Ramdas")) "text"
                (start (updating_server 404 table_load 10))) as (_ & Hsent).
    destruct (Hsent 21 eq_refl) as (ok & s' & Hrun & Htrace & Hok).
    exists s'. split; [|exact Htrace].
    destruct ok; [|exact Hrun].
    destruct (proj1 Hok eq_refl) as (r & Hr & Hst).
    injection Hr as <-. exfalso. apply Hst. simpl. lia.
Defined.

(** ** The run and its counters *)
Section Run.
Context {W : Type} `{External W}.

Lemma is_business_hours_run cfg (s : State W) :
  is_business_hours cfg s =
  match current_hour (bh_timezone (BUSINESS_HOURS cfg)) (world s) with
  | Ok h => (Ok ((bh_start (BUSINESS_HOURS cfg) <=? h)
                 && (h <? bh_end (BUSINESS_HOURS cfg))), s)
  | Raise e => (Raise e, s)
  end.
Proof. reflexivity. Qed.

(** X3.  [is_business_hours] reads the clock and changes nothing.  The
    window holds its first hour and not its last.  A window whose end is not
    after its start, such as a night shift from 22 to 6, is never open.  An
    exception of the clock is passed on. *)
Theorem business_hours_window (cfg : Config) (s : State W) :
  let start := bh_start (BUSINESS_HOURS cfg) in
  let stop := bh_end (BUSINESS_HOURS cfg) in
  let clock := current_hour (bh_timezone (BUSINESS_HOURS cfg)) (world s) in
  (forall h, clock = Ok h ->
     exists b, is_business_hours cfg s = (Ok b, s) /\
               (b = true <-> start <= h < stop)) /\
  (stop <= start -> forall b s', is_business_hours cfg s = (Ok b, s') -> b = false) /\
  (forall e, clock = Raise e -> is_business_hours cfg s = (Raise e, s)).
Proof.
  cbv zeta. rewrite is_business_hours_run.
  split; [|split].
  - intros h ->. eexists. split; [reflexivity|].
    rewrite andb_true_iff, Z.leb_le, Z.ltb_lt. tauto.
  - intros Hw b s'. destruct (current_hour _ _) as [h|e]; [|discriminate].
    intros [= <- _]. apply andb_false_iff.
    rewrite Z.leb_gt, Z.ltb_ge. lia.
  - now intros e ->.
Qed.






Lemma for_each_cons cfg bh t tickets ls :
  for_each (S := Locals * State W) (t :: tickets) (process_ticket_guarded cfg bh) ls
  = for_each tickets (process_ticket_guarded cfg bh)
      (snd (process_ticket_guarded cfg bh t ls)).
Proof.
  destruct ls as [l s].
  destruct (guarded_entry cfg bh t l s) as (entry & l1 & s1 & Hrun & _).
  cbn [for_each]. unfold bind. now rewrite Hrun.
Qed.




(** The run over a batch that was fetched, at a clock that answers. *)
Lemma process_tickets_batch cfg (s : State W) tickets s1 bh :
  tickets <> [] ->
  get_new_devops_tickets cfg s = (Ok tickets, s1) ->
  is_business_hours cfg s1 = (Ok bh, s1) ->
  process_tickets cfg s =
  let end_ := for_each tickets (process_ticket_guarded cfg bh) (no_locals, s1) in
  (Ok (summary true (isoformat_now (world s)) [] (fst (snd end_))), snd (snd end_)).
Proof.
  intros Hne Hfetch Hbh.
  destruct (for_each_entries cfg bh tickets no_locals s1)
    as (entries & l' & s' & Hloop & _).
  rewrite process_tickets_run. cbv zeta.
  unfold process_tickets_try, bind, lift. cbn [fst snd]. rewrite Hfetch.
  destruct tickets as [|t tickets]; [congruence|].
  cbn [fst snd]. rewrite Hbh, Hloop. reflexivity.
Qed.


(** X5.  When the clock raises after a batch was fetched, the run fails as a
    whole: the summary is marked unsuccessful, holds no record and the one
    error text [Critical error in process_tickets: ...], and nothing was
    done for any ticket. *)
Theorem clock_failure_fails_run (cfg : Config) (s : State W)
  (tickets : list Ticket) (s1 : State W) (e : Exn) :
  tickets <> [] ->
  get_new_devops_tickets cfg s = (Ok tickets, s1) ->
  current_hour (bh_timezone (BUSINESS_HOURS cfg)) (world s1) = Raise e ->
  process_tickets cfg s =
  (Ok {| r_success := false; r_processed_tickets := []; r_total_processed := 0;
         r_priority_adjustments := 0; r_ollama_analyses := 0;
         r_errors := ["Critical error in process_tickets: " +:+ str_exn e];
         r_timestamp := isoformat_now (world s) |}, s1).
Proof.
  intros Hne Hfetch Hclock.
  rewrite process_tickets_run. cbv zeta.
  unfold process_tickets_try, bind, lift. cbn [fst snd]. rewrite Hfetch.
  destruct tickets as [|t tickets]; [congruence|].
  cbn [fst snd]. rewrite is_business_hours_run, Hclock. reflexivity.
Qed.



End Run.

Lemma business_hours_window_witness :
  (exists b, is_business_hours config (start (counting_server table_load 20))
             = (Ok b, start (counting_server table_load 20)) /\
             (b = true <-> 9 <= 20 < 21)) /\
  fst (is_business_hours (with_hours 22 6 config)
         (start (counting_server table_load 23))) = Ok false.
Proof.
  split.
  - apply (business_hours_window config (start (counting_server table_load 20))).
    reflexivity.
  - destruct (business_hours_window (with_hours 22 6 config)
                (start (counting_server table_load 23))) as (_ & Hnever & _).
    destruct (is_business_hours (with_hours 22 6 config)
                (start (counting_server table_load 23))) as [[b|e] s'] eqn:E.
    + cbn [fst]. f_equal. apply (Hnever ltac:(simpl; lia) b s'). reflexivity.
    + vm_compute in E. discriminate.
Defined.


Lemma clock_failure_fails_run_witness :
  fst (process_tickets config (start (clockless_server [ticket_99991])))
  = Ok {| r_success := false; r_processed_tickets := []; r_total_processed := 0;
          r_priority_adjustments := 0; r_ollama_analyses := 0;
          r_errors := ["Critical error in process_tickets: 'Mars/Olympus'"];
          r_timestamp := "2025-01-01T10:00:00" |}.
Proof.
  rewrite (clock_failure_fails_run config (start (clockless_server [ticket_99991]))
             [ticket_99991]
             (snd (get_new_devops_tickets config
                     (start (clockless_server [ticket_99991]))))
             (UnknownTimeZoneError "Mars/Olympus")).
  - reflexivity.
  - discriminate.
  - vm_compute. reflexivity.
  - reflexivity.
Defined.


(** The night run again, the second ticket holding [null] for its
    description, then for its environment tag, then for its subject.  The
    first is recorded all the same, since no analysis is made for it; the
    other two end as errors. *)
Example run_with_null_values :
  map (fun t => match fst (process_tickets config
                             (start (ticket_server [ticket_99991; t] table_load 23))) with
                | Ok r => (map pt_ticket_id (r_processed_tickets r), r_errors r)
                | Raise _ => ([], [])
                end)
      [ with_description (Some JNull) ticket_99992; with_tag_value JNull ticket_99992;
        with_subject None ticket_99992 ]
  = [ ([99991; 99992], []);
      ([99991],
       ["Error processing ticket #99992: 'NoneType' object has no attribute 'lower'"]);
      ([99991],
       ["Error processing ticket #99992: 'NoneType' object is not subscriptable"]) ].
Proof. vm_compute. reflexivity. Qed.

(** ** The calls that a run makes *)
Section Emits.
Context {W : Type} {S : Type} (proj : S -> State W) (P : Event -> Prop).

Lemma emits_on_silent {A} (m : M S A) :
  (forall s, trace (proj (snd (m s))) = trace (proj s)) -> emits_on proj P m.
Proof.
  intros Hm s. exists []. rewrite Hm, app_nil_r. split; [reflexivity | constructor].
Qed.

Lemma emits_on_ret {A} (a : A) : emits_on proj P (ret a).
Proof. now apply emits_on_silent. Qed.

Lemma emits_on_raise {A} e : emits_on proj P (raise (A := A) e).
Proof. now apply emits_on_silent. Qed.

Lemma emits_on_of_result {A} (r : Result A) : emits_on proj P (of_result r).
Proof. now apply emits_on_silent. Qed.

Lemma emits_on_gets {A} (f : S -> A) : emits_on proj P (gets f).
Proof. now apply emits_on_silent. Qed.

Lemma emits_on_getitem {A} (o : option A) key : emits_on proj P (getitem o key).
Proof. destruct o; [apply emits_on_ret | apply emits_on_raise]. Qed.

Lemma emits_on_bind {A B} (m : M S A) (k : A -> M S B) :
  emits_on proj P m -> (forall a, emits_on proj P (k a)) ->
  emits_on proj P (bind m k).
Proof.
  intros Hm Hk s. destruct (Hm s) as (e1 & H1 & F1). unfold bind.
  destruct (m s) as [[a|e] s1]; cbn [snd] in *.
  - destruct (Hk a s1) as (e2 & H2 & F2). exists (e1 ++ e2).
    rewrite H2, H1, app_assoc. split; [reflexivity | now apply Forall_app].
  - now exists e1.
Qed.

Lemma emits_on_try_except {A} (m : M S A) (h : Exn -> M S A) :
  emits_on proj P m -> (forall e, emits_on proj P (h e)) ->
  emits_on proj P (try_except m h).
Proof.
  intros Hm Hh s. destruct (Hm s) as (e1 & H1 & F1). unfold try_except.
  destruct (m s) as [[a|e] s1]; cbn [snd] in *.
  - now exists e1.
  - destruct (Hh e s1) as (e2 & H2 & F2). exists (e1 ++ e2).
    rewrite H2, H1, app_assoc. split; [reflexivity | now apply Forall_app].
Qed.

Lemma emits_on_attempt {A} (m : M S A) :
  emits_on proj P m -> emits_on proj P (attempt m).
Proof.
  intros Hm s. destruct (Hm s) as (e1 & H1 & F1). unfold attempt.
  destruct (m s) as [r s1]. now exists e1.
Qed.

Lemma emits_on_for_each {A} (l : list A) (body : A -> M S unit) :
  (forall x, emits_on proj P (body x)) -> emits_on proj P (for_each l body).
Proof.
  intros Hb. induction l as [|x l IH]; cbn [for_each]; [apply emits_on_ret|].
  apply emits_on_bind; [apply Hb | intros _; exact IH].
Qed.

End Emits.

Lemma emits_on_weaken {W S A} (proj : S -> State W) (P Q : Event -> Prop) (m : M S A) :
  (forall e, P e -> Q e) -> emits_on proj P m -> emits_on proj Q m.
Proof.
  intros HPQ Hm s. destruct (Hm s) as (evs & Ht & HF).
  exists evs. split; [exact Ht|]. eapply Forall_impl; eassumption.
Qed.

Section Calls.
Context {W : Type} `{External W}.

Lemma emits_emit (P : Event -> Prop) e : P e -> emits (W := W) P (emit e).
Proof.
  intros HP s. exists [e]. split; [reflexivity | now repeat constructor].
Qed.

Lemma emits_external (P : Event -> Prop) {B} (call : W -> Outcome B * W) :
  emits P (external call).
Proof.
  apply emits_on_silent. intros s. unfold external.
  destruct (call (world s)) as [[e|r] w']; reflexivity.
Qed.

Lemma emits_http_get (P : Event -> Prop) q : P (EvGet q) -> emits P (http_get q).
Proof.
  intros HP. apply emits_on_bind; [now apply emits_emit|].
  intros _. apply emits_external.
Qed.

Lemma emits_http_put (P : Event -> Prop) q : P (EvPut q) -> emits P (http_put q).
Proof.
  intros HP. apply emits_on_bind; [now apply emits_emit|].
  intros _. apply emits_external.
Qed.

Lemma emits_http_post (P : Event -> Prop) q : P (EvPost q) -> emits P (http_post q).
Proof.
  intros HP. apply emits_on_bind; [now apply emits_emit|].
  intros _. apply emits_external.
Qed.

Lemma emits_json (P : Event -> Prop) {B} (r : Response B) :
  emits (W := W) P (json r).
Proof. unfold json. destruct (body r); [apply emits_on_ret | apply emits_on_raise]. Qed.

Lemma emits_raise_for_status (P : Event -> Prop) {B} (r : Response B) :
  emits (W := W) P (raise_for_status r).
Proof.
  unfold raise_for_status.
  destruct (_ && _); [apply emits_on_raise | apply emits_on_ret].
Qed.

Ltac emits_step :=
  first [ apply emits_on_ret | apply emits_on_raise | apply emits_on_gets
        | apply emits_on_getitem | apply emits_json | apply emits_raise_for_status
        | apply emits_external
        | apply emits_on_bind; [|intros ?]
        | apply emits_on_try_except; [|intros ?]
        | apply emits_on_attempt ].

Lemma emits_methods (P : Event -> Prop) uid :
  (forall q, q_assigned_to_id q = uid -> q_project_id q = None -> P (EvGet q)) ->
  Forall (fun m : @strategy W => emits P (m uid)) methods.
Proof.
  intros HP. repeat constructor.
  - unfold _get_workload_method_1. emits_step; [now apply emits_http_get, HP|].
    destruct (_ =? _); repeat emits_step.
  - unfold _get_workload_method_2. emits_step; [now apply emits_http_get, HP|].
    destruct (_ =? _); repeat emits_step.
  - unfold _get_workload_method_3. emits_step; [now apply emits_http_get, HP|].
    destruct (_ =? _); repeat emits_step.
Qed.

Lemma emits_try_methods (P : Event -> Prop) (ms : list (@strategy W)) uid :
  Forall (fun m => emits P (m uid)) ms -> emits P (try_methods ms uid).
Proof.
  induction 1 as [|m ms Hm _ IH]; cbn [try_methods]; [apply emits_on_ret|].
  emits_step; [emits_step; exact Hm|].
  destruct a as [[w|]|e]; [apply emits_on_ret | exact IH | exact IH].
Qed.

(** A probe only reads, and only about its user. *)
Lemma emits_get_user_workload cfg uid :
  emits (is_read_of uid) (get_user_workload cfg uid).
Proof.
  unfold get_user_workload. emits_step; [now apply emits_emit|].
  destruct (TEST_MODE cfg); [apply emits_on_ret|].
  apply emits_try_methods, emits_methods. intros q Hq Hp. now split.
Qed.

(** In test mode a probe sends nothing. *)
Lemma emits_get_user_workload_test cfg uid :
  TEST_MODE cfg = true -> emits is_not_request (get_user_workload cfg uid).
Proof.
  intros Ht. unfold get_user_workload. rewrite Ht.
  emits_step; [now apply emits_emit | apply emits_on_ret].
Qed.

Section Router.
Variable P : Event -> Prop.
Variable cfg : Config.
Hypothesis probes : forall uid, emits P (get_user_workload cfg uid).

Lemma emits_load_key m : emits P (load_key cfg m).
Proof. unfold load_key. emits_step; [emits_step | apply probes]. Qed.

Lemma emits_min_loop {A} (key : A -> M (State W) Z) rest :
  (forall x, emits P (key x)) ->
  forall best kbest, emits P (min_loop key rest best kbest).
Proof.
  intros Hk. induction rest as [|y rest IH]; intros best kbest; cbn [min_loop].
  - apply emits_on_ret.
  - emits_step; [apply Hk|]. destruct (_ <? _); apply IH.
Qed.

Lemma emits_min_by_key {A} (key : A -> M (State W) Z) l :
  (forall x, emits P (key x)) -> emits P (min_by_key key l).
Proof.
  intros Hk. destruct l as [|x rest]; cbn [min_by_key]; [apply emits_on_raise|].
  emits_step; [apply Hk | now apply emits_min_loop].
Qed.

Lemma emits_select_l2 kind reason_of : emits P (select_l2 cfg kind reason_of).
Proof.
  unfold select_l2. emits_step; [apply emits_min_by_key, emits_load_key|].
  emits_step; [emits_step|]. emits_step; [apply probes | emits_step].
Qed.

Lemma emits_l2_fallback : emits (W := W) P (l2_fallback cfg).
Proof.
  unfold l2_fallback, first_item. emits_step; [|emits_step].
  destruct (L2_MEMBERS cfg); emits_step.
Qed.

Lemma emits_collect_available_l1 members :
  forall acc, emits P (collect_available_l1 cfg members acc).
Proof.
  induction members as [|m members IH]; intros acc; cbn [collect_available_l1].
  - apply emits_on_ret.
  - emits_step; [emits_step|]. emits_step; [apply probes|].
    emits_step; [emits_step|]. destruct (_ <? _); apply IH.
Qed.

Lemma emits_find_best_assignee prio bh : emits P (find_best_assignee cfg prio bh).
Proof.
  unfold find_best_assignee. destruct (String.eqb _ _).
  - emits_step; [apply emits_select_l2 | apply emits_l2_fallback].
  - destruct bh; [|apply emits_on_ret].
    emits_step; [apply emits_collect_available_l1|].
    destruct a as [|x xs].
    + emits_step; [apply emits_select_l2 | apply emits_l2_fallback].
    + emits_step; [apply emits_min_by_key; intros; apply emits_on_ret|].
      destruct a as [best_l1 current_load]. repeat emits_step.
Qed.

End Router.

(** X7.  The router only reads: whatever it returns or raises, the calls it
    makes are probes and queries of the tracker, never an update and never a
    request to the generation backend; in test mode it sends nothing at
    all. *)
Theorem router_only_reads (cfg : Config) (prio : string) (bh : bool) :
  emits is_read (find_best_assignee cfg prio bh) /\
  (TEST_MODE cfg = true -> emits is_not_request (find_best_assignee cfg prio bh)).
Proof.
  split.
  - apply emits_find_best_assignee. intros uid.
    eapply emits_on_weaken; [|apply emits_get_user_workload].
    intros [q|q|q|u|t]; cbn; tauto.
  - intros Ht. apply emits_find_best_assignee. intros uid.
    now apply emits_get_user_workload_test.
Qed.

(** The query of a strategy: the user, at most 100 tickets, and the status
    filter of the strategy. *)
Lemma method_sends_one_query (m : @strategy W) uid (s : State W) :
  In m methods ->
  exists q, trace (snd (m uid s)) = trace s ++ [EvGet q] /\
            q_assigned_to_id q = uid /\ q_project_id q = None /\ q_limit q = 100.
Proof.
  assert (Hone : forall q (k : Response IssuesJson -> M (State W) (option Z)),
            (forall r s0, trace (snd (k r s0)) = trace s0) ->
            trace (snd (bind (http_get q) k s)) = trace s ++ [EvGet q]).
  { intros q k Hk. unfold bind. rewrite http_get_run. cbv zeta.
    destruct (fst (session_get q (world s))); [reflexivity|]. now rewrite Hk. }
  assert (Hk : forall (f : IssuesJson -> option Z) (r : Response IssuesJson)
                      (s0 : State W),
            trace (snd (((if status_code r =? 200
                          then data <- json r ;; ret (f data)
                          else raise (Exception ("HTTP " +:+ Text.str_int (status_code r))))
                         : M (State W) (option Z)) s0)) = trace s0).
  { intros f r s0. destruct (_ =? _); [|reflexivity].
    unfold bind, json. now destruct (body r). }
  intros [<-|[<-|[<-|[]]]]; eexists; (split; [apply Hone, Hk|]); now repeat split.
Qed.

(** X8.  A probe of a user records itself and then sends, outside test
    mode, between one and three queries, all about that user and none of
    them an update; in test mode it sends nothing. *)
Theorem probe_requests (cfg : Config) (uid : Z) (s : State W) :
  exists queries,
    trace (snd (get_user_workload cfg uid s)) = trace s ++ EvProbe uid :: queries /\
    Forall (fun e => exists q, e = EvGet q /\ q_assigned_to_id q = uid /\
                               q_project_id q = None /\ q_limit q = 100) queries /\
    (if TEST_MODE cfg then queries = []
     else (1 <= length queries <= 3)%nat).
Proof.
  rewrite get_user_workload_probing. destruct (TEST_MODE cfg).
  - exists []. repeat split. constructor.
  - set (s0 := probing uid s).
    assert (Hs0 : trace s0 = trace s ++ [EvProbe uid]) by reflexivity.
    assert (Hm : forall (m : @strategy W) (s1 : State W), In m methods ->
              exists q, trace (snd (m uid s1)) = trace s1 ++ [EvGet q] /\
                (fun e => exists q, e = EvGet q /\ q_assigned_to_id q = uid /\
                                    q_project_id q = None /\ q_limit q = 100) (EvGet q)).
    { intros m s1 Hin. destruct (method_sends_one_query m uid s1 Hin) as (q & Ht & Hq).
      exists q. split; [exact Ht|]. now exists q. }
    unfold methods in *. cbv beta iota. fold s0.
    rewrite (try_methods_cons _get_workload_method_1
               [_get_workload_method_2; _get_workload_method_3] uid s0).
    destruct (Hm _get_workload_method_1 s0 ltac:(simpl; tauto)) as (q1 & H1 & P1).
    destruct (_get_workload_method_1 uid s0) as [r1 s1]. cbn [snd] in H1.
    assert (Hrest : exists queries,
              trace (snd (try_methods [_get_workload_method_2; _get_workload_method_3]
                            uid s1)) = trace s ++ EvProbe uid :: queries /\
              Forall (fun e => exists q, e = EvGet q /\ q_assigned_to_id q = uid /\
                                         q_project_id q = None /\ q_limit q = 100)
                     queries /\
              (1 <= length queries <= 3)%nat).
    { rewrite (try_methods_cons _get_workload_method_2 [_get_workload_method_3] uid s1).
      destruct (Hm _get_workload_method_2 s1 ltac:(simpl; tauto)) as (q2 & H2 & P2).
      destruct (_get_workload_method_2 uid s1) as [r2 s2]. cbn [snd] in H2.
      assert (Hlast : exists queries,
                trace (snd (try_methods [_get_workload_method_3] uid s2))
                = trace s ++ EvProbe uid :: queries /\
                Forall (fun e => exists q, e = EvGet q /\ q_assigned_to_id q = uid /\
                                           q_project_id q = None /\ q_limit q = 100)
                       queries /\
                (1 <= length queries <= 3)%nat).
      { rewrite (try_methods_cons _get_workload_method_3 [] uid s2).
        destruct (Hm _get_workload_method_3 s2 ltac:(simpl; tauto)) as (q3 & H3 & P3).
        destruct (_get_workload_method_3 uid s2) as [r3 s3]. cbn [snd] in H3.
        exists [EvGet q1; EvGet q2; EvGet q3].
        split; [|split; [repeat constructor; assumption | simpl; lia]].
        assert (Ht : trace s3 = trace s ++ [EvProbe uid; EvGet q1; EvGet q2; EvGet q3]).
        { rewrite H3, H2, H1, Hs0, <- !app_assoc. reflexivity. }
        destruct r3 as [[w|]|e]; exact Ht. }
      destruct r2 as [[w|]|e]; try exact Hlast.
      exists [EvGet q1; EvGet q2].
      split; [|split; [repeat constructor; assumption | simpl; lia]].
      cbn [snd]. rewrite H2, H1, Hs0, <- !app_assoc. reflexivity. }
    destruct r1 as [[w|]|e]; try exact Hrest.
    exists [EvGet q1].
    split; [|split; [repeat constructor; assumption | simpl; lia]].
    cbn [snd]. rewrite H1, Hs0, <- !app_assoc. reflexivity.
Qed.

(** X9.  [analyze_with_ollama] asks the generation backend once, with the
    configured model and timeout, whatever the answer: there is no second
    attempt before the fallback. *)
Theorem analysis_asks_once (cfg : Config) (ticket : Ticket)
  (environment priority : string) (s : State W) :
  trace (snd (analyze_with_ollama cfg ticket environment priority s))
  = trace s ++ [ EvAnalyze (t_id ticket);
                 EvPost (generation_request cfg ticket environment priority) ] /\
  p_model (generation_request cfg ticket environment priority) = OLLAMA_MODEL cfg /\
  p_timeout (generation_request cfg ticket environment priority) = OLLAMA_TIMEOUT cfg.
Proof.
  split; [|split; reflexivity].
  rewrite analyze_with_ollama_run.
  unfold try_except, ollama_request, bind.
  fold (generation_request cfg ticket environment priority).
  rewrite http_post_run. cbv zeta. cbn [trace world].
  rewrite <- app_assoc. cbn [app].
  destruct (fst (requests_post _ _)) as [e|r]; [reflexivity|].
  destruct (status_code r =? 200); [|reflexivity].
  unfold json. destruct (body r) as [j|]; [|reflexivity].
  unfold ret. destruct (Text.truthy _); reflexivity.
Qed.

End Calls.

(** ** The fetch, and what test mode leaves out *)
Section TestMode.
Context {W : Type} `{External W}.

Lemma emits_lift (P : Event -> Prop) {A} (m : M (State W) A) :
  emits P m -> emits_in_run P (lift m).
Proof.
  intros Hm [l s]. destruct (Hm s) as (evs & Ht & HF).
  exists evs. unfold lift. cbn [fst snd] in *.
  destruct (m s) as [r s']. now split.
Qed.

Lemma emits_update (P : Event -> Prop) f : emits_in_run (W := W) P (update f).
Proof. now apply emits_on_silent. Qed.

Lemma emits_analyze_with_ollama (P : Event -> Prop) cfg ticket env prio :
  (forall t, P (EvAnalyze t)) -> (forall q, P (EvPost q)) ->
  emits P (analyze_with_ollama cfg ticket env prio).
Proof.
  intros Ha Hp. unfold analyze_with_ollama.
  apply emits_on_bind; [now apply emits_emit|]. intros _.
  apply emits_on_bind.
  - apply emits_on_try_except; [|intros; apply emits_on_ret].
    unfold ollama_request. apply emits_on_bind; [now apply emits_http_post|].
    intros r. destruct (_ =? _); [|apply emits_on_ret].
    apply emits_on_bind; [apply emits_json|]. intros j.
    destruct (Text.truthy _); apply emits_on_ret.
  - intros [a|]; [apply emits_on_ret | apply emits_on_of_result].
Qed.

Lemma emits_add_priority_downgrade_note (P : Event -> Prop) tid env pid :
  (forall q, P (EvPut q)) -> emits P (add_priority_downgrade_note tid env pid).
Proof.
  intros Hp. unfold add_priority_downgrade_note.
  apply emits_on_try_except; [|intros; apply emits_on_ret].
  apply emits_on_bind; [now apply emits_http_put|]. intros r.
  apply emits_on_bind; [apply emits_raise_for_status | intros; apply emits_on_ret].
Qed.

Lemma emits_assign_ticket_in_redmine (P : Event -> Prop) tid assignee ai :
  (forall q, P (EvPut q)) -> emits P (assign_ticket_in_redmine tid assignee ai).
Proof.
  intros Hp. unfold assign_ticket_in_redmine.
  apply emits_on_try_except; [|intros; apply emits_on_ret].
  apply emits_on_bind; [apply emits_on_getitem|]. intros uid.
  apply emits_on_bind; [now apply emits_http_put|]. intros r.
  apply emits_on_bind; [apply emits_raise_for_status | intros; apply emits_on_ret].
Qed.

Section Body.
Variable P : Event -> Prop.
Variable cfg : Config.
Hypothesis probes : forall uid, emits P (get_user_workload cfg uid).
Hypothesis puts : forall q, P (EvPut q).
Hypothesis posts : forall q, P (EvPost q).
Hypothesis analyses : forall t, P (EvAnalyze t).

Lemma emits_process_ticket bh ticket : emits_in_run P (process_ticket cfg bh ticket).
Proof.
  unfold process_ticket, emits_in_run.
  apply emits_on_bind; [apply emits_on_of_result|]. intros subject.
  apply emits_on_bind; [apply emits_on_of_result|]. intros a.
  apply emits_on_bind.
  { destruct (was_downgraded _); [|apply emits_on_ret].
    apply emits_on_bind; [apply emits_update|]. intros _.
    apply emits_on_bind; [|intros; apply emits_on_ret].
    now apply emits_lift, emits_add_priority_downgrade_note. }
  intros _. apply emits_on_bind.
  { now apply emits_lift, emits_find_best_assignee. }
  intros [assignee|]; [|apply emits_update].
  apply emits_on_bind.
  { now apply emits_lift, emits_analyze_with_ollama. }
  intros ai. apply emits_on_bind; [apply emits_update|]. intros _.
  apply emits_on_bind.
  { now apply emits_lift, emits_assign_ticket_in_redmine. }
  intros ok.
  apply emits_on_bind; [apply emits_on_getitem|]. intros uid.
  apply emits_on_bind; [apply emits_on_getitem|]. intros kind.
  apply emits_on_bind; [apply emits_on_getitem|]. intros why.
  apply emits_update.
Qed.

Lemma emits_process_ticket_guarded bh ticket :
  emits_in_run P (process_ticket_guarded cfg bh ticket).
Proof.
  unfold process_ticket_guarded.
  apply emits_on_try_except; [apply emits_process_ticket|].
  intros e. apply emits_update.
Qed.

Lemma emits_is_business_hours : emits P (is_business_hours cfg).
Proof.
  apply emits_on_silent. intros s. rewrite is_business_hours_run.
  now destruct (current_hour _ _).
Qed.

Hypothesis fetch : emits P (get_new_devops_tickets cfg).

Lemma emits_process_tickets : emits P (process_tickets cfg).
Proof.
  intros s. rewrite process_tickets_run. cbv zeta.
  assert (Htry : emits_in_run P (process_tickets_try cfg (isoformat_now (world s)))).
  { unfold process_tickets_try, emits_in_run.
    apply emits_on_bind; [now apply emits_lift|]. intros [|t tickets].
    - apply emits_on_ret.
    - apply emits_on_bind; [apply emits_lift, emits_is_business_hours|]. intros bh.
      apply emits_on_bind.
      + apply emits_on_for_each. intros x. apply emits_process_ticket_guarded.
      + intros _. apply emits_on_bind; [apply emits_on_gets | intros; apply emits_on_ret]. }
  destruct (Htry (no_locals, s)) as (evs & Ht & HF). exists evs.
  destruct (process_tickets_try _ _ _) as [[r|e] [l s']]; now split.
Qed.

End Body.

Lemma get_new_devops_tickets_run cfg (s : State W) :
  get_new_devops_tickets cfg s =
  if TEST_MODE cfg then (Ok [ticket_99991; ticket_99992], s)
  else
    let s' := {| world := snd (session_get (fetch_request cfg) (world s));
                 trace := trace s ++ [EvGet (fetch_request cfg)] |} in
    match fst (session_get (fetch_request cfg) (world s)) with
    | Raises _ => (Ok [], s')
    | Responds r =>
        if (400 <=? status_code r) && (status_code r <? 600) then (Ok [], s')
        else match body r with
             | Some data => (Ok (default [] (issues data)), s')
             | None => (Ok [], s')
             end
    end.
Proof.
  unfold get_new_devops_tickets. destruct (TEST_MODE cfg); [reflexivity|].
  unfold try_except, bind. fold (fetch_request cfg). rewrite http_get_run. cbv zeta.
  destruct (fst (session_get _ (world s))) as [e|r]; [reflexivity|].
  unfold raise_for_status. destruct (_ && _); [reflexivity|].
  unfold ret at 1. unfold json. destruct (body r); reflexivity.
Qed.

(** X10.  [get_new_devops_tickets] never raises.  In test mode it returns
    the two simulated tickets and sends nothing.  Otherwise it sends one
    query, for the new tickets of the project that are assigned to the team
    group, at most 50 of them, and returns the [issues] of an answer whose
    status is outside 400..599 and whose body can be decoded, no ticket when
    the answer has no such key. *)
Theorem fetch_outcome (cfg : Config) (s : State W) :
  (exists tickets s', get_new_devops_tickets cfg s = (Ok tickets, s')) /\
  (TEST_MODE cfg = true ->
   get_new_devops_tickets cfg s = (Ok [ticket_99991; ticket_99992], s)) /\
  (TEST_MODE cfg = false ->
   trace (snd (get_new_devops_tickets cfg s)) = trace s ++ [EvGet (fetch_request cfg)] /\
   q_status_id (fetch_request cfg) = Some "1" /\ q_limit (fetch_request cfg) = 50 /\
   forall r data,
     fst (session_get (fetch_request cfg) (world s)) = Responds r ->
     ~ (400 <= status_code r < 600) -> body r = Some data ->
     fst (get_new_devops_tickets cfg s) = Ok (default [] (issues data))).
Proof.
  rewrite get_new_devops_tickets_run. split; [|split].
  - destruct (TEST_MODE cfg); [now eexists _, _|]. cbv zeta.
    destruct (fst (session_get _ _)) as [e|r]; [now eexists _, _|].
    destruct (_ && _); [now eexists _, _|].
    destruct (body r); now eexists _, _.
  - now intros ->.
  - intros ->. cbv zeta. split; [|split; [reflexivity|split; [reflexivity|]]].
    + destruct (fst (session_get _ _)) as [e|r]; [reflexivity|].
      destruct (_ && _); [reflexivity|]. destruct (body r); reflexivity.
    + intros r data -> Hst Hb.
      assert (E : (400 <=? status_code r) && (status_code r <? 600) = false).
      { apply andb_false_iff. rewrite Z.leb_gt, Z.ltb_ge. lia. }
      now rewrite E, Hb.
Qed.

(** X11.  In test mode a run reads nothing from the tracker: whatever
    happens, [process_tickets] sends no query. *)
Theorem test_mode_sends_no_query (cfg : Config) :
  TEST_MODE cfg = true -> emits is_not_get (process_tickets cfg).
Proof.
  intros Ht. apply emits_process_tickets; try (intros; exact I).
  - intros uid. eapply emits_on_weaken; [|now apply emits_get_user_workload_test].
    intros [q|q|q|u|t]; cbn; tauto.
  - apply emits_on_silent. intros s. rewrite get_new_devops_tickets_run, Ht.
    reflexivity.
Qed.

Lemma route_and_record_grows cfg bh ticket subject a l (s : State W) :
  exists evs,
    trace (snd (snd (route_and_record cfg bh ticket subject a l s))) = trace s ++ evs.
Proof.
  set (any := fun _ : Event => True).
  assert (Hprobe : forall uid, emits any (get_user_workload cfg uid)).
  { intros uid. eapply emits_on_weaken; [|apply emits_get_user_workload]. now intros. }
  unfold route_and_record.
  destruct (emits_find_best_assignee any cfg Hprobe (adjusted_priority a) bh s)
    as (e1 & H1 & _).
  destruct (find_best_assignee cfg (adjusted_priority a) bh s)
    as [[[assignee|]|e] s1]; cbn [snd] in H1; [|now exists e1..].
  destruct (emits_analyze_with_ollama any cfg ticket (environment a)
              (adjusted_priority a) ltac:(now intros) ltac:(now intros) s1)
    as (e2 & H2 & _).
  destruct (analyze_with_ollama cfg ticket (environment a) (adjusted_priority a) s1)
    as [[ai|e] s2]; cbn [snd] in H2;
    [|exists (e1 ++ e2); cbn [snd]; now rewrite H2, H1, app_assoc].
  destruct (emits_assign_ticket_in_redmine any (t_id ticket) assignee ai
              ltac:(now intros) s2) as (e3 & H3 & _).
  assert (Hend : trace (snd (assign_ticket_in_redmine (t_id ticket) assignee ai s2))
                 = trace s ++ (e1 ++ e2 ++ e3)).
  { cbn [snd] in H3. rewrite H3, H2, H1, <- !app_assoc. reflexivity. }
  destruct (assign_ticket_in_redmine (t_id ticket) assignee ai s2) as [[ok|e] s3];
    cbn [snd] in Hend; [|eexists; exact Hend].
  exists (e1 ++ e2 ++ e3).
  destruct (user_id (member assignee)); [|exact Hend].
  destruct (assignment_type assignee); [|exact Hend].
  destruct (reason assignee); exact Hend.
Qed.

(** The first call made for a ticket that the arbiter downgrades is the
    update of its priority. *)
Lemma downgrade_is_sent cfg bh ticket subject a l (s : State W) :
  arbitrated cfg ticket = Ok (subject, a) ->
  was_downgraded a = true ->
  exists evs,
    trace (snd (snd (process_ticket_guarded cfg bh ticket (l, s))))
    = trace s ++ EvPut (PutPriority (t_id ticket) (new_priority_id a) (environment a))
              :: evs.
Proof.
  intros Harb Hd.
  assert (Hg : forall (r : Result unit * (Locals * State W)),
            trace (snd (snd (match r with
                             | (Ok a, ls) => (Ok a, ls)
                             | (Raise e, ls) => append_error (error_message ticket e) ls
                             end))) = trace (snd (snd r))).
  { intros [[[]|e] [l1 s1]]; reflexivity. }
  unfold process_ticket_guarded, try_except. rewrite Hg, process_ticket_run.
  rewrite Harb, Hd, add_priority_downgrade_note_run.
  match goal with
  | |- context [route_and_record cfg bh ticket subject a ?l0 ?s0] =>
      destruct (route_and_record_grows cfg bh ticket subject a l0 s0) as (evs & ->)
  end.
  exists evs. cbn [trace]. now rewrite <- app_assoc.
Qed.

(** X12.  Test mode simulates the reads only.  When no production alias
    occurs in [dev] and the clock answers, every run in test mode sends the
    tracker the update that sets ticket 99992 to priority 5. *)
Theorem test_mode_still_updates (cfg : Config) (s : State W) (h : Z) :
  TEST_MODE cfg = true ->
  Text.any_in (CRITICAL_ENVIRONMENTS cfg) "dev" = false ->
  current_hour (bh_timezone (BUSINESS_HOURS cfg)) (world s) = Ok h ->
  In (EvPut (PutPriority 99992 5 "dev")) (trace (snd (process_tickets cfg s))).
Proof.
  intros Ht Hdev Hclock.
  assert (Hfetch : get_new_devops_tickets cfg s = (Ok [ticket_99991; ticket_99992], s)).
  { rewrite get_new_devops_tickets_run, Ht. reflexivity. }
  assert (Hbh : exists bh, is_business_hours cfg s = (Ok bh, s)).
  { rewrite is_business_hours_run, Hclock. now eexists. }
  destruct Hbh as (bh & Hbh).
  assert (Hne : [ticket_99991; ticket_99992] <> []) by discriminate.
  rewrite (process_tickets_batch cfg s _ s bh Hne Hfetch Hbh).
  cbv zeta. cbn [snd]. rewrite !for_each_cons. cbn [for_each ret snd].
  destruct (process_ticket_guarded cfg bh ticket_99991 (no_locals, s)) as [r1 [l1 s1]].
  cbn [snd].
  assert (Ha : arbitrated cfg ticket_99992
               = Ok ("Development environment deployment failing",
                     {| original_priority := "P1(Critical)";
                        adjusted_priority := "P2(High)";
                        environment := "dev"; was_downgraded := true;
                        new_priority_id := 5 |})).
  { unfold arbitrated. cbn [Py.sliced t_subject ticket_99992].
    rewrite (analyze_text_tag cfg ticket_99992 "dev" eq_refl).
    change (String.eqb (declared ticket_99992) "P1(Critical)") with true.
    cbv iota. rewrite Hdev. reflexivity. }
  destruct (downgrade_is_sent cfg bh ticket_99992 _ _ l1 s1 Ha eq_refl) as (evs & ->).
  cbn [t_id ticket_99992 new_priority_id environment].
  apply in_or_app. right. left. reflexivity.
Qed.

End TestMode.

Lemma router_only_reads_witness :
  exists evs,
    trace (snd (find_best_assignee (with_test_mode true config) "P2(High)" true
                  (start unreachable_server))) = [] ++ evs /\
    Forall is_not_request evs.
Proof.
  destruct (router_only_reads (W := Server) (with_test_mode true config)
              "P2(High)" true) as (_ & Htest).
  apply (Htest eq_refl (start unreachable_server)).
Defined.

Lemma fetch_outcome_witness :
  get_new_devops_tickets (with_test_mode true config) (start unreachable_server)
  = (Ok [ticket_99991; ticket_99992], start unreachable_server) /\
  fst (get_new_devops_tickets config
         (start (ticket_server [ticket_99992] table_load 10))) = Ok [ticket_99992].
Proof.
  split.
  - apply (fetch_outcome (with_test_mode true config) (start unreachable_server)).
    reflexivity.
  - destruct (fetch_outcome config (start (ticket_server [ticket_99992] table_load 10)))
      as (_ & _ & Hlive).
    destruct (Hlive eq_refl) as (_ & _ & _ & Hissues).
    apply (Hissues {| status_code := 200;
                      body := Some {| total_count := Absent;
                                      issues := Some [ticket_99992] |} |}
                   {| total_count := Absent; issues := Some [ticket_99992] |});
      [reflexivity | simpl; lia | reflexivity].
Defined.

Lemma test_mode_sends_no_query_witness :
  exists evs,
    trace (snd (process_tickets (with_test_mode true config)
                  (start (counting_server table_load 10)))) = [] ++ evs /\
    Forall is_not_get evs.
Proof.
  apply (test_mode_sends_no_query (W := Server) (with_test_mode true config) eq_refl
           (start (counting_server table_load 10))).
Defined.

Lemma test_mode_still_updates_witness :
  In (EvPut (PutPriority 99992 5 "dev"))
     (trace (snd (process_tickets (with_test_mode true config)
                    (start unreachable_server)))).
Proof.
  apply (test_mode_still_updates (with_test_mode true config)
           (start unreachable_server) 10); reflexivity.
Defined.

(** ** The workload report *)
Section Report.
Context {W : Type} `{External W}.

Lemma map_m_cons {A B} (f : A -> M (State W) B) x l (s : State W) :
  map_m f (x :: l) s =
  match f x s with
  | (Ok y, s1) =>
      match map_m f l s1 with
      | (Ok ys, s2) => (Ok (y :: ys), s2)
      | (Raise e, s2) => (Raise e, s2)
      end
  | (Raise e, s1) => (Raise e, s1)
  end.
Proof. reflexivity. Qed.

Lemma map_m_Forall2 {A B} (f : A -> M (State W) B) (R : A -> B -> Prop) l :
  (forall x s y s', f x s = (Ok y, s') -> R x y) ->
  forall s ys s', map_m f l s = (Ok ys, s') -> Forall2 R l ys.
Proof.
  intros Hf. induction l as [|x l IH]; intros s ys s'.
  - intros [= <- _]. constructor.
  - rewrite map_m_cons. destruct (f x s) as [[y|e] s1] eqn:E; [|discriminate].
    destruct (map_m f l s1) as [[ys'|e] s2] eqn:E'; [|discriminate].
    intros [= <- _]. constructor; [eapply Hf; exact E | eapply IH; exact E'].
Qed.

Lemma l1_entry_run cfg m (s : State W) :
  l1_entry cfg m s =
  match user_id m with
  | None => (Raise (KeyError "user_id"), s)
  | Some uid =>
      match max_tickets m with
      | None => (Raise (KeyError "max_tickets"), snd (get_user_workload cfg uid s))
      | Some cap =>
          let w := match fst (get_user_workload cfg uid s) with
                   | Ok w => w | Raise _ => 0 end in
          (Ok {| tw_user_id := uid; tw_name := name m; tw_max_tickets := Some cap;
                 tw_current_tickets := w;
                 tw_status := if w <? cap then "available" else "at_capacity" |},
           snd (get_user_workload cfg uid s))
      end
  end.
Proof.
  unfold l1_entry, try_except, bind, getitem.
  destruct (user_id m) as [uid|]; [|reflexivity].
  unfold ret at 1. destruct (get_user_workload_returns cfg uid s) as (w & s1 & ->).
  destruct (max_tickets m) as [cap|]; reflexivity.
Qed.

Lemma l2_entry_run cfg m (s : State W) :
  l2_entry cfg m s =
  match user_id m with
  | None => (Raise (KeyError "user_id"), s)
  | Some uid =>
      let w := match fst (get_user_workload cfg uid s) with
               | Ok w => w | Raise _ => 0 end in
      (Ok {| tw_user_id := uid; tw_name := name m; tw_max_tickets := None;
             tw_current_tickets := w; tw_status := "available" |},
       snd (get_user_workload cfg uid s))
  end.
Proof.
  unfold l2_entry, try_except, bind, getitem.
  destruct (user_id m) as [uid|]; [|reflexivity].
  unfold ret at 1. destruct (get_user_workload_returns cfg uid s) as (w & s1 & ->).
  reflexivity.
Qed.

Lemma l1_entry_ok cfg m (s : State W) e s' :
  l1_entry cfg m s = (Ok e, s') -> reports m e /\ l1_status_ok e.
Proof.
  rewrite l1_entry_run. destruct (user_id m) as [uid|] eqn:Eu; [|discriminate].
  destruct (max_tickets m) as [cap|] eqn:Ec; [|discriminate].
  cbv zeta. intros [= <- _]. split; [now repeat split|].
  set (w := match fst (get_user_workload cfg uid s) with Ok w => w | Raise _ => 0 end).
  exists cap. split; [reflexivity|]. cbn [tw_status tw_current_tickets].
  destruct (Z.ltb_spec w cap); [left | right]; now split.
Qed.

Lemma l2_entry_available cfg m (s : State W) e s' :
  l2_entry cfg m s = (Ok e, s') ->
  user_id m = Some (tw_user_id e) /\ tw_name e = name m /\
  tw_max_tickets e = None /\ tw_status e = "available".
Proof.
  rewrite l2_entry_run. destruct (user_id m) as [uid|] eqn:Eu; [|discriminate].
  cbv zeta. intros [= <- _]. now repeat split.
Qed.

Lemma get_team_workload_run cfg (s : State W) :
  get_team_workload cfg s =
  match map_m (l1_entry cfg) (L1_MEMBERS cfg) s with
  | (Raise e, s1) => (Raise (Exception ("Failed to get team workload: " +:+ str_exn e)), s1)
  | (Ok l1_workload, s1) =>
      match map_m (l2_entry cfg) (L2_MEMBERS cfg) s1 with
      | (Raise e, s2) =>
          (Raise (Exception ("Failed to get team workload: " +:+ str_exn e)), s2)
      | (Ok l2_workload, s2) =>
          match is_business_hours cfg s2 with
          | (Raise e, s3) =>
              (Raise (Exception ("Failed to get team workload: " +:+ str_exn e)), s3)
          | (Ok bh, s3) =>
              (Ok {| wr_l1_team := l1_workload; wr_l2_team := l2_workload;
                     wr_business_hours := bh;
                     wr_timestamp := isoformat_now (world s3);
                     wr_note := "Workload shows only 'In Progress' tickets (status_id=2)" |},
               s3)
          end
      end
  end.
Proof.
  unfold get_team_workload, try_except, bind.
  destruct (map_m (l1_entry cfg) _ s) as [[l1w|e] s1]; [|reflexivity].
  destruct (map_m (l2_entry cfg) _ s1) as [[l2w|e] s2]; [|reflexivity].
  destruct (is_business_hours cfg s2) as [[bh|e] s3]; reflexivity.
Qed.

(** X13.  In a report that [get_team_workload] returns, each team has one
    entry for each member, in configured order, with the id, name and
    capacity of the member.  A first-level entry is [available] when its
    load is below the capacity and [at_capacity] otherwise; a second-level
    entry has no capacity and is [available] whatever its load.  No entry of
    a returned report has the status [unknown]. *)
Theorem team_report_shape (cfg : Config) (s : State W)
  (report : WorkloadReport) (s' : State W) :
  get_team_workload cfg s = (Ok report, s') ->
  Forall2 (fun m e => reports m e /\ l1_status_ok e)
          (L1_MEMBERS cfg) (wr_l1_team report) /\
  Forall2 (fun m e => user_id m = Some (tw_user_id e) /\ tw_name e = name m /\
                      tw_max_tickets e = None /\ tw_status e = "available")
          (L2_MEMBERS cfg) (wr_l2_team report) /\
  Forall (fun e => tw_status e <> "unknown")
         (wr_l1_team report ++ wr_l2_team report).
Proof.
  rewrite get_team_workload_run.
  destruct (map_m (l1_entry cfg) _ s) as [[l1w|e] s1] eqn:E1; [|discriminate].
  destruct (map_m (l2_entry cfg) _ s1) as [[l2w|e] s2] eqn:E2; [|discriminate].
  destruct (is_business_hours cfg s2) as [[bh|e] s3]; [|discriminate].
  intros [= <- _]. cbn [wr_l1_team wr_l2_team].
  assert (H1 : Forall2 (fun m e => reports m e /\ l1_status_ok e) (L1_MEMBERS cfg) l1w).
  { eapply map_m_Forall2; [|exact E1]. intros m s0 e0 s0'. apply l1_entry_ok. }
  assert (H2 : Forall2 (fun m e => user_id m = Some (tw_user_id e) /\ tw_name e = name m /\
                                   tw_max_tickets e = None /\ tw_status e = "available")
                       (L2_MEMBERS cfg) l2w).
  { eapply map_m_Forall2; [|exact E2]. intros m s0 e0 s0'. apply l2_entry_available. }
  split; [exact H1|]. split; [exact H2|].
  apply Forall_app. split.
  - eapply Forall2_Forall_r; [exact H1|].
    apply Forall_true. intros m e (_ & cap & _ & [[-> _]|[-> _]]); discriminate.
  - eapply Forall2_Forall_r; [exact H2|].
    apply Forall_true. intros m e (_ & _ & _ & ->). discriminate.
Qed.

(** The loop over a team returns when every record carries its keys, and
    otherwise raises [KeyError] at the first record that does not. *)
Lemma map_m_l1_outcome cfg members :
  forall s : State W,
    (Forall (fun m => has_id m /\ max_tickets m <> None) members /\
     exists es s', map_m (l1_entry cfg) members s = (Ok es, s')) \/
    (~ Forall (fun m => has_id m /\ max_tickets m <> None) members /\
     exists key s', map_m (l1_entry cfg) members s = (Raise (KeyError key), s')).
Proof.
  induction members as [|m members IH]; intros s.
  - left. split; [constructor | now eexists _, _].
  - rewrite map_m_cons, l1_entry_run.
    destruct (user_id m) as [uid|] eqn:Eu.
    2:{ right. split; [|now eexists _, _].
        intros Hall. inversion Hall as [|? ? [Hid _] _]; subst. now apply Hid. }
    destruct (max_tickets m) as [cap|] eqn:Ec.
    2:{ right. split; [|now eexists _, _].
        intros Hall. inversion Hall as [|? ? [_ Hc] _]; subst. now apply Hc. }
    cbv zeta.
    destruct (IH (snd (get_user_workload cfg uid s)))
      as [(Hall & es & s' & ->)|(Hno & key & s' & ->)].
    + left. split; [|now eexists _, _].
      constructor; [|exact Hall]. unfold has_id. split; congruence.
    + right. split; [|now eexists _, _].
      intros Hall. inversion Hall; subst. now apply Hno.
Qed.

Lemma map_m_l2_outcome cfg members :
  forall s : State W,
    (Forall has_id members /\
     exists es s', map_m (l2_entry cfg) members s = (Ok es, s')) \/
    (~ Forall has_id members /\
     exists s', map_m (l2_entry cfg) members s = (Raise (KeyError "user_id"), s')).
Proof.
  induction members as [|m members IH]; intros s.
  - left. split; [constructor | now eexists _, _].
  - rewrite map_m_cons, l2_entry_run.
    destruct (user_id m) as [uid|] eqn:Eu.
    2:{ right. split; [|now eexists].
        intros Hall. inversion Hall as [|? ? Hid _]; subst. now apply Hid. }
    cbv zeta.
    destruct (IH (snd (get_user_workload cfg uid s)))
      as [(Hall & es & s' & ->)|(Hno & s' & ->)].
    + left. split; [|now eexists _, _].
      constructor; [|exact Hall]. unfold has_id. congruence.
    + right. split; [|now eexists].
      intros Hall. inversion Hall; subst. now apply Hno.
Qed.

(** X14.  [get_team_workload] raises nothing but [Exception], with the text
    [Failed to get team workload: ...] around the cause.  When every record
    carries the keys that the report reads, the only cause is the clock,
    which raised in the state where the call stopped.  When some record
    lacks a key, the call fails with the [KeyError] of that key, whatever
    the tracker answers. *)
Theorem team_report_failure (cfg : Config) (s : State W) :
  (forall e s', get_team_workload cfg s = (Raise e, s') ->
     exists cause, e = Exception ("Failed to get team workload: " +:+ str_exn cause)) /\
  (rosters_keyed cfg ->
   forall e s', get_team_workload cfg s = (Raise e, s') ->
     exists cause,
       e = Exception ("Failed to get team workload: " +:+ str_exn cause) /\
       current_hour (bh_timezone (BUSINESS_HOURS cfg)) (world s') = Raise cause) /\
  (~ rosters_keyed cfg ->
   exists key s',
     get_team_workload cfg s
     = (Raise (Exception ("Failed to get team workload: " +:+ str_exn (KeyError key))),
        s')).
Proof.
  rewrite get_team_workload_run. split; [|split].
  - intros e s'.
    destruct (map_m (l1_entry cfg) _ s) as [[l1w|e1] s1];
      [|intros [= <- _]; now exists e1].
    destruct (map_m (l2_entry cfg) _ s1) as [[l2w|e2] s2];
      [|intros [= <- _]; now exists e2].
    destruct (is_business_hours cfg s2) as [[bh|e3] s3];
      [discriminate | intros [= <- _]; now exists e3].
  - intros (Hl1 & Hl2) e s'.
    destruct (map_m_l1_outcome cfg (L1_MEMBERS cfg) s)
      as [(_ & l1w & s1 & ->)|(Hno & _)]; [|contradiction].
    destruct (map_m_l2_outcome cfg (L2_MEMBERS cfg) s1)
      as [(_ & l2w & s2 & ->)|(Hno & _)]; [|contradiction].
    rewrite is_business_hours_run.
    destruct (current_hour _ (world s2)) as [h|cause] eqn:Ec; [discriminate|].
    intros [= <- <-]. now exists cause.
  - intros Hno.
    destruct (map_m_l1_outcome cfg (L1_MEMBERS cfg) s)
      as [(Hl1 & l1w & s1 & ->)|(_ & key & s1 & ->)]; [|now eexists _, _].
    destruct (map_m_l2_outcome cfg (L2_MEMBERS cfg) s1)
      as [(Hl2 & _)|(_ & s2 & ->)]; [|now eexists _, _].
    destruct Hno. now split.
Qed.

Lemma available_in_report_cons m members e entries :
  available_in_report (m :: members) (e :: entries) =
  if String.eqb (tw_status e) "available"
  then (m, tw_current_tickets e) :: available_in_report members entries
  else available_in_report members entries.
Proof.
  unfold available_in_report. cbn [zip_with]. rewrite filter_cons. cbn [fst snd].
  destruct (String.eqb_spec (tw_status e) "available"); case_decide;
    try reflexivity; congruence.
Qed.

Lemma report_and_router_agree cfg members :
  forall acc (s : State W) entries s',
    map_m (l1_entry cfg) members s = (Ok entries, s') ->
    collect_available_l1 cfg members acc s
    = (Ok (acc ++ available_in_report members entries), s').
Proof.
  induction members as [|m members IH]; intros acc s entries s'.
  - intros [= <- <-]. cbn. now rewrite app_nil_r.
  - rewrite map_m_cons, l1_entry_run, collect_available_l1_cons.
    destruct (user_id m) as [uid|]; [|discriminate].
    destruct (max_tickets m) as [cap|]; [|discriminate].
    cbv zeta. destruct (get_user_workload_returns cfg uid s) as (w & s1 & ->).
    cbn [fst snd].
    destruct (map_m (l1_entry cfg) members s1) as [[es|e] s2] eqn:E; [|discriminate].
    intros [= <- <-]. rewrite available_in_report_cons. cbn [tw_status tw_current_tickets].
    destruct (w <? cap); cbn [String.eqb Ascii.eqb Bool.eqb andb].
    + rewrite (IH _ _ _ _ E), <- app_assoc. reflexivity.
    + now rewrite (IH _ _ _ _ E).
Qed.

(** X15.  The report and the router agree: in the state in which
    [get_team_workload] returned a report, the candidates that the router
    collects from the first-level team are the members that the report shows
    [available], with the loads that it shows. *)
Theorem report_matches_router (cfg : Config) (s : State W)
  (report : WorkloadReport) (s' : State W) :
  get_team_workload cfg s = (Ok report, s') ->
  fst (collect_available_l1 cfg (L1_MEMBERS cfg) [] s)
  = Ok (available_in_report (L1_MEMBERS cfg) (wr_l1_team report)).
Proof.
  rewrite get_team_workload_run.
  destruct (map_m (l1_entry cfg) _ s) as [[l1w|e] s1] eqn:E1; [|discriminate].
  destruct (map_m (l2_entry cfg) _ s1) as [[l2w|e] s2]; [|discriminate].
  destruct (is_business_hours cfg s2) as [[bh|e] s3]; [|discriminate].
  intros [= <- _]. cbn [wr_l1_team].
  now rewrite (report_and_router_agree cfg _ [] s l1w s1 E1).
Qed.

End Report.

(** With the loads of the test table nobody of the first level is full; the
    second level is shown available. *)
Example report_of_the_test_table :
  match fst (get_team_workload config (start (counting_server table_load 10))) with
  | Ok report =>
      (map (fun e => (tw_user_id e, tw_current_tickets e, tw_status e))
           (wr_l1_team report),
       map (fun e => (tw_user_id e, tw_current_tickets e, tw_status e))
           (wr_l2_team report),
       wr_business_hours report)
  | Raise _ => ([], [], false)
  end
  = ([ (1239, 1, "available"); (1330, 3, "available"); (1329, 0, "available");
       (1328, 4, "available"); (1327, 2, "available"); (1155, 1, "available");
       (1795, 3, "available") ],
     [ (21, 5, "available"); (155, 3, "available"); (11, 2, "available");
       (10, 4, "available") ], true).
Proof. vm_compute. reflexivity. Qed.

(** No probe answers: the first level is shown at capacity with the
    sentinel as its load, the second level available with the same load. *)
Example report_without_tracker :
  match fst (get_team_workload config (start unreachable_server)) with
  | Ok report =>
      (remove_dups (map (fun e => (tw_current_tickets e, tw_status e))
                        (wr_l1_team report)),
       remove_dups (map (fun e => (tw_current_tickets e, tw_status e))
                        (wr_l2_team report)))
  | Raise _ => ([], [])
  end
  = ([ (999, "at_capacity") ], [ (999, "available") ]).
Proof. vm_compute. reflexivity. Qed.

Lemma config_rosters_keyed : rosters_keyed config.
Proof. split; repeat constructor; discriminate. Qed.

Lemma team_report_shape_witness :
  exists report s',
    get_team_workload config (start (counting_server table_load 10)) = (Ok report, s') /\
    Forall (fun e => tw_status e <> "unknown")
           (wr_l1_team report ++ wr_l2_team report).
Proof.
  destruct (get_team_workload config (start (counting_server table_load 10)))
    as [[report|e] s'] eqn:E.
  - exists report, s'. split; [reflexivity|].
    apply (team_report_shape config (start (counting_server table_load 10)) report s' E).
  - vm_compute in E. discriminate.
Defined.

Lemma team_report_failure_witness :
  exists key s',
    get_team_workload config_with_guest (start (counting_server table_load 10))
    = (Raise (Exception ("Failed to get team workload: " +:+ str_exn (KeyError key))),
       s').
Proof.
  apply (team_report_failure config_with_guest (start (counting_server table_load 10))).
  intros (_ & Hl2). inversion Hl2 as [|? ? _ Hrest]; subst.
  inversion Hrest as [|? ? Hguest _]; subst. now apply Hguest.
Defined.

Lemma report_matches_router_witness :
  exists report s',
    get_team_workload config (start (counting_server (fun _ => 5) 10))
    = (Ok report, s') /\
    fst (collect_available_l1 config (L1_MEMBERS config) []
           (start (counting_server (fun _ => 5) 10)))
    = Ok (available_in_report (L1_MEMBERS config) (wr_l1_team report)).
Proof.
  destruct (get_team_workload config (start (counting_server (fun _ => 5) 10)))
    as [[report|e] s'] eqn:E.
  - exists report, s'. split; [reflexivity|].
    apply (report_matches_router config (start (counting_server (fun _ => 5) 10))
             report s' E).
  - vm_compute in E. discriminate.
Defined.

(** ** The test of the generation backend *)
Section OllamaTest.
Context {W : Type} `{External W} `{ExternalTags W}.

Lemma in_list_In x l : in_list x l = true <-> In x l.
Proof.
  unfold in_list. rewrite existsb_exists. split.
  - intros (y & Hy & E). apply String.eqb_eq in E. now subst.
  - intros Hx. exists x. split; [exact Hx | apply String.eqb_refl].
Qed.

Lemma test_ollama_connection_run cfg (s : State W) :
  test_ollama_connection cfg s =
  let s1 := {| world := snd (requests_get_tags (world s)); trace := trace s |} in
  match fst (requests_get_tags (world s)) with
  | Raises e =>
      (Ok (failed_test cfg ("Ollama connection failed: " +:+ str_exn e) None), s1)
  | Responds r =>
      if status_code r =? 200 then
        match body r with
        | None =>
            (Ok (failed_test cfg ("Ollama connection failed: "
                                  +:+ str_exn JSONDecodeError) None), s1)
        | Some data =>
            if in_list (OLLAMA_MODEL cfg) (model_names data) then
              let r2 := analyze_with_ollama cfg test_ticket "test" "P3(Medium)" s1 in
              match fst r2 with
              | Ok analysis =>
                  (Ok {| ot_success := true; ot_error := None;
                         ot_endpoint := OLLAMA_BASE_URL cfg;
                         ot_model := Some (OLLAMA_MODEL cfg);
                         ot_available_models := Some (model_names data);
                         ot_test_analysis := Some analysis;
                         ot_timestamp := Some (isoformat_now (world (snd r2))) |},
                   snd r2)
              | Raise e =>
                  (Ok (failed_test cfg ("Ollama connection failed: " +:+ str_exn e)
                                   None), snd r2)
              end
            else
              (Ok (failed_test cfg ("Model '" +:+ OLLAMA_MODEL cfg +:+ "' not found")
                               (Some (model_names data))), s1)
        end
      else
        (Ok (failed_test cfg ("Ollama API unreachable: HTTP "
                              +:+ Text.str_int (status_code r)) None), s1)
  end.
Proof.
  unfold test_ollama_connection, try_except, bind, external. cbv zeta.
  destruct (requests_get_tags (world s)) as [[e|r] w']; [reflexivity|].
  cbn [fst snd]. destruct (status_code r =? 200); [|reflexivity].
  cbn [negb]. unfold json. destruct (body r) as [data|]; [|reflexivity].
  unfold ret at 1. destruct (in_list _ _); [|reflexivity].
  cbn [negb]. destruct (analyze_with_ollama _ _ _ _ _) as [[a|e] s2]; reflexivity.
Qed.

(** X16.  [test_ollama_connection] never raises.  It reports success exactly
    when the backend answered the list of its models with status 200 and a
    body that can be decoded, and the configured model is in the list under
    its exact name.  A successful report carries a sample analysis that is
    not empty, and it is successful also when the generation itself fails:
    the sample analysis is then the fallback template, which the fallback
    returns for the sample ticket. *)
Theorem ollama_test_outcome (cfg : Config) (s : State W) :
  let o := fst (requests_get_tags (world s)) in
  let s1 := {| world := snd (requests_get_tags (world s)); trace := trace s |} in
  exists t s',
    test_ollama_connection cfg s = (Ok t, s') /\
    (ot_success t = true <->
     exists r data, o = Responds r /\ status_code r = 200 /\ body r = Some data /\
                    In (OLLAMA_MODEL cfg) (model_names data)) /\
    (ot_success t = true ->
     ot_error t = None /\
     exists text, ot_test_analysis t = Some text /\ text <> "" /\
       (backend_fails (fst (requests_post
                              (generation_request cfg test_ticket "test" "P3(Medium)")
                              (world s1))) ->
        _generate_professional_fallback_analysis test_ticket "test" "P3(Medium)"
        = Ok text)) /\
    (ot_success t = false ->
     ot_test_analysis t = None /\ exists msg, ot_error t = Some msg).
Proof.
  cbv zeta. rewrite test_ollama_connection_run. cbv zeta.
  set (s1 := {| world := snd (requests_get_tags (world s)); trace := trace s |}).
  assert (Hfail : forall msg av (s' : State W),
            ((exists r data, fst (requests_get_tags (world s)) = Responds r /\
                            status_code r = 200 /\ body r = Some data /\
                            In (OLLAMA_MODEL cfg) (model_names data)) -> False) ->
            exists t s'0,
              (Ok (failed_test cfg msg av), s') = (Ok t, s'0) /\
              (ot_success t = true <->
               exists r data, fst (requests_get_tags (world s)) = Responds r /\
                              status_code r = 200 /\ body r = Some data /\
                              In (OLLAMA_MODEL cfg) (model_names data)) /\
              (ot_success t = true ->
               ot_error t = None /\
               exists text, ot_test_analysis t = Some text /\ text <> "" /\
                 (backend_fails (fst (requests_post
                                        (generation_request cfg test_ticket "test"
                                                            "P3(Medium)")
                                        (world s1))) ->
                  _generate_professional_fallback_analysis test_ticket "test"
                                                           "P3(Medium)" = Ok text)) /\
              (ot_success t = false ->
               ot_test_analysis t = None /\ exists msg, ot_error t = Some msg)).
  { intros msg av s' Hno. eexists _, _. split; [reflexivity|]. cbn.
    split; [split; [discriminate | intros Hex; destruct (Hno Hex)]|].
    split; [discriminate|]. intros _. split; [reflexivity | now eexists]. }
  destruct (fst (requests_get_tags (world s))) as [e|r] eqn:Eo.
  { apply Hfail. intros (r & data & [=] & _). }
  destruct (Z.eqb_spec (status_code r) 200) as [Est|Est].
  2:{ apply Hfail. intros (r' & data & [= <-] & Hst & _). contradiction. }
  destruct (body r) as [data|] eqn:Eb.
  2:{ apply Hfail. intros (r' & data & [= <-] & _ & Hb & _). congruence. }
  destruct (in_list (OLLAMA_MODEL cfg) (model_names data)) eqn:Ein.
  2:{ apply Hfail. intros (r' & data' & [= <-] & _ & Hb & Hin).
      assert (data' = data) as -> by congruence.
      apply in_list_In in Hin. congruence. }
  assert (Hsample : describes_in_text test_ticket).
  { split; [now eexists | right; now eexists]. }
  destruct (analyze_with_ollama_in_text cfg test_ticket "test" "P3(Medium)" s1 Hsample)
    as (text & s2 & Hrun & Hne & Hfb & _).
  rewrite Hrun. cbn [fst snd].
  eexists _, _. split; [reflexivity|]. cbn.
  split; [split; [intros _ | reflexivity]|].
  - exists r, data. repeat split; try assumption. now apply in_list_In.
  - split; [|discriminate]. intros _. split; [reflexivity|].
    exists text. repeat split; assumption.
Qed.

End OllamaTest.

Lemma ollama_test_outcome_witness :
  (exists t s',
     test_ollama_connection config (start (listing_server ["llama3.2:3b"; "phi3"]))
     = (Ok t, s') /\ ot_success t = true) /\
  (exists t s',
     test_ollama_connection config (start (listing_server ["llama3.2:latest"]))
     = (Ok t, s') /\ ot_success t = false).
Proof.
  split.
  - destruct (ollama_test_outcome config (start (listing_server ["llama3.2:3b"; "phi3"])))
      as (t & s' & Hrun & Hiff & _).
    exists t, s'. split; [exact Hrun|]. apply Hiff.
    eexists _, _. split; [reflexivity|]. split; [reflexivity|]. split; [reflexivity|].
    left. reflexivity.
  - destruct (ollama_test_outcome config (start (listing_server ["llama3.2:latest"])))
      as (t & s' & Hrun & Hiff & _).
    exists t, s'. split; [exact Hrun|].
    destruct (ot_success t); [|reflexivity].
    destruct (proj1 Hiff eq_refl) as (r & data & Hr & _ & Hb & Hin).
    injection Hr as <-. injection Hb as <-.
    destruct Hin as [Hin|[]]. discriminate.
Defined.

(** The generation is down and the test succeeds all the same. *)
Example test_succeeds_without_generation :
  exists t s',
    test_ollama_connection config (start (listing_server ["llama3.2:3b"])) = (Ok t, s') /\
    ot_success t = true /\
    Ok (default "" (ot_test_analysis t))
    = _generate_professional_fallback_analysis test_ticket "test" "P3(Medium)".
Proof. eexists _, _. split; [reflexivity|]. split; reflexivity. Qed.

(** ** The arbiter on a ticket it has already adjusted *)

(** X17.  The arbitration is stable: on the ticket that carries the adjusted
    priority (as the tracker holds it after the adjustment) the arbiter
    keeps this priority and its id, finds the same environment and
    downgrades nothing.  A ticket is downgraded at most once. *)
Theorem arbitration_is_stable (cfg : Config) (ticket : Ticket) (a : Arbitration) :
  analyze_priority_and_environment cfg ticket = Ok a ->
  analyze_priority_and_environment cfg (reprioritized a ticket)
  = Ok {| original_priority := adjusted_priority a;
          adjusted_priority := adjusted_priority a;
          environment := environment a;
          was_downgraded := false;
          new_priority_id := new_priority_id a |}.
Proof.
  unfold reprioritized, analyze_priority_and_environment, custom_fields_dict.
  cbn [t_priority t_custom_fields priority_name priority_id].
  destruct (Py.lower _) as [lowered|e]; [|discriminate].
  destruct (String.eqb (priority_name (t_priority ticket)) "P1(Critical)") eqn:E1.
  - destruct (Text.any_in _ _) eqn:E2; cbn [negb]; intros [= <-];
      cbn [adjusted_priority new_priority_id environment was_downgraded].
    + rewrite ?E1, ?E2. reflexivity.
    + reflexivity.
  - intros [= <-].
    cbn [adjusted_priority new_priority_id environment was_downgraded].
    rewrite E1. reflexivity.
Qed.

Lemma arbitration_is_stable_witness :
  analyze_priority_and_environment config
    (reprioritized {| original_priority := "P1(Critical)";
                      adjusted_priority := "P2(High)";
                      environment := "dev"; was_downgraded := true;
                      new_priority_id := 5 |} ticket_99992)
  = Ok {| original_priority := "P2(High)"; adjusted_priority := "P2(High)";
          environment := "dev"; was_downgraded := false; new_priority_id := 5 |}.
Proof.
  apply (arbitration_is_stable config ticket_99992
           {| original_priority := "P1(Critical)"; adjusted_priority := "P2(High)";
              environment := "dev"; was_downgraded := true; new_priority_id := 5 |}).
  reflexivity.
Defined.
